(** * LeetPeer dashboard cache: the server cache service and the client mirror

    A shallow embedding of the server class [CacheService] (with
    [getCachedData], [isCacheExpired], [setCachedData], [clearExpiredCache],
    [clearCache], [clearAllCache], [warmUpCache], [getDataWithCache] and
    [refreshCacheInBackground]) and of the mount effect of the React hook
    [useCachedQuery] (client/src/hooks/use-cached-query.ts).

    The [dashboard_cache] table is a finite map from [cacheKey] to its row,
    [Date] values are milliseconds in [Z], and every [async] method is a
    function from the world to an outcome (a value or a thrown error) and the
    next world. *)

From Stdlib Require Import ZArith QArith Qround Qabs Lqa Ascii DecimalString
  DecimalPos DecimalZ.
From stdpp Require Import gmap strings list fin_maps.

Local Open Scope string_scope.
Local Open Scope Z_scope.

Set Warnings "-register-all".

(** ** JavaScript values *)

(** The payloads are [any]: JSON-compatible values, plus [undefined]. Numbers
    are the integral ones (JSON has no NaN). *)
Inductive JsValue : Type :=
| JUndefined
| JNull
| JBool (b : bool)
| JNum (n : Z)
| JStr (s : string)
| JArr (items : list JsValue)
| JObj (fields : list (string * JsValue)).

(** ToBoolean: what [if (x)], [x && y] and [x || y] test. *)
Definition truthy (v : JsValue) : bool :=
  match v with
  | JUndefined | JNull => false
  | JBool b => b
  | JNum n => negb (n =? 0)
  | JStr s => negb (String.eqb s "")
  | JArr _ | JObj _ => true
  end.

(** A thrown value: an [Error] with its message, or anything else. *)
Inductive JsError : Type :=
| JsErr (message : string)
| JsThrown (v : JsValue).

(** [error instanceof Error ? error.message : 'Unknown error'] *)
Definition error_message (error : JsError) : string :=
  match error with
  | JsErr message => message
  | JsThrown _ => "Unknown error"
  end.

Inductive Outcome (A : Type) : Type :=
| Returned (a : A)
| Thrown (error : JsError).
Arguments Returned {A} a.
Arguments Thrown {A} error.

(** Template-literal rendering of an integer, [`${n}`]. *)
Definition show_Z (n : Z) : string := NilZero.string_of_int (Z.to_int n).

(** ** Effects *)

(** An [async] function or an effect callback over a state [S]: from the
    state it starts in to what it returns or throws and the state it leaves. *)
Definition Eff (S A : Type) : Type := S -> Outcome A * S.

Definition ret {S A} (a : A) : Eff S A := fun w => (Returned a, w).

Definition throw {S A} (error : JsError) : Eff S A := fun w => (Thrown error, w).

Definition bind {S A B} (m : Eff S A) (k : A -> Eff S B) : Eff S B :=
  fun w =>
    match m w with
    | (Returned a, w') => k a w'
    | (Thrown error, w') => (Thrown error, w')
    end.

(** The outcome of a call that leaves the state alone. *)
Definition attempt {S A} (outcome : Outcome A) : Eff S A :=
  fun w => (outcome, w).

(** [try { body } catch (error) { handler }] *)
Definition try_catch {S A} (body : Eff S A) (handler : JsError -> Eff S A)
    : Eff S A :=
  fun w =>
    match body w with
    | (Returned a, w') => (Returned a, w')
    | (Thrown error, w') => handler error w'
    end.

Declare Scope js_scope.
Delimit Scope js_scope with js.
Notation "x <- c ;; k" := (bind c (fun x => k))
  (at level 100, c at next level, right associativity) : js_scope.
Notation "c ;;; k" := (bind c (fun _ => k))
  (at level 100, right associativity) : js_scope.
Local Open Scope js_scope.

(** ** The server side: [CacheService] *)

Module CacheService.

(** A row of [dashboard_cache]; its [cacheKey] column, the conflict target of
    the upsert, is the key of the map that holds it. *)
Record CacheEntry : Type := {
  cacheData : JsValue;
  lastUpdated : Z;
  expiresAt : Z
}.

Inductive Level : Type := LOG | ERROR.

(** What a console call prints after its text: the caught error or a text. *)
Inductive LogArg : Type :=
| ArgError (error : JsError)
| ArgText (text : string).

(** One console line: the text and the second argument, if there is one. *)
Definition LogLine : Type := (Level * string * option LogArg)%type.

(** A data producer, [() => Promise<T>]: an [async] function whose promise
    resolves to a payload or rejects, possibly depending on when it is
    called. It does not touch the table. *)
Definition Producer : Type := Z -> Outcome JsValue.

(** The promise a producer call returned, with what it settles to. *)
Notation Promise := (Outcome JsValue) (only parsing).

Record World : Type := {
  db : gmap string CacheEntry;        (* the dashboard_cache table, with the
                                         payloads as they were written *)
  clock : Z;                          (* what new Date().getTime() reads *)
  faults : list bool;                 (* per statement sent to the database:
                                         does it fail? (none left: no) *)
  console : list LogLine;             (* oldest first *)
  calls : nat;                        (* producer calls made so far *)
  detached : list (string * Promise); (* refreshCacheInBackground calls
                                         started and not awaited: the key
                                         and the promise each waits for *)
  cacheData_column : JsValue -> JsValue
                                      (* the type of the cache_data column,
                                         declared in @shared/schema, which is
                                         not at hand: the payload a select
                                         hands back for a payload written *)
}.

Definition M (A : Type) : Type := Eff World A.

Definition set_db (d : gmap string CacheEntry) (w : World) : World :=
  {| db := d; clock := clock w; faults := faults w; console := console w;
     calls := calls w; detached := detached w;
     cacheData_column := cacheData_column w |}.

Definition set_faults (fs : list bool) (w : World) : World :=
  {| db := db w; clock := clock w; faults := fs; console := console w;
     calls := calls w; detached := detached w;
     cacheData_column := cacheData_column w |}.

Definition set_clock (t : Z) (w : World) : World :=
  {| db := db w; clock := t; faults := faults w; console := console w;
     calls := calls w; detached := detached w;
     cacheData_column := cacheData_column w |}.

Definition set_detached (tasks : list (string * Promise)) (w : World) : World :=
  {| db := db w; clock := clock w; faults := faults w; console := console w;
     calls := calls w; detached := tasks;
     cacheData_column := cacheData_column w |}.

(** [new Date()] *)
Definition new_Date : M Z := fun w => (Returned (clock w), w).

Definition add_line (line : LogLine) (w : World) : World :=
  {| db := db w; clock := clock w; faults := faults w;
     console := console w ++ [line];
     calls := calls w; detached := detached w;
     cacheData_column := cacheData_column w |}.

Definition emit (line : LogLine) : M unit :=
  fun w => (Returned tt, add_line line w).

Definition console_log (msg : string) : M unit := emit (LOG, msg, None).
Definition console_error (msg : string) (error : JsError) : M unit :=
  emit (ERROR, msg, Some (ArgError error)).

Definition count_call (w : World) : World :=
  {| db := db w; clock := clock w; faults := faults w; console := console w;
     calls := S (calls w); detached := detached w;
     cacheData_column := cacheData_column w |}.

(** [fetchFreshData()]: the producer is called, and the caller has its
    promise. *)
Definition call (producer : Producer) : M Promise :=
  fun w => (Returned (producer (clock w)), count_call w).

(** [await fetchFreshData()] and the [await storage.get...()] calls: the
    producer is called, and the caller goes on with what its promise resolved
    to, or throws what it rejected with. *)
Definition await_call {A} (producer : Z -> Outcome A) : M A :=
  fun w => (producer (clock w), count_call w).

(** An [async] method called without [await] has reached an [await] of its
    own: it is left waiting for the promise, its caller goes on, and
    [settle_one] takes it up again. *)
Definition suspend (task : string * Promise) : M unit :=
  fun w => (Returned tt, set_detached (detached w ++ [task]) w).

(** *** The storage contract (drizzle statements on [dashboard_cache]) *)

Definition db_error : JsError := JsErr "database error".

(** Does the next statement fail? An exhausted schedule means no more faults. *)
Definition next_fault (w : World) : bool := hd false (faults w).

Definition pop_fault (w : World) : World := set_faults (tl (faults w)) w.

(** Every statement first meets the fault schedule; a failed statement changes
    nothing. *)
Definition statement {A} (run : World -> A * World) : M A :=
  fun w =>
    if next_fault w
    then (Thrown db_error, pop_fault w)
    else let (a, w') := run (pop_fault w) in (Returned a, w').

(** A stored row as a select hands it back: its payload goes through the
    column. *)
Definition handed_back (w : World) (row : CacheEntry) : CacheEntry :=
  {| cacheData := cacheData_column w (cacheData row);
     lastUpdated := lastUpdated row;
     expiresAt := expiresAt row |}.

(** [db.select().from(dashboardCache).where(eq(cacheKey, k)).limit(1)] *)
Definition db_select (cacheKey : string) : M (list CacheEntry) :=
  statement (fun w =>
    (match db w !! cacheKey with
     | Some row => [handed_back w row]
     | None => []
     end, w)).

(** [db.insert(..).values(row).onConflictDoUpdate({target: cacheKey, set: ..})] *)
Definition db_upsert (cacheKey : string) (row : CacheEntry) : M unit :=
  statement (fun w => (tt, set_db (<[cacheKey := row]> (db w)) w)).

Definition expired_before (t : Z) (kv : string * CacheEntry) : Prop :=
  expiresAt kv.2 < t.

#[global] Instance expired_before_dec t kv : Decision (expired_before t kv).
Proof. unfold expired_before. apply _. Defined.

(** [db.delete(dashboardCache).where(lt(expiresAt, t))]; the result carries
    [rowCount], a number or [null]. *)
Definition db_delete_expired (t : Z) : M (option Z) :=
  statement (fun w =>
    (Some (Z.of_nat (size (filter (expired_before t) (db w)))),
     set_db (filter (fun kv => ¬ expired_before t kv) (db w)) w)).

(** [db.delete(dashboardCache).where(eq(cacheKey, k))] *)
Definition db_delete_key (cacheKey : string) : M unit :=
  statement (fun w => (tt, set_db (delete cacheKey (db w)) w)).

(** [db.delete(dashboardCache)] *)
Definition db_delete_all : M unit :=
  statement (fun w => (tt, set_db ∅ w)).

(** *** The service *)

Definition DEFAULT_CACHE_DURATION : Z := 15 * 60 * 1000.
Definition STALE_CACHE_DURATION : Z := 60 * 60 * 1000.
Definition PRODUCTION_WARMUP_LIMIT : nat := 20.

Definition getCachedData (cacheKey : string) : M JsValue :=
  try_catch
    (cached <- db_select cacheKey ;;
     match cached with
     | [] => ret JNull
     | cacheEntry :: _ =>
         now <- new_Date ;;
         (* Return data even if expired *)
         ret (cacheData cacheEntry)
     end)
    (fun error =>
       console_error "Error fetching cached data:" error ;;;
       ret JNull).

Definition isCacheExpired (cacheKey : string) : M bool :=
  try_catch
    (cached <- db_select cacheKey ;;
     match cached with
     | [] => ret true
     | row :: _ =>
         now <- new_Date ;;
         ret (expiresAt row <? now)
     end)
    (fun error =>
       console_error "Error checking cache expiry:" error ;;;
       ret true).

(** A [number] given for [customDuration]: a whole number of milliseconds, or
    [NaN]. *)
Inductive Duration : Type :=
| NaN_duration
| Millis (n : Z).

(** [customDuration || this.DEFAULT_CACHE_DURATION], with [None] for an
    omitted argument: [undefined], [0] and [NaN] are the falsy ones. *)
Definition duration_or_default (customDuration : option Duration) : Z :=
  match customDuration with
  | Some (Millis d) => if d =? 0 then DEFAULT_CACHE_DURATION else d
  | Some NaN_duration => DEFAULT_CACHE_DURATION
  | None => DEFAULT_CACHE_DURATION
  end.

Definition setCachedData (cacheKey : string) (data : JsValue)
    (customDuration : option Duration) : M unit :=
  try_catch
    (now <- new_Date ;;
     let expires := now + duration_or_default customDuration in
     let row := {| cacheData := data; lastUpdated := now; expiresAt := expires |} in
     db_upsert cacheKey row ;;;
     console_log ("Cache updated for key: " +:+ cacheKey))
    (fun error => console_error "Error setting cached data:" error).

(** [result.rowCount || 0] *)
Definition rowCount_or_zero (rowCount : option Z) : Z :=
  match rowCount with
  | Some n => if n =? 0 then 0 else n
  | None => 0
  end.

Definition clearExpiredCache : M Z :=
  try_catch
    (now <- new_Date ;;
     rowCount <- db_delete_expired now ;;
     let deletedCount := rowCount_or_zero rowCount in
     (if 0 <? deletedCount
      then console_log ("Cleared " +:+ show_Z deletedCount +:+ " expired cache entries")
      else ret tt) ;;;
     ret deletedCount)
    (fun error =>
       console_error "Error clearing expired cache:" error ;;;
       ret 0).

Definition clearCache (cacheKey : string) : M unit :=
  try_catch
    (db_delete_key cacheKey ;;;
     console_log ("Cache cleared for key: " +:+ cacheKey))
    (fun error => console_error "Error clearing cache:" error).

Definition clearAllCache : M unit :=
  try_catch
    (db_delete_all ;;;
     console_log "All cache cleared")
    (fun error => console_error "Error clearing all cache:" error).

(** *** Warm-up *)

(** A row of [students]; only its [id] is read here. *)
Record Student : Type := { student_id : Z }.

#[global] Instance Student_eq_dec : EqDecision Student.
Proof. solve_decision. Defined.

(** The [storage] module (../storage), whose dashboard queries are the data
    producers of the warm-up. *)
Record Storage : Type := {
  getAdminDashboard : Producer;
  getUniversityDashboard : Producer;
  getBatchDashboard : string -> Producer;
  getAllStudents : Z -> Outcome (list Student);
  getStudentDashboard : Z -> Producer
}.

(** [`student_${student.id}`] *)
Definition student_key (id : Z) : string := "student_" +:+ show_Z id.

(** [isProduction ? this.PRODUCTION_WARMUP_LIMIT : 50], where [isProduction]
    is [process.env.NODE_ENV === 'production']. *)
Definition studentLimit (NODE_ENV : option string) : nat :=
  if bool_decide (NODE_ENV = Some "production")
  then PRODUCTION_WARMUP_LIMIT else 50%nat.

(** The body of [for (const student of recentlyActiveStudents)]. *)
Definition warm_student (storage : Storage) (student : Student) : M unit :=
  try_catch
    (studentData <- await_call (getStudentDashboard storage (student_id student)) ;;
     if truthy studentData
     then setCachedData (student_key (student_id student)) studentData None
     else ret tt)
    (fun error =>
       emit (LOG,
             "Skipping cache for student " +:+ show_Z (student_id student) +:+ ":",
             Some (ArgText (error_message error)))).

Fixpoint warm_students (storage : Storage) (students : list Student) : M unit :=
  match students with
  | [] => ret tt
  | student :: rest =>
      warm_student storage student ;;;
      warm_students storage rest
  end.

Definition warmUpCache (storage : Storage) (NODE_ENV : option string) : M unit :=
  console_log "Starting cache warm-up..." ;;;
  try_catch
    (adminData <- await_call (getAdminDashboard storage) ;;
     setCachedData "admin" adminData None ;;;
     universityData <- await_call (getUniversityDashboard storage) ;;
     setCachedData "university" universityData None ;;;
     batch2027Data <- await_call (getBatchDashboard storage "2027") ;;
     setCachedData "batch_2027" batch2027Data None ;;;
     batch2028Data <- await_call (getBatchDashboard storage "2028") ;;
     setCachedData "batch_2028" batch2028Data None ;;;
     allStudents <- await_call (getAllStudents storage) ;;
     let recentlyActiveStudents := take (studentLimit NODE_ENV) allStudents in
     warm_students storage recentlyActiveStudents ;;;
     console_log "Cache warm-up completed successfully")
    (fun error => console_error "Error during cache warm-up:" error).

(** *** Read-through with stale-while-revalidate *)

Definition refreshCacheInBackground (cacheKey : string)
    (fetchFreshData : Producer) : M unit :=
  try_catch
    (freshData <- await_call fetchFreshData ;;
     setCachedData cacheKey freshData None ;;;
     console_log ("Background cache refresh completed for: " +:+ cacheKey))
    (fun error =>
       console_error ("Background cache refresh failed for " +:+ cacheKey +:+ ":")
                     error).

(** The same method in the two steps it takes when it is called without
    [await], as [getDataWithCache] calls it. It first runs up to its [await]:
    the producer is called there and then, inside the caller's own turn, and
    the method is left waiting for the promise. *)
Definition refreshCacheInBackground_started (cacheKey : string)
    (fetchFreshData : Producer) : M unit :=
  promise <- call fetchFreshData ;;
  suspend (cacheKey, promise).

(** Once the promise has settled it goes on from its [await], in the world it
    then finds. *)
Definition refreshCacheInBackground_resumed (cacheKey : string)
    (promise : Promise) : M unit :=
  try_catch
    (freshData <- attempt promise ;;
     setCachedData cacheKey freshData None ;;;
     console_log ("Background cache refresh completed for: " +:+ cacheKey))
    (fun error =>
       console_error ("Background cache refresh failed for " +:+ cacheKey +:+ ":")
                     error).

(** [{ data, fromCache }] *)
Record CacheResult : Type := { data : JsValue; fromCache : bool }.

Definition getDataWithCache (cacheKey : string) (fetchFreshData : Producer)
    : M CacheResult :=
  cachedData <- getCachedData cacheKey ;;
  if truthy cachedData then
    isExpired <- isCacheExpired cacheKey ;;
    (if isExpired : bool
     then refreshCacheInBackground_started cacheKey fetchFreshData
     else ret tt) ;;;
    ret {| data := cachedData; fromCache := true |}
  else
    try_catch
      (freshData <- await_call fetchFreshData ;;
       setCachedData cacheKey freshData None ;;;
       ret {| data := freshData; fromCache := false |})
      (fun error =>
         console_error "Error fetching fresh data:" error ;;;
         throw error).

(** The event loop gets to the oldest detached refresh, whose promise has
    settled, and runs it to its end; whatever it returns or throws has no one
    waiting for it. *)
Definition settle_one (w : World) : World :=
  match detached w with
  | [] => w
  | (cacheKey, promise) :: rest =>
      snd (refreshCacheInBackground_resumed cacheKey promise (set_detached rest w))
  end.

(** One tick of the [setInterval] callback of [startCacheCleanup]. *)
Definition cleanup_tick : M unit := clearExpiredCache ;;; ret tt.

(** *** Vocabulary of the specifications *)

(** The row an upsert at the current instant writes. *)
Definition fresh_row (data : JsValue) (customDuration : option Duration) (w : World)
    : CacheEntry :=
  {| cacheData := data; lastUpdated := clock w;
     expiresAt := clock w + duration_or_default customDuration |}.

(** What the sweep leaves in the table, and how many rows it removes. *)
Definition swept (w : World) : gmap string CacheEntry :=
  filter (fun kv => ¬ expired_before (clock w) kv) (db w).

Definition sweep_count (w : World) : Z :=
  Z.of_nat (size (filter (expired_before (clock w)) (db w))).

(** An operation that comes back with a value from every world: nothing it
    meets is thrown to its caller. *)
Definition returns {A} (m : M A) : Prop :=
  forall w, exists a w', m w = (Returned a, w').

(** The default row: payload [v] written at the instant of [w] with the
    default duration. *)
Definition default_row (v : JsValue) (w : World) : CacheEntry :=
  {| cacheData := v; lastUpdated := clock w;
     expiresAt := clock w + DEFAULT_CACHE_DURATION |}.




(** [getDataWithCache k p] as the specification words it: whatever payload
    the row of [k] holds is served from the cache, and by the time the call
    returns the producer has not been called. *)
Definition serves_stored (k : string) (p : Producer) (w : World) : Prop :=
  forall row,
    db w !! k = Some row ->
    exists w',
      getDataWithCache k p w
      = (Returned {| data := cacheData (handed_back w row); fromCache := true |}, w')
      /\ calls w' = calls w.

(** The line the warm-up prints for a student whose producer failed. *)
Definition skipped_line (student : Student) (error : JsError) : LogLine :=
  (LOG, "Skipping cache for student " +:+ show_Z (student_id student) +:+ ":",
   Some (ArgText (error_message error))).

(** [warmUpCache] as the specification words it: on a healthy database and
    with the fixed-key producers and the student list resolving, every
    selected student whose producer does not fail has a row afterwards. *)
Definition warms_every_nonfailing (storage : Storage) (NODE_ENV : option string)
    (w : World) : Prop :=
  forall admin university batch2027 batch2028 allStudents s v,
    faults w = [] ->
    getAdminDashboard storage (clock w) = Returned admin ->
    getUniversityDashboard storage (clock w) = Returned university ->
    getBatchDashboard storage "2027" (clock w) = Returned batch2027 ->
    getBatchDashboard storage "2028" (clock w) = Returned batch2028 ->
    getAllStudents storage (clock w) = Returned allStudents ->
    s ∈ take (studentLimit NODE_ENV) allStudents ->
    getStudentDashboard storage (student_id s) (clock w) = Returned v ->
    is_Some (db (snd (warmUpCache storage NODE_ENV w)) !! student_key (student_id s)).

(** *** Sample data *)

(** A column for the sample worlds. Like a [json] column read through the
    driver and the mapper of the query builder, it hands a string payload
    that is the text of a JSON scalar back as that scalar: [null], [true],
    [false] and the decimal numerals as [show_Z] prints them. The other
    payloads of the samples come back as they were written. *)
Definition json_column (v : JsValue) : JsValue :=
  match v with
  | JStr text =>
      if String.eqb text "null" then JNull
      else if String.eqb text "true" then JBool true
      else if String.eqb text "false" then JBool false
      else match NilZero.int_of_string text with
           | Some d =>
               if String.eqb (show_Z (Z.of_int d)) text
               then JNum (Z.of_int d)
               else v
           | None => v
           end
  | _ => v
  end.

(** An empty table at instant 1000 with a healthy database. *)
Definition w_empty : World :=
  {| db := ∅; clock := 1000; faults := []; console := []; calls := 0;
     detached := []; cacheData_column := json_column |}.

(** [admin] written at instant 1000 with a ttl of 100 ms, read at 1150. *)
Definition w_admin : World :=
  {| db := {[ "admin" := {| cacheData := JObj [("count", JNum 5)];
                            lastUpdated := 1000; expiresAt := 1100 |} ]};
     clock := 1150; faults := []; console := []; calls := 0; detached := [];
     cacheData_column := json_column |}.

Definition count6 : Producer := fun _ => Returned (JObj [("count", JNum 6)]).

Definition failing : Producer := fun _ => Thrown (JsErr "boom").

(** [admin] holding the payload [0], still fresh. *)
Definition w_zero : World :=
  {| db := {[ "admin" := {| cacheData := JNum 0;
                            lastUpdated := 1000; expiresAt := 901000 |} ]};
     clock := 1150; faults := []; console := []; calls := 0; detached := [];
     cacheData_column := json_column |}.

(** The next statement fails, the ones after it go through. *)
Definition w_down : World :=
  {| db := db w_admin; clock := 1150; faults := [true]; console := [];
     calls := 0; detached := [];
     cacheData_column := json_column |}.

(** An empty table; the lookup goes through and the statement after it, the
    upsert, fails. *)
Definition w_write_down : World :=
  {| db := ∅; clock := 1000; faults := [false; true]; console := [];
     calls := 0; detached := [];
     cacheData_column := json_column |}.

Definition dashboard (n : Z) : JsValue := JObj [("count", JNum n)].

(** Three students: the dashboard of 1 is there, that of 2 fails, and 3 has
    no dashboard. *)
Definition sample_storage : Storage :=
  {| getAdminDashboard := fun _ => Returned (dashboard 1);
     getUniversityDashboard := fun _ => Returned (dashboard 2);
     getBatchDashboard := fun _ _ => Returned (dashboard 3);
     getAllStudents := fun _ =>
       Returned [ {| student_id := 1 |}; {| student_id := 2 |};
                  {| student_id := 3 |} ];
     getStudentDashboard := fun id _ =>
       if id =? 1 then Returned (dashboard 10)
       else if id =? 2 then Thrown (JsErr "no progress rows")
       else Returned JUndefined |}.

(** A class of [n] students with ids 1 to [n], every dashboard available
    except that of student 7. *)
Definition class_storage (n : nat) : Storage :=
  {| getAdminDashboard := fun _ => Returned (dashboard 1);
     getUniversityDashboard := fun _ => Returned (dashboard 2);
     getBatchDashboard := fun _ _ => Returned (dashboard 3);
     getAllStudents := fun _ =>
       Returned (map (fun i => {| student_id := Z.of_nat i |}) (seq 1 n));
     getStudentDashboard := fun id _ =>
       if id =? 7 then Thrown (JsErr "no progress rows")
       else Returned (dashboard id) |}.

End CacheService.

(** ** The client side: [useCachedQuery] *)

Module CachedQuery.

(** A JavaScript number as the hook meets it: what [parseInt] and the
    subtraction from [Date.now()] give. *)
Inductive JsNumber : Type :=
| NaN
| Finite (n : Z).

Definition num_sub (a b : JsNumber) : JsNumber :=
  match a, b with
  | Finite x, Finite y => Finite (x - y)
  | _, _ => NaN
  end.

(** [a > b]; a comparison with [NaN] is [false]. *)
Definition num_gt (a b : JsNumber) : bool :=
  match a, b with
  | Finite x, Finite y => y <? x
  | _, _ => false
  end.

(** The browser as the hook sees it: [localStorage], the clock, the three
    [useState] cells and the console. *)
Record Browser : Type := {
  localStorage : gmap string string;
  now : Z;                            (* Date.now() *)
  cachedData : JsValue;               (* useState<T | null>(null) *)
  cacheAge : option JsNumber;         (* useState<number | undefined>() *)
  isFromCache : bool;                 (* useState(false) *)
  warnings : list (string * JsError)  (* console.warn, oldest first *)
}.

(** The component as it mounts over a given store. *)
Definition mounted (store : gmap string string) (t : Z) : Browser :=
  {| localStorage := store; now := t; cachedData := JNull; cacheAge := None;
     isFromCache := false; warnings := [] |}.

Definition getItem (key : string) : Eff Browser (option string) :=
  fun b => (Returned (localStorage b !! key), b).

Definition removeItem (key : string) : Eff Browser unit :=
  fun b =>
    (Returned tt,
     {| localStorage := delete key (localStorage b); now := now b;
        cachedData := cachedData b; cacheAge := cacheAge b;
        isFromCache := isFromCache b; warnings := warnings b |}).

Definition Date_now : Eff Browser JsNumber :=
  fun b => (Returned (Finite (now b)), b).

Definition setCachedData (v : JsValue) : Eff Browser unit :=
  fun b =>
    (Returned tt,
     {| localStorage := localStorage b; now := now b; cachedData := v;
        cacheAge := cacheAge b; isFromCache := isFromCache b;
        warnings := warnings b |}).

Definition setCacheAge (age : option JsNumber) : Eff Browser unit :=
  fun b =>
    (Returned tt,
     {| localStorage := localStorage b; now := now b; cachedData := cachedData b;
        cacheAge := age; isFromCache := isFromCache b; warnings := warnings b |}).

Definition setIsFromCache (flag : bool) : Eff Browser unit :=
  fun b =>
    (Returned tt,
     {| localStorage := localStorage b; now := now b; cachedData := cachedData b;
        cacheAge := cacheAge b; isFromCache := flag; warnings := warnings b |}).

Definition console_warn (msg : string) (error : JsError) : Eff Browser unit :=
  fun b =>
    (Returned tt,
     {| localStorage := localStorage b; now := now b; cachedData := cachedData b;
        cacheAge := cacheAge b; isFromCache := isFromCache b;
        warnings := warnings b ++ [(msg, error)] |}).

(** [queryKey: string | string[]] *)
Inductive QueryKey : Type :=
| KeyString (key : string)
| KeyArray (parts : list string).

(** [parts.join('_')] *)
Fixpoint join_underscore (parts : list string) : string :=
  match parts with
  | [] => ""
  | [part] => part
  | part :: rest => part +:+ "_" +:+ join_underscore rest
  end.

(** [localStorageKey || (Array.isArray(queryKey) ? queryKey.join('_') : queryKey)] *)
Definition cacheKey_of (localStorageKey : option string) (queryKey : QueryKey)
    : string :=
  let derived :=
    match queryKey with
    | KeyString key => key
    | KeyArray parts => join_underscore parts
    end in
  match localStorageKey with
  | Some key => if String.eqb key "" then derived else key
  | None => derived
  end.

(** [`${cacheKey}_timestamp`] *)
Definition cacheTimestampKey_of (cacheKey : string) : string :=
  cacheKey +:+ "_timestamp".

(** What [useQuery] hands back, as far as the hook passes it on. *)
Record QueryResult : Type := {
  q_data : JsValue;           (* undefined until a fetch succeeded *)
  q_isLoading : bool;
  q_isError : bool;
  q_error : option JsError;
  q_isSuccess : bool
}.

Record CachedQueryResult : Type := {
  r_data : JsValue;
  r_isLoading : bool;
  r_isError : bool;
  r_error : option JsError;
  r_isSuccess : bool;
  r_isFromCache : bool;
  r_cacheAge : option JsNumber
}.

(** The object the hook returns on a render. *)
Definition useCachedQuery_result (b : Browser) (query : QueryResult)
    : CachedQueryResult :=
  let dataToShow :=
    if isFromCache b && truthy (cachedData b) then cachedData b else q_data query in
  let isLoadingToShow := if isFromCache b then false else q_isLoading query in
  {| r_data := dataToShow;
     r_isLoading := isLoadingToShow;
     r_isError := q_isError query;
     r_error := q_error query;
     r_isSuccess := q_isSuccess query;
     r_isFromCache := isFromCache b;
     r_cacheAge := cacheAge b |}.

(** A mirror entry as the mount effect tests for it, [cached && timestamp]:
    both items are stored and neither is the empty text. *)
Definition has_entry (store : gmap string string) (cacheKey payload timestamp : string)
    : Prop :=
  store !! cacheKey = Some payload
  /\ store !! cacheTimestampKey_of cacheKey = Some timestamp
  /\ payload <> "" /\ timestamp <> "".

(** The store with both items of the entry removed. *)
Definition without_entry (store : gmap string string) (cacheKey : string)
    : gmap string string :=
  delete (cacheTimestampKey_of cacheKey) (delete cacheKey store).

Section Hook.

(** The two built-ins the mount effect calls: [JSON.parse], which throws a
    [SyntaxError] on a text that is not JSON, and [parseInt]. *)
Variable JSON_parse : string -> Outcome JsValue.
Variable parseInt : string -> JsNumber.

(** The first [useEffect]: load cached data from [localStorage] on mount. *)
Definition loadCachedOnMount (cacheKey : string) (gcTime : Z) : Eff Browser unit :=
  let cacheTimestampKey := cacheTimestampKey_of cacheKey in
  try_catch
    (cached <- getItem cacheKey ;;
     timestamp <- getItem cacheTimestampKey ;;
     match cached, timestamp with
     | Some cached, Some timestamp =>
         if negb (String.eqb cached "") && negb (String.eqb timestamp "") then
           parsedData <- attempt (JSON_parse cached) ;;
           let cacheTimestamp := parseInt timestamp in
           current <- Date_now ;;
           let age := num_sub current cacheTimestamp in
           setCachedData parsedData ;;;
           setCacheAge (Some age) ;;;
           setIsFromCache true ;;;
           (* If cache is too old, clear it *)
           if num_gt age (Finite gcTime) then
             removeItem cacheKey ;;;
             removeItem cacheTimestampKey ;;;
             setCachedData JNull ;;;
             setIsFromCache false
           else ret tt
         else ret tt
     | _, _ => ret tt
     end)
    (fun error =>
       console_warn "Failed to load cached data:" error ;;;
       removeItem cacheKey ;;;
       removeItem cacheTimestampKey).

(** The browser once the mount effect has run. *)
Definition after_mount (cacheKey : string) (gcTime : Z) (b : Browser) : Browser :=
  snd (loadCachedOnMount cacheKey gcTime b).

(** The first clause of the mount behaviour as the specification words it: an
    entry within the horizon is what the hook shows as [data], with
    [isFromCache] set. *)
Definition exposes_entry (cacheKey : string) (gcTime : Z)
    (store : gmap string string) (t : Z) : Prop :=
  forall payload timestamp v ts query,
    has_entry store cacheKey payload timestamp ->
    JSON_parse payload = Returned v ->
    parseInt timestamp = Finite ts ->
    t - ts <= gcTime ->
    let shown :=
      useCachedQuery_result (after_mount cacheKey gcTime (mounted store t)) query in
    r_data shown = v /\ r_isFromCache shown = true.

End Hook.

(** *** Sample data *)

(** [JSON.parse] on the scalar texts: [null], [true], [false] and the decimal
    numerals as [show_Z] prints them; here every other text is taken for a
    syntax error. *)
Definition JSON_parse_scalar (text : string) : Outcome JsValue :=
  if String.eqb text "null" then Returned JNull
  else if String.eqb text "true" then Returned (JBool true)
  else if String.eqb text "false" then Returned (JBool false)
  else match NilZero.int_of_string text with
       | Some d =>
           if String.eqb (show_Z (Z.of_int d)) text
           then Returned (JNum (Z.of_int d))
           else Thrown (JsErr "SyntaxError")
       | None => Thrown (JsErr "SyntaxError")
       end.

(** [parseInt] on the decimal numerals [Date.now().toString()] writes; here
    every other text gives [NaN]. *)
Definition parseInt_decimal (text : string) : JsNumber :=
  match NilZero.int_of_string text with
  | Some d => Finite (Z.of_int d)
  | None => NaN
  end.

(** A snapshot written at instant 1000. *)
Definition store_number : gmap string string :=
  {[ "dashboard_admin" := "42"; "dashboard_admin_timestamp" := "1000" ]}.

(** The same with the payload [false]. *)
Definition store_false : gmap string string :=
  {[ "dashboard_admin" := "false"; "dashboard_admin_timestamp" := "1000" ]}.

(** The same with a payload that is not JSON. *)
Definition store_corrupt : gmap string string :=
  {[ "dashboard_admin" := "{oops"; "dashboard_admin_timestamp" := "1000" ]}.

Definition idle_query : QueryResult :=
  {| q_data := JUndefined; q_isLoading := true; q_isError := false;
     q_error := None; q_isSuccess := false |}.

End CachedQuery.

(** ** The client side, continued: saving the mirror, dashboards, indicators *)

Module CachedQueryMore.
Import CachedQuery.

(** [n.toString()] *)
Definition number_toString (n : JsNumber) : string :=
  match n with
  | NaN => "NaN"
  | Finite z => show_Z z
  end.

Definition get_isFromCache : Eff Browser bool :=
  fun b => (Returned (isFromCache b), b).

Section Save.

(** [JSON.stringify], which may throw, and the store's verdict on a write:
    [None] when it takes it, the error [setItem] throws when it does not
    (the quota is exceeded, storage is disabled). *)
Variable JSON_stringify : JsValue -> Outcome string.
Variable setItem_rejects : gmap string string -> string -> string -> option JsError.

Definition setItem (key value : string) : Eff Browser unit :=
  fun b =>
    match setItem_rejects (localStorage b) key value with
    | Some error => (Thrown error, b)
    | None =>
        (Returned tt,
         {| localStorage := <[key := value]> (localStorage b); now := now b;
            cachedData := cachedData b; cacheAge := cacheAge b;
            isFromCache := isFromCache b; warnings := warnings b |})
    end.

(** The second [useEffect]: save fresh data to [localStorage] when the query
    succeeds. [rendered_isFromCache] is the [isFromCache] of the render the
    effect belongs to. *)
Definition saveOnSuccess (cacheKey : string) (query : QueryResult)
    (rendered_isFromCache : bool) : Eff Browser unit :=
  let cacheTimestampKey := cacheTimestampKey_of cacheKey in
  if truthy (q_data query) && q_isSuccess query then
    try_catch
      (text <- attempt (JSON_stringify (q_data query)) ;;
       setItem cacheKey text ;;;
       current <- Date_now ;;
       setItem cacheTimestampKey (number_toString current) ;;;
       (* If we were showing cached data, now we have fresh data *)
       if rendered_isFromCache then
         setIsFromCache false ;;;
         setCacheAge None
       else ret tt)
      (fun error => console_warn "Failed to cache data:" error)
  else ret tt.

End Save.

(** *** Defaults and dashboards *)

(** [staleTime = 5 * 60 * 1000] and [gcTime = 10 * 60 * 1000], the defaults of
    [useCachedQuery]. *)
Definition DEFAULT_staleTime : Z := 5 * 60 * 1000.
Definition DEFAULT_gcTime : Z := 10 * 60 * 1000.

(** The values [useCachedDashboard] passes instead. *)
Definition DASHBOARD_staleTime : Z := 3 * 60 * 1000.
Definition DASHBOARD_gcTime : Z := 15 * 60 * 1000.

Definition is_digit (c : ascii) : bool :=
  let n := nat_of_ascii c in (48 <=? n)%nat && (n <=? 57)%nat.

Definition is_upper (c : ascii) : bool :=
  let n := nat_of_ascii c in (65 <=? n)%nat && (n <=? 90)%nat.

Definition is_lower (c : ascii) : bool :=
  let n := nat_of_ascii c in (97 <=? n)%nat && (n <=? 122)%nat.

(** The class [[a-zA-Z0-9]]. *)
Definition is_alnum (c : ascii) : bool := is_lower c || is_upper c || is_digit c.

(** [endpoint.replace(/[^a-zA-Z0-9]/g, '_')] *)
Fixpoint replace_non_alnum (s : string) : string :=
  match s with
  | EmptyString => EmptyString
  | String c rest =>
      String (if is_alnum c then c else "_"%char) (replace_non_alnum rest)
  end.

(** [`dashboard_${endpoint.replace(/[^a-zA-Z0-9]/g, '_')}`], the
    [localStorageKey] of [useCachedDashboard]. *)
Definition dashboard_localStorageKey (endpoint : string) : string :=
  "dashboard_" +:+ replace_non_alnum endpoint.

(** The key [useCachedQuery] ends up with under [useCachedDashboard], which
    passes [queryKey: [endpoint]] and the [localStorageKey] above. *)
Definition dashboard_cacheKey (endpoint : string) : string :=
  cacheKey_of (Some (dashboard_localStorageKey endpoint)) (KeyArray [endpoint]).

(** Every character of [s] satisfies [test]. *)
Fixpoint all_chars (test : ascii -> bool) (s : string) : bool :=
  match s with
  | EmptyString => true
  | String c rest => test c && all_chars test rest
  end.

(** *** Sample data *)

(** [JSON.stringify] on the scalars. *)
Definition JSON_stringify_scalar (v : JsValue) : Outcome string :=
  match v with
  | JNull => Returned "null"
  | JBool true => Returned "true"
  | JBool false => Returned "false"
  | JNum n => Returned (show_Z n)
  | _ => Thrown (JsErr "TypeError")
  end.

(** A store that takes every write, and one that takes none. *)
Definition roomy : gmap string string -> string -> string -> option JsError :=
  fun _ _ _ => None.

Definition full : gmap string string -> string -> string -> option JsError :=
  fun _ _ _ => Some (JsErr "QuotaExceededError").

Definition fetched (n : Z) : QueryResult :=
  {| q_data := JNum n; q_isLoading := false; q_isError := false;
     q_error := None; q_isSuccess := true |}.

End CachedQueryMore.

(** ** The cache indicator *)

Module CacheIndicator.
Import CachedQuery.

Inductive Icon : Type := Database | Clock | Zap.

Record IndicatorProps : Type := {
  variant : string;
  icon : Icon;
  text : string;
  tooltip : string
}.

(** [x < y] on exact quotients. *)
Definition Qlt_bool (x y : Q) : bool := negb (Qle_bool y x).

(** [formatCacheAge]: the age in milliseconds as minutes and seconds. *)
Definition formatCacheAge (age : Z) : string :=
  let minutes := Qfloor (inject_Z age / inject_Z (1000 * 60)) in
  let seconds := Qfloor (inject_Z (Z.rem age (1000 * 60)) / inject_Z 1000) in
  if 0 <? minutes
  then show_Z minutes +:+ "m " +:+ show_Z seconds +:+ "s ago"
  else show_Z seconds +:+ "s ago".

(** [!cacheAge]: [undefined], [NaN] and [0] are falsy. *)
Definition no_age (cacheAge : option JsNumber) : bool :=
  match cacheAge with
  | None | Some NaN => true
  | Some (Finite age) => age =? 0
  end.

Definition getIndicatorProps (cacheAge : option JsNumber) : IndicatorProps :=
  match cacheAge with
  | Some (Finite age) =>
      if age =? 0 then
        {| variant := "secondary"; icon := Database; text := "Cached";
           tooltip := "Showing cached data for instant loading" |}
      else
        let ageInMinutes := (inject_Z age / inject_Z (1000 * 60))%Q in
        if Qlt_bool ageInMinutes (inject_Z 5) then
          {| variant := "default"; icon := Zap; text := "Fast";
             tooltip := "Fresh cached data (" +:+ formatCacheAge age +:+ ")" |}
        else if Qlt_bool ageInMinutes (inject_Z 15) then
          {| variant := "secondary"; icon := Clock; text := "Cached";
             tooltip := "Cached data (" +:+ formatCacheAge age
                        +:+ ") - updating in background" |}
        else
          {| variant := "outline"; icon := Clock; text := "Stale";
             tooltip := "Older cached data (" +:+ formatCacheAge age
                        +:+ ") - refreshing soon" |}
  | _ =>
      {| variant := "secondary"; icon := Database; text := "Cached";
         tooltip := "Showing cached data for instant loading" |}
  end.

(** The component: nothing when the data is not from the cache, the badge
    with its tooltip otherwise. *)
Definition CacheIndicator (isFromCache : bool) (cacheAge : option JsNumber)
    : option IndicatorProps :=
  if negb isFromCache then None else Some (getIndicatorProps cacheAge).

End CacheIndicator.

(** ** The cache status panel *)

Module CacheStatusPanel.

(** [interface CacheStatus] *)
Record CacheStatus : Type := {
  key : string;
  expired : bool;
  hasData : bool
}.

Inductive StatusIcon : Type := AlertCircle | ClockIcon | CheckCircle.

(** The icon and its colour class. *)
Definition getCacheStatusIcon (cache : CacheStatus) : StatusIcon * string :=
  if negb (hasData cache) then (AlertCircle, "h-4 w-4 text-red-500")
  else if expired cache then (ClockIcon, "h-4 w-4 text-yellow-500")
  else (CheckCircle, "h-4 w-4 text-green-500").

(** The badge: its variant and its label. *)
Definition getCacheStatusBadge (cache : CacheStatus) : string * string :=
  if negb (hasData cache) then ("destructive", "No Data")
  else if expired cache then ("secondary", "Expired")
  else ("default", "Fresh").

(** The class [\w], that is [[A-Za-z0-9_]]. *)
Definition is_word (c : ascii) : bool :=
  CachedQueryMore.is_alnum c || Ascii.eqb c "_".

(** [l.toUpperCase()] on a character of the class [\w]. *)
Definition upper (c : ascii) : ascii :=
  if CachedQueryMore.is_lower c
  then ascii_of_nat (nat_of_ascii c - 32) else c.

(** [.replace(/_/g, ' ')] *)
Fixpoint underscores_to_spaces (s : string) : string :=
  match s with
  | EmptyString => EmptyString
  | String c rest =>
      String (if Ascii.eqb c "_" then " "%char else c) (underscores_to_spaces rest)
  end.

(** [.replace(/\b\w/g, l => l.toUpperCase())]: a character of [\w] is
    replaced when no character of [\w] stands before it. [after_word] tells
    whether the character before the rest was one. *)
Fixpoint capitalize_from (after_word : bool) (s : string) : string :=
  match s with
  | EmptyString => EmptyString
  | String c rest =>
      String (if is_word c && negb after_word then upper c else c)
             (capitalize_from (is_word c) rest)
  end.

Definition capitalize_words (s : string) : string := capitalize_from false s.

Definition formatCacheKey (key : string) : string :=
  if String.eqb key "admin" then "Admin Dashboard"
  else if String.eqb key "university" then "University Dashboard"
  else if String.eqb key "batch_2027" then "Batch 2027 Dashboard"
  else if String.eqb key "batch_2028" then "Batch 2028 Dashboard"
  else capitalize_words (underscores_to_spaces key).

(** Character classes the properties of the labels speak of. *)
Definition no_underscore (c : ascii) : bool := negb (Ascii.eqb c "_").

Definition digit_or_minus (c : ascii) : bool :=
  CachedQueryMore.is_digit c || Ascii.eqb c "-".

End CacheStatusPanel.

(** ** The weekly progress import: reading a CSV line and a score

    A [string] stands here for the JavaScript string with the same code
    units, all below 256. *)

Module CsvImport.

(** The white space and line terminators [trim] and [parseInt] skip, among
    the code units below 256: TAB, LF, VT, FF, CR, SP and NBSP. *)
Definition is_space (c : ascii) : bool :=
  let n := nat_of_ascii c in
  ((9 <=? n)%nat && (n <=? 13)%nat) || (n =? 32)%nat || (n =? 160)%nat.

(** [s.trimStart()] *)
Fixpoint trimStart (s : string) : string :=
  match s with
  | EmptyString => EmptyString
  | String c rest => if is_space c then trimStart rest else s
  end.

(** [s.trimEnd()] *)
Fixpoint trimEnd (s : string) : string :=
  match s with
  | EmptyString => EmptyString
  | String c rest =>
      match trimEnd rest with
      | EmptyString => if is_space c then EmptyString else String c EmptyString
      | kept => String c kept
      end
  end.

(** [s.trim()] *)
Definition trim (s : string) : string := trimEnd (trimStart s).

(** The loop variables of [parseCSVLine]. *)
Record CsvState : Type := {
  result : list string;
  current : string;
  inQuotes : bool
}.

(** One round of [for (let i = 0; i < line.length; i++)], on [line[i]]. *)
Definition csv_step (st : CsvState) (char : ascii) : CsvState :=
  if Ascii.eqb char "034" then
    {| result := result st; current := current st;
       inQuotes := negb (inQuotes st) |}
  else if Ascii.eqb char "," && negb (inQuotes st) then
    {| result := result st ++ [trim (current st)]; current := "";
       inQuotes := inQuotes st |}
  else
    {| result := result st; current := current st +:+ String char "";
       inQuotes := inQuotes st |}.

Fixpoint csv_loop (line : string) (st : CsvState) : CsvState :=
  match line with
  | EmptyString => st
  | String char rest => csv_loop rest (csv_step st char)
  end.

Definition parseCSVLine (line : string) : list string :=
  let st := csv_loop line {| result := []; current := ""; inQuotes := false |} in
  (* Add the last field *)
  result st ++ [trim (current st)].

(** *** Numbers

    A [number] is a double: [NaN], an infinity, or a finite value, kept here
    as the rational it stands for, in lowest terms. The two zeros are not
    told apart: nothing in this service divides by one or looks at its
    sign. *)
Inductive Number : Type :=
| NaN
| Inf (negative : bool)
| Num (value : Q).

(** [2 ^ k], for a [k] of either sign. *)
Definition pow2 (k : Z) : Q :=
  if 0 <=? k then inject_Z (2 ^ k) else 1 # Z.to_pos (2 ^ (- k)).

(** The power of two at or below a positive rational: [floor (log2 a)]. *)
Definition binade (a : Q) : Z :=
  let e := Z.log2 (Qnum a) - Z.log2 (Zpos (Qden a)) in
  if Qle_bool (pow2 e) a then e else e - 1.

(** The nearest integer, a tie going to the even one. *)
Definition round_half_even (q : Q) : Z :=
  let below := Qfloor q in
  match Qcompare ((q - inject_Z below) * 2) 1 with
  | Lt => below
  | Gt => below + 1
  | Eq => if Z.even below then below else below + 1
  end.

(** The Number value for a mathematical value: the double nearest to it, a
    tie going to the even significand, and an infinity when the nearest
    double would be past the largest one. Doubles have 53 significant bits
    and binades -1022 to 1023. *)
Definition to_double (q : Q) : Number :=
  match Qcompare q 0 with
  | Eq => Num 0
  | sign =>
      let a := Qabs q in
      let e := Z.max (binade a) (-1022) in
      let ulp := pow2 (e - 52) in
      let v := (inject_Z (round_half_even (a / ulp)) * ulp)%Q in
      if Qle_bool (pow2 1024) v
      then Inf (match sign with Lt => true | _ => false end)
      else Num (Qred (match sign with Lt => - v | _ => v end))
  end.

Definition isNaN (x : Number) : bool :=
  match x with
  | NaN => true
  | _ => false
  end.

(** [- x], [x + y] and [x - y] *)
Definition num_neg (x : Number) : Number :=
  match x with
  | NaN => NaN
  | Inf negative => Inf (negb negative)
  | Num q => Num (- q)
  end.

Definition num_add (x y : Number) : Number :=
  match x, y with
  | NaN, _ | _, NaN => NaN
  | Inf s, Inf t => if Bool.eqb s t then Inf s else NaN
  | Inf s, Num _ | Num _, Inf s => Inf s
  | Num p, Num q => to_double (p + q)
  end.

Definition num_sub (x y : Number) : Number := num_add x (num_neg y).

(** [x / n] for a count [n], as [validWeeks.length] is: dividing by 0 gives
    an infinity, or [NaN] for [0 / 0]. *)
Definition num_div_count (x : Number) (n : nat) : Number :=
  match x with
  | NaN => NaN
  | Inf s => Inf s
  | Num p =>
      match n with
      | O =>
          match Qcompare p 0 with
          | Eq => NaN
          | Lt => Inf true
          | Gt => Inf false
          end
      | S _ => to_double (p / inject_Z (Z.of_nat n))
      end
  end.

(** [Math.round(x)]: the integer nearest to [x], halves going up; that integer
    is a double whenever [x] is. *)
Definition Math_round (x : Number) : Number :=
  match x with
  | Num q => Num (inject_Z (Qfloor (q + (1 # 2))))
  | other => other
  end.

(** *** Scores *)

Definition digit_value (c : ascii) : Z := Z.of_nat (nat_of_ascii c - 48).

(** The value of the longest run of decimal digits [s] starts with, on top of
    [acc]; [None] while no digit has been read. *)
Fixpoint read_digits (s : string) (acc : option Z) : option Z :=
  match s with
  | EmptyString => acc
  | String c rest =>
      if CachedQueryMore.is_digit c
      then read_digits rest (Some (10 * default 0 acc + digit_value c))
      else acc
  end.

(** The integer [parseInt(s, 10)] reads before it makes a number of it:
    leading white space is skipped, a sign is read, then the longest run of
    digits; [None] when there is no digit. *)
Definition numeral10 (s : string) : option Z :=
  match trimStart s with
  | String "-" rest =>
      match read_digits rest None with
      | Some n => Some (- n)
      | None => None
      end
  | String "+" rest => read_digits rest None
  | unsigned => read_digits unsigned None
  end.

(** [parseInt(s, 10)]: [NaN] when there is no digit to read, and otherwise
    the Number value for the integer read, which is that integer up to
    [2 ^ 53] and the double nearest to it beyond. *)
Definition parseInt10 (s : string) : Number :=
  match numeral10 s with
  | Some n => to_double (inject_Z n)
  | None => NaN
  end.

Definition parseScore (scoreStr : string) : Number :=
  if String.eqb scoreStr "" || String.eqb (trim scoreStr) "" then Num 0
  else
    let parsed := parseInt10 (trim scoreStr) in
    if isNaN parsed then Num 0 else parsed.

(** Vocabulary of the properties: the number an integer stands for. *)
Definition int (n : Z) : Number := Num (inject_Z n).

(** Vocabulary of the properties: a character is none of [excluded]. *)
Definition none_of (excluded : list ascii) (c : ascii) : bool :=
  forallb (fun x => negb (Ascii.eqb c x)) excluded.

(** A field as [parseCSVLine] hands it out: trimmed and free of quotes. *)
Definition clean_field (field : string) : Prop :=
  CachedQueryMore.all_chars (none_of ["034"%char]) field = true
  /\ trim field = field.

(** [fields.join(',')] *)
Definition join_commas (fields : list string) : string :=
  String.concat "," fields.

Fixpoint count_char (x : ascii) (s : string) : nat :=
  match s with
  | EmptyString => 0
  | String c rest => (if Ascii.eqb c x then 1 else 0) + count_char x rest
  end.

End CsvImport.

(** ** The weekly progress import: records, students and figures *)

Module WeeklyProgressImport.
Import CsvImport.
Local Open Scope js_scope.

(** A row of [students], as far as the import reads it. *)
Record StudentRow : Type := {
  id : Z;
  name : string;
  leetcodeUsername : string;
  leetcodeProfileLink : string
}.

(** The argument of [storage.createStudent]. *)
Record InsertStudent : Type := {
  new_name : string;
  new_leetcodeUsername : string;
  new_leetcodeProfileLink : string;
  new_batch : string
}.

Record InsertWeeklyProgressData : Type := {
  studentId : Z;
  week1Score : Number;
  week2Score : Number;
  week3Score : Number;
  week4Score : Number;
  week5Score : Number;
  week2Progress : Number;
  week3Progress : Number;
  week4Progress : Number;
  week5Progress : Number;
  totalScore : Number;
  averageWeeklyGrowth : Number
}.

Record WeeklyProgressStats : Type := {
  imported : Z;
  updated : Z;
  skipped : Z;
  errors : list string
}.

(** The figures [processStudentWeeklyProgress] works out from the five score
    cells of a record. *)
Definition weeklyProgressData_of (studentId : Z)
    (week1Str week2Str week3Str week4Str week5Str : string)
    : InsertWeeklyProgressData :=
  (* Parse weekly scores *)
  let week1Score := parseScore week1Str in
  let week2Score := parseScore week2Str in
  let week3Score := parseScore week3Str in
  let week4Score := parseScore week4Str in
  let week5Score := parseScore week5Str in
  (* Calculate progress increments *)
  let week2Progress := num_sub week2Score week1Score in
  let week3Progress := num_sub week3Score week2Score in
  let week4Progress := num_sub week4Score week3Score in
  let week5Progress := num_sub week5Score week4Score in
  (* Calculate total score and average weekly growth *)
  let totalScore :=
    num_add (num_add (num_add (num_add week1Score week2Score) week3Score)
               week4Score) week5Score in
  let validWeeks :=
    List.filter (fun p => negb (isNaN p))
      [week2Progress; week3Progress; week4Progress; week5Progress] in
  let averageWeeklyGrowth :=
    if (0 <? length validWeeks)%nat
    then Math_round
           (num_div_count (fold_left (fun sum p => num_add sum p) validWeeks (Num 0))
              (length validWeeks))
    else Num 0 in
  {| studentId := studentId;
     week1Score := week1Score; week2Score := week2Score;
     week3Score := week3Score; week4Score := week4Score;
     week5Score := week5Score;
     week2Progress := week2Progress; week3Progress := week3Progress;
     week4Progress := week4Progress; week5Progress := week5Progress;
     totalScore := totalScore; averageWeeklyGrowth := averageWeeklyGrowth |}.

(** [s.replace(/[-_]/g, '')] *)
Fixpoint remove_separators (s : string) : string :=
  match s with
  | EmptyString => EmptyString
  | String c rest =>
      if Ascii.eqb c "-" || Ascii.eqb c "_"
      then remove_separators rest
      else String c (remove_separators rest)
  end.

(** [s.includes(part)] and [s.startsWith(part)] *)
Definition includes (s part : string) : bool :=
  match String.index 0 part s with
  | Some _ => true
  | None => false
  end.

Definition startsWith (s part : string) : bool := String.prefix part s.

(** [content.split('\n')] *)
Fixpoint split_lines_from (content current : string) : list string :=
  match content with
  | EmptyString => [current]
  | String c rest =>
      if Ascii.eqb c "010"
      then current :: split_lines_from rest ""
      else split_lines_from rest (current +:+ String c "")
  end.

Definition split_lines (content : string) : list string :=
  split_lines_from content "".

(** [line => line.trim()], as a test *)
Definition nonblank (line : string) : bool := negb (String.eqb (trim line) "").

Section WithStorage.

(** The [storage] module, with whatever state it keeps, the two built-ins
    whose result depends on more than the code units at hand
    ([toLowerCase]) or on the kind of error ([`${error}`]), and the file
    system. *)
Variable Store : Type.
Variable getStudentByUsername : string -> Eff Store (option StudentRow).
Variable getAllStudents : Eff Store (list StudentRow).
Variable createStudent : InsertStudent -> Eff Store StudentRow.
Variable getWeeklyProgressData : Z -> Eff Store (option InsertWeeklyProgressData).
Variable updateWeeklyProgressData : Z -> InsertWeeklyProgressData -> Eff Store unit.
Variable createWeeklyProgressData : InsertWeeklyProgressData -> Eff Store unit.
Variable toLowerCase : string -> string.
Variable error_text : JsError -> string.
Variable readFile : string -> Outcome string.

(** What a run of the import works on: the storage, the [stats] object and
    the console. *)
Record ImportWorld : Type := {
  storage : Store;
  stats : WeeklyProgressStats;
  console : list string
}.

Definition on_storage {A} (op : Eff Store A) : Eff ImportWorld A :=
  fun w =>
    let (outcome, store) := op (storage w) in
    (outcome, {| storage := store; stats := stats w; console := console w |}).

Definition set_stats (s : WeeklyProgressStats) : Eff ImportWorld unit :=
  fun w => (Returned tt, {| storage := storage w; stats := s; console := console w |}).

Definition get_stats : Eff ImportWorld WeeklyProgressStats :=
  fun w => (Returned (stats w), w).

(** [stats.skipped++], [stats.updated++], [stats.imported++] and
    [stats.errors.push(msg)] *)
Definition bump_skipped : Eff ImportWorld unit :=
  s <- get_stats ;;
  set_stats {| imported := imported s; updated := updated s;
               skipped := skipped s + 1; errors := errors s |}.

Definition bump_updated : Eff ImportWorld unit :=
  s <- get_stats ;;
  set_stats {| imported := imported s; updated := updated s + 1;
               skipped := skipped s; errors := errors s |}.

Definition bump_imported : Eff ImportWorld unit :=
  s <- get_stats ;;
  set_stats {| imported := imported s + 1; updated := updated s;
               skipped := skipped s; errors := errors s |}.

Definition push_error (msg : string) : Eff ImportWorld unit :=
  s <- get_stats ;;
  set_stats {| imported := imported s; updated := updated s;
               skipped := skipped s; errors := errors s ++ [msg] |}.

Definition console_print (msg : string) : Eff ImportWorld unit :=
  fun w =>
    (Returned tt,
     {| storage := storage w; stats := stats w; console := console w ++ [msg] |}).

(** The two looser matches tried when no student has the username. *)
Definition same_name (name : string) (s : StudentRow) : bool :=
  String.eqb (trim (toLowerCase (WeeklyProgressImport.name s)))
             (trim (toLowerCase name)).

Definition similar_username (leetcodeUsername : string) (s : StudentRow) : bool :=
  let cleanUsername := remove_separators (toLowerCase leetcodeUsername) in
  let cleanDbUsername :=
    remove_separators (toLowerCase (WeeklyProgressImport.leetcodeUsername s)) in
  includes cleanDbUsername cleanUsername
  || includes cleanUsername cleanDbUsername
  || startsWith cleanDbUsername cleanUsername
  || startsWith cleanUsername cleanDbUsername.

Definition processStudentWeeklyProgress (record : list string)
    : Eff ImportWorld unit :=
  (* CSV format: Name,LeetCode Username,LeetcodeProfileLink,WEEK1,...,WEEK5 *)
  if (length record <? 8)%nat then bump_skipped
  else
    let name := nth 0 record "" in
    let leetcodeUsername := nth 1 record "" in
    let profileLink := nth 2 record "" in
    let week1Str := nth 3 record "" in
    let week2Str := nth 4 record "" in
    let week3Str := nth 5 record "" in
    let week4Str := nth 6 record "" in
    let week5Str := nth 7 record "" in
    if String.eqb (trim leetcodeUsername) "" then bump_skipped
    else if String.eqb leetcodeUsername "" then bump_skipped
    else
      (* Find student by LeetCode username with flexible matching *)
      byUsername <- on_storage (getStudentByUsername leetcodeUsername) ;;
      matched <-
        match byUsername with
        | Some student => ret (Some student)
        | None =>
            allStudents <- on_storage getAllStudents ;;
            match find (same_name name) allStudents with
            | Some student => ret (Some student)
            | None => ret (find (similar_username leetcodeUsername) allStudents)
            end
        end ;;
      resolved <-
        match matched with
        | Some student => ret (Some student)
        | None =>
            (* Create new student if not found *)
            console_print ("Creating new student: " +:+ name +:+ " ("
                           +:+ leetcodeUsername +:+ ")") ;;;
            try_catch
              (student <- on_storage
                            (createStudent
                               {| new_name := trim name;
                                  new_leetcodeUsername := trim leetcodeUsername;
                                  new_leetcodeProfileLink := trim profileLink;
                                  new_batch := "2027" |}) ;;
               ret (Some student))
              (fun error =>
                 push_error ("Failed to create student " +:+ name +:+ ": "
                             +:+ error_text error) ;;;
                 bump_skipped ;;;
                 ret None)
        end ;;
      match resolved with
      | None => ret tt
      | Some student =>
          let weeklyProgressData :=
            weeklyProgressData_of (id student)
              week1Str week2Str week3Str week4Str week5Str in
          (* Check if weekly progress data already exists for this student *)
          existingData <- on_storage (getWeeklyProgressData (id student)) ;;
          match existingData with
          | Some _ =>
              on_storage (updateWeeklyProgressData (id student) weeklyProgressData) ;;;
              bump_updated
          | None =>
              on_storage (createWeeklyProgressData weeklyProgressData) ;;;
              bump_imported
          end
      end.

(** The body of [for (const line of dataLines)]. *)
Definition process_line (line : string) : Eff ImportWorld unit :=
  try_catch
    (processStudentWeeklyProgress (parseCSVLine line))
    (fun error =>
       let errorMsg := "Error processing line: " +:+ error_text error in
       console_print errorMsg ;;;
       push_error errorMsg).

Fixpoint process_lines (dataLines : list string) : Eff ImportWorld unit :=
  match dataLines with
  | [] => ret tt
  | line :: rest => process_line line ;;; process_lines rest
  end.

Definition show_nat (n : nat) : string := show_Z (Z.of_nat n).

Definition importWeeklyProgressFromCSV (csvFilePath : string)
    : Eff ImportWorld WeeklyProgressStats :=
  set_stats {| imported := 0; updated := 0; skipped := 0; errors := [] |} ;;;
  try_catch
    (csvContent <- attempt (readFile csvFilePath) ;;
     let lines :=
       List.filter nonblank (split_lines csvContent) in
     (if (length lines =? 0)%nat
      then throw (JsErr "CSV file is empty")
      else ret tt) ;;;
     (* Skip header line and process data lines *)
     let dataLines := tl lines in
     console_print ("Processing " +:+ show_nat (length dataLines)
                    +:+ " students from weekly progress CSV...") ;;;
     process_lines dataLines ;;;
     s <- get_stats ;;
     console_print ("Weekly progress import completed: " +:+ show_Z (imported s)
                    +:+ " imported, " +:+ show_Z (updated s) +:+ " updated, "
                    +:+ show_Z (skipped s) +:+ " skipped") ;;;
     ret s)
    (fun error =>
       console_print ("Error importing weekly progress CSV: " +:+ error_text error) ;;;
       throw (JsErr ("Failed to import weekly progress CSV: " +:+ error_text error))).

End WithStorage.

Arguments storage {Store} _.
Arguments stats {Store} _.
Arguments console {Store} _.

(** Vocabulary of the properties: a storage call that never throws, and
    the records a run has accounted for. *)
Definition always_returns {S A} (op : Eff S A) : Prop :=
  forall s, exists a s', op s = (Returned a, s').

Definition counted (s : WeeklyProgressStats) : Z :=
  imported s + updated s + skipped s.

(** *** Sample data *)

(** A storage that knows one student, [annlee] with id 1, and keeps the
    weekly records it is given, newest first. *)
Definition demo_store : Type := list InsertWeeklyProgressData.

Definition ann : StudentRow :=
  {| id := 1; name := "Ann Lee"; leetcodeUsername := "annlee";
     leetcodeProfileLink := "https://leetcode.com/annlee" |}.

Definition demo_getStudentByUsername (username : string)
    : Eff demo_store (option StudentRow) :=
  fun s => (Returned (if String.eqb username "annlee" then Some ann else None), s).

Definition demo_getAllStudents : Eff demo_store (list StudentRow) :=
  fun s => (Returned [ann], s).

Definition demo_createStudent (student : InsertStudent) : Eff demo_store StudentRow :=
  fun s => (Thrown (JsErr "duplicate key"), s).

Definition demo_getWeeklyProgressData (studentId : Z)
    : Eff demo_store (option InsertWeeklyProgressData) :=
  fun s => (Returned (find (fun d => WeeklyProgressImport.studentId d =? studentId) s), s).

Definition demo_updateWeeklyProgressData (studentId : Z)
    (data : InsertWeeklyProgressData) : Eff demo_store unit :=
  fun s => (Returned tt, data :: s).

Definition demo_createWeeklyProgressData (data : InsertWeeklyProgressData)
    : Eff demo_store unit :=
  fun s => (Returned tt, data :: s).

Definition demo_error_text (error : JsError) : string :=
  match error with
  | JsErr message => "Error: " +:+ message
  | JsThrown _ => "[object Object]"
  end.

Definition demo_file : string :=
  "Name,LeetCode Username,LeetcodeProfileLink,WEEK1,WEEK2,WEEK3,WEEK4,WEEK5"
  +:+ String "010" "Ann Lee,annlee,https://leetcode.com/annlee,10,14,20,21,31"
  +:+ String "010" "No Name,,,1,2,3,4,5"
  +:+ String "010" "".

Definition demo_world : ImportWorld demo_store :=
  {| storage := []; stats := {| imported := 0; updated := 0; skipped := 0; errors := [] |};
     console := [] |}.

End WeeklyProgressImport.

(** * Properties of the cache service *)

Module CacheServiceFacts.
Import CacheService.
Local Open Scope js_scope.

(** ** Run equations *)

Lemma getCachedData_ok k w :
  next_fault w = false ->
  getCachedData k w
  = (Returned (from_option (fun row => cacheData (handed_back w row)) JNull (db w !! k)),
     pop_fault w).
Proof.
  intros Hf. unfold getCachedData, try_catch, bind, db_select, statement.
  rewrite Hf. simpl. destruct (db w !! k); reflexivity.
Qed.

Lemma getCachedData_fault k w :
  next_fault w = true ->
  getCachedData k w
  = (Returned JNull,
     add_line (ERROR, "Error fetching cached data:", Some (ArgError db_error)) (pop_fault w)).
Proof.
  intros Hf. unfold getCachedData, try_catch, bind, db_select, statement.
  rewrite Hf. reflexivity.
Qed.

Lemma isCacheExpired_ok k w :
  next_fault w = false ->
  isCacheExpired k w
  = (Returned (from_option (fun row => expiresAt row <? clock w) true (db w !! k)),
     pop_fault w).
Proof.
  intros Hf. unfold isCacheExpired, try_catch, bind, db_select, statement.
  rewrite Hf. simpl. destruct (db w !! k); reflexivity.
Qed.

Lemma isCacheExpired_fault k w :
  next_fault w = true ->
  isCacheExpired k w
  = (Returned true,
     add_line (ERROR, "Error checking cache expiry:", Some (ArgError db_error)) (pop_fault w)).
Proof.
  intros Hf. unfold isCacheExpired, try_catch, bind, db_select, statement.
  rewrite Hf. reflexivity.
Qed.

Lemma setCachedData_ok k v ttl w :
  next_fault w = false ->
  setCachedData k v ttl w
  = (Returned tt,
     add_line (LOG, "Cache updated for key: " +:+ k, None)
       (set_db (<[k := fresh_row v ttl w]> (db w)) (pop_fault w))).
Proof.
  intros Hf. unfold setCachedData, try_catch, bind, db_upsert, statement.
  simpl. rewrite Hf. reflexivity.
Qed.

Lemma setCachedData_fault k v ttl w :
  next_fault w = true ->
  setCachedData k v ttl w
  = (Returned tt,
     add_line (ERROR, "Error setting cached data:", Some (ArgError db_error)) (pop_fault w)).
Proof.
  intros Hf. unfold setCachedData, try_catch, bind, db_upsert, statement.
  simpl. rewrite Hf. reflexivity.
Qed.

Lemma clearCache_ok k w :
  next_fault w = false ->
  clearCache k w
  = (Returned tt,
     add_line (LOG, "Cache cleared for key: " +:+ k, None)
       (set_db (delete k (db w)) (pop_fault w))).
Proof.
  intros Hf. unfold clearCache, try_catch, bind, db_delete_key, statement.
  rewrite Hf. reflexivity.
Qed.

Lemma clearCache_fault k w :
  next_fault w = true ->
  clearCache k w
  = (Returned tt,
     add_line (ERROR, "Error clearing cache:", Some (ArgError db_error)) (pop_fault w)).
Proof.
  intros Hf. unfold clearCache, try_catch, bind, db_delete_key, statement.
  rewrite Hf. reflexivity.
Qed.

Lemma clearAllCache_returns w : exists w', clearAllCache w = (Returned tt, w').
Proof.
  unfold clearAllCache, try_catch, bind, db_delete_all, statement.
  destruct (next_fault w); simpl; eauto.
Qed.

Lemma rowCount_or_zero_Some n : rowCount_or_zero (Some n) = n.
Proof. simpl. destruct (Z.eqb_spec n 0); congruence. Qed.

Lemma clearExpiredCache_ok w :
  next_fault w = false ->
  exists w',
    clearExpiredCache w = (Returned (sweep_count w), w')
    /\ db w' = swept w /\ clock w' = clock w.
Proof.
  intros Hf.
  unfold clearExpiredCache, try_catch, bind, db_delete_expired, statement, new_Date.
  rewrite Hf. cbn [pop_fault set_faults set_db db clock].
  rewrite rowCount_or_zero_Some. fold (sweep_count w).
  destruct (0 <? sweep_count w); simpl; eauto.
Qed.

Lemma clearExpiredCache_fault w :
  next_fault w = true ->
  clearExpiredCache w
  = (Returned 0,
     add_line (ERROR, "Error clearing expired cache:", Some (ArgError db_error)) (pop_fault w)).
Proof.
  intros Hf.
  unfold clearExpiredCache, try_catch, bind, db_delete_expired, statement, new_Date.
  rewrite Hf. reflexivity.
Qed.

(** ** Expiry, lookup and deletion *)

Lemma swept_lookup_expired w k e :
  db w !! k = Some e -> expiresAt e < clock w -> swept w !! k = None.
Proof.
  intros Hk Hlt. unfold swept. apply map_lookup_filter_None. right.
  intros e' He' Hkeep. apply Hkeep. unfold expired_before. simpl.
  congruence.
Qed.

Lemma swept_lookup_live w k e :
  db w !! k = Some e -> ¬ expiresAt e < clock w -> swept w !! k = Some e.
Proof.
  intros Hk Hge. unfold swept. apply map_lookup_filter_Some. split; [done|].
  exact Hge.
Qed.

Lemma swept_lookup_absent w k : db w !! k = None -> swept w !! k = None.
Proof.
  intros Hk. unfold swept. apply map_lookup_filter_None. by left.
Qed.

Lemma sweep_count_size w :
  Z.of_nat (size (db w)) = Z.of_nat (size (swept w)) + sweep_count w.
Proof.
  unfold swept, sweep_count.
  rewrite <- (map_filter_union_complement (expired_before (clock w)) (db w)) at 1.
  rewrite map_size_disj_union by apply map_disjoint_filter_complement.
  lia.
Qed.

(** C7: with the table readable, [isCacheExpired k] answers [true] exactly when
    [k] has no row or the current instant is strictly after the row's
    [expiresAt]; a key with no row is expired and reads as [null]; a key with
    a row reads as the payload of that row as the select hands it back,
    whatever its freshness; and [getCachedData] leaves the table, the clock,
    the console, the call count and the detached refreshes as they were. *)
Theorem isCacheExpired_getCachedData_spec (k : string) (w : World) :
  next_fault w = false ->
  (exists b w', isCacheExpired k w = (Returned b, w')
     /\ (b = true <->
         db w !! k = None \/ exists e, db w !! k = Some e /\ expiresAt e < clock w))
  /\ (db w !! k = None ->
      fst (isCacheExpired k w) = Returned true
      /\ fst (getCachedData k w) = Returned JNull)
  /\ (forall e, db w !! k = Some e ->
      fst (getCachedData k w) = Returned (cacheData (handed_back w e)))
  /\ (let w' := snd (getCachedData k w) in
      db w' = db w /\ clock w' = clock w /\ console w' = console w
      /\ calls w' = calls w /\ detached w' = detached w).
Proof.
  intros Hf. rewrite isCacheExpired_ok, getCachedData_ok by done. simpl.
  split; [|split; [|split]].
  - eexists _, _. split; [reflexivity|].
    destruct (db w !! k) as [e|] eqn:Hk; simpl.
    + rewrite Z.ltb_lt. split.
      * intros Hlt. right. eauto.
      * intros [Hn | (e' & He' & Hlt)]; [done | congruence].
    + split; auto.
  - intros Hk. by rewrite Hk.
  - intros e He. by rewrite He.
  - done.
Qed.

Lemma isCacheExpired_getCachedData_spec_witness :
  (exists b w', isCacheExpired "admin" w_admin = (Returned b, w')
     /\ (b = true <->
         db w_admin !! "admin" = None
         \/ exists e, db w_admin !! "admin" = Some e /\ expiresAt e < clock w_admin))
  /\ fst (getCachedData "admin" w_admin) = Returned (JObj [("count", JNum 5)]).
Proof.
  destruct (isCacheExpired_getCachedData_spec "admin" w_admin eq_refl)
    as (Hexp & _ & Hget & _).
  split; [exact Hexp|]. exact (Hget _ eq_refl).
Defined.

(** C6: with the delete statement going through, [clearExpiredCache] removes
    every row whose [expiresAt] is strictly before the current instant, keeps
    every other row as it is, adds none, and returns the number of rows
    removed. *)
Theorem clearExpiredCache_spec (w : World) :
  next_fault w = false ->
  exists n w',
    clearExpiredCache w = (Returned n, w')
    /\ (forall k e, db w !! k = Some e -> expiresAt e < clock w -> db w' !! k = None)
    /\ (forall k e, db w !! k = Some e -> ¬ expiresAt e < clock w ->
        db w' !! k = Some e)
    /\ (forall k, db w !! k = None -> db w' !! k = None)
    /\ Z.of_nat (size (db w)) = Z.of_nat (size (db w')) + n
    /\ n = Z.of_nat (size (filter (expired_before (clock w)) (db w))).
Proof.
  intros Hf. destruct (clearExpiredCache_ok w Hf) as (w' & Hrun & Hdb & _).
  exists (sweep_count w), w'. rewrite Hdb. split; [exact Hrun|].
  split; [apply swept_lookup_expired|].
  split; [apply swept_lookup_live|].
  split; [apply swept_lookup_absent|].
  split; [apply sweep_count_size | reflexivity].
Qed.

Lemma clearExpiredCache_spec_witness :
  exists n w',
    clearExpiredCache w_admin = (Returned n, w')
    /\ db w' !! "admin" = None /\ n = 1.
Proof.
  destruct (clearExpiredCache_spec w_admin eq_refl)
    as (n & w' & Hrun & Hdel & _ & _ & _ & Hn).
  exists n, w'. split; [exact Hrun|]. split.
  - apply (Hdel "admin" _ eq_refl). reflexivity.
  - rewrite Hn. reflexivity.
Defined.

(** C8: [clearCache k] always returns normally. With the delete statement
    going through, the table is left with the row of [k] deleted and every
    other key as it was. When [k] has no row the table is unchanged, and so a
    second [clearCache k] right after a first one that went through changes
    nothing and raises nothing. *)
Theorem clearCache_spec (k : string) (w : World) :
  exists w',
    clearCache k w = (Returned tt, w')
    /\ (next_fault w = false ->
        db w' = delete k (db w)
        /\ db w' !! k = None
        /\ (forall k', k' <> k -> db w' !! k' = db w !! k')
        /\ (forall w2, db w2 = db w' ->
            exists w'', clearCache k w2 = (Returned tt, w'') /\ db w'' = db w'))
    /\ (db w !! k = None -> db w' = db w).
Proof.
  assert (Habsent : forall u,
    db u !! k = None ->
    exists u', clearCache k u = (Returned tt, u') /\ db u' = db u).
  { intros u Hk. destruct (next_fault u) eqn:Hfu.
    - rewrite clearCache_fault by done. by eexists.
    - rewrite clearCache_ok by done. eexists. split; [reflexivity|].
      simpl. by apply delete_id. }
  destruct (next_fault w) eqn:Hf.
  - rewrite clearCache_fault by done. eexists. split; [reflexivity|].
    split; [discriminate|]. done.
  - rewrite clearCache_ok by done. eexists. split; [reflexivity|]. simpl.
    split; [|intros Hk; by apply delete_id].
    intros _. split; [reflexivity|].
    split; [apply lookup_delete_eq|].
    split; [intros k' Hne; by apply lookup_delete_ne|].
    intros w2 Hw2. destruct (Habsent w2) as (w'' & Hrun & Hdb).
    + rewrite Hw2. apply lookup_delete_eq.
    + exists w''. split; [exact Hrun|]. by rewrite Hdb.
Qed.

Lemma clearCache_spec_witness :
  exists w' w'',
    clearCache "admin" w_admin = (Returned tt, w')
    /\ db w' = ∅
    /\ clearCache "admin" w' = (Returned tt, w'')
    /\ db w'' = ∅.
Proof.
  destruct (clearCache_spec "admin" w_admin) as (w' & Hrun & Hok & _).
  destruct (Hok eq_refl) as (Hdb & _ & _ & Htwice).
  destruct (Htwice w' eq_refl) as (w'' & Hrun2 & Hdb2).
  exists w', w''. split; [exact Hrun|].
  assert (Hempty : db w' = ∅) by (rewrite Hdb; reflexivity).
  split; [exact Hempty|]. split; [exact Hrun2|]. by rewrite Hdb2.
Defined.

(** C10: at one evaluation instant and with both statements going through,
    the sweep of [clearExpiredCache] deletes a stored row exactly when
    [isCacheExpired] answers [true] for its key; a row whose [expiresAt] is
    the current instant is neither reported expired nor swept. *)
Theorem sweep_agrees_with_isCacheExpired (k : string) (e : CacheEntry) (w : World) :
  db w !! k = Some e ->
  next_fault w = false ->
  exists n w1 b w2,
    clearExpiredCache w = (Returned n, w1)
    /\ isCacheExpired k w = (Returned b, w2)
    /\ (db w1 !! k = None <-> b = true)
    /\ (expiresAt e = clock w -> b = false /\ db w1 !! k = Some e).
Proof.
  intros Hk Hf. destruct (clearExpiredCache_ok w Hf) as (w1 & Hrun & Hdb & _).
  rewrite isCacheExpired_ok by done. rewrite Hk. simpl.
  eexists _, w1, _, _. split; [exact Hrun|]. split; [reflexivity|].
  rewrite Hdb. destruct (Z.ltb_spec (expiresAt e) (clock w)) as [Hlt|Hge].
  - rewrite (swept_lookup_expired w k e Hk Hlt). split; [done|]. lia.
  - rewrite (swept_lookup_live w k e Hk) by lia. split; [done|]. done.
Qed.

Lemma sweep_agrees_with_isCacheExpired_witness :
  exists n w1 b w2,
    clearExpiredCache w_admin = (Returned n, w1)
    /\ isCacheExpired "admin" w_admin = (Returned b, w2)
    /\ (db w1 !! "admin" = None <-> b = true).
Proof.
  destruct (sweep_agrees_with_isCacheExpired "admin" _ w_admin eq_refl eq_refl)
    as (n & w1 & b & w2 & H1 & H2 & H3 & _).
  exists n, w1, b, w2. auto.
Defined.

(** ** Writing *)




(** ** Operations that never throw *)

Lemma returns_ret {A} (a : A) : returns (ret a).
Proof. intros w. by eexists _, _. Qed.

Lemma returns_emit line : returns (emit line).
Proof. intros w. by eexists _, _. Qed.

Lemma returns_bind {A B} (m : M A) (k : A -> M B) :
  returns m -> (forall a, returns (k a)) -> returns (bind m k).
Proof.
  intros Hm Hk w. unfold bind. destruct (Hm w) as (a & w1 & ->). apply Hk.
Qed.

Lemma returns_try_catch {A} (body : M A) (handler : JsError -> M A) :
  (forall error, returns (handler error)) -> returns (try_catch body handler).
Proof.
  intros Hh w. unfold try_catch. destruct (body w) as [[a|error] w1].
  - by eexists _, _.
  - apply Hh.
Qed.

Lemma returns_getCachedData k : returns (getCachedData k).
Proof.
  apply returns_try_catch. intros error.
  apply returns_bind; [apply returns_emit | intros; apply returns_ret].
Qed.

Lemma returns_isCacheExpired k : returns (isCacheExpired k).
Proof.
  apply returns_try_catch. intros error.
  apply returns_bind; [apply returns_emit | intros; apply returns_ret].
Qed.

Lemma returns_setCachedData k v ttl : returns (setCachedData k v ttl).
Proof. apply returns_try_catch. intros error. apply returns_emit. Qed.

Lemma returns_clearExpiredCache : returns clearExpiredCache.
Proof.
  apply returns_try_catch. intros error.
  apply returns_bind; [apply returns_emit | intros; apply returns_ret].
Qed.

Lemma returns_clearCache k : returns (clearCache k).
Proof. apply returns_try_catch. intros error. apply returns_emit. Qed.

Lemma returns_clearAllCache : returns clearAllCache.
Proof. apply returns_try_catch. intros error. apply returns_emit. Qed.

Lemma returns_warmUpCache storage env : returns (warmUpCache storage env).
Proof.
  apply returns_bind; [apply returns_emit | intros _].
  apply returns_try_catch. intros error. apply returns_emit.
Qed.

Lemma returns_refreshCacheInBackground k p :
  returns (refreshCacheInBackground k p).
Proof. apply returns_try_catch. intros error. apply returns_emit. Qed.

Lemma returns_cleanup_tick : returns cleanup_tick.
Proof.
  apply returns_bind; [apply returns_clearExpiredCache | intros; apply returns_ret].
Qed.

(** The state a [setCachedData] leaves, whether or not its upsert fails. *)
Lemma setCachedData_frame k v ttl w :
  exists w',
    setCachedData k v ttl w = (Returned tt, w')
    /\ calls w' = calls w /\ detached w' = detached w /\ clock w' = clock w
    /\ faults w' = tl (faults w)
    /\ db w' = (if next_fault w then db w else <[k := fresh_row v ttl w]> (db w)).
Proof.
  destruct (next_fault w) eqn:Hf.
  - rewrite setCachedData_fault by done. eexists. repeat split.
  - rewrite setCachedData_ok by done. eexists. repeat split.
Qed.

(** ** Read-through *)

(** The cold path of [getDataWithCache]: what it does once the lookup came
    back falsy, in the world [w1] the lookup left. *)
Lemma getDataWithCache_miss k p w w1 :
  getCachedData k w = (Returned JNull, w1) ->
  getDataWithCache k p w
  = match p (clock w1) with
    | Returned v =>
        (Returned {| data := v; fromCache := false |},
         snd (setCachedData k v None (count_call w1)))
    | Thrown error =>
        (Thrown error,
         add_line (ERROR, "Error fetching fresh data:", Some (ArgError error))
           (count_call w1))
    end.
Proof.
  intros Hget. unfold getDataWithCache, bind at 1. rewrite Hget. simpl.
  unfold try_catch, bind at 1. unfold await_call at 1.
  destruct (p (clock w1)) as [v|error]; [|reflexivity].
  unfold bind.
  destruct (setCachedData_frame k v None (count_call w1)) as (w2 & -> & _).
  reflexivity.
Qed.

Lemma getCachedData_absent k w :
  db w !! k = None \/ next_fault w = true ->
  exists w1,
    getCachedData k w = (Returned JNull, w1)
    /\ db w1 = db w /\ clock w1 = clock w /\ calls w1 = calls w
    /\ detached w1 = detached w /\ faults w1 = tl (faults w).
Proof.
  intros Hcase. destruct (next_fault w) eqn:Hf.
  - rewrite getCachedData_fault by done. eexists. repeat split.
  - destruct Hcase as [Hk|]; [|done].
    rewrite getCachedData_ok, Hk by done. eexists. repeat split.
Qed.

(** C5: a failing read makes [getCachedData] return [null]; a failing expiry
    check makes [isCacheExpired] return [true]; a failing upsert makes
    [setCachedData] return normally with the table unchanged, and the payload
    a producer gave still reaches the caller of [getDataWithCache], whatever
    the database does; every operation of the service returns from every
    world, and the only thing [getDataWithCache] can throw is what its
    producer threw. *)
Theorem storage_faults_absorbed (k : string) (v : JsValue) (ttl : option Duration)
    (p : Producer) (storage : Storage) (NODE_ENV : option string) (w : World) :
  next_fault w = true ->
  fst (getCachedData k w) = Returned JNull
  /\ fst (isCacheExpired k w) = Returned true
  /\ (fst (setCachedData k v ttl w) = Returned tt
      /\ db (snd (setCachedData k v ttl w)) = db w)
  /\ (forall u, db u !! k = None \/ next_fault u = true ->
      p (clock u) = Returned v ->
      fst (getDataWithCache k p u) = Returned {| data := v; fromCache := false |})
  /\ (returns (getCachedData k) /\ returns (isCacheExpired k)
      /\ returns (setCachedData k v ttl) /\ returns clearExpiredCache
      /\ returns (clearCache k) /\ returns clearAllCache
      /\ returns (warmUpCache storage NODE_ENV)
      /\ returns (refreshCacheInBackground k p) /\ returns cleanup_tick)
  /\ (forall u error, fst (getDataWithCache k p u) = Thrown error ->
      p (clock u) = Thrown error).
Proof.
  intros Hf.
  rewrite getCachedData_fault, isCacheExpired_fault, setCachedData_fault by done.
  split; [reflexivity|]. split; [reflexivity|]. split; [by split|].
  split.
  { intros u Hu Hp. destruct (getCachedData_absent k u Hu) as (u1 & Hget & _ & Hc & _).
    rewrite (getDataWithCache_miss k p u u1 Hget), Hc, Hp. reflexivity. }
  split.
  { repeat split.
    - apply returns_getCachedData.
    - apply returns_isCacheExpired.
    - apply returns_setCachedData.
    - apply returns_clearExpiredCache.
    - apply returns_clearCache.
    - apply returns_clearAllCache.
    - apply returns_warmUpCache.
    - apply returns_refreshCacheInBackground.
    - apply returns_cleanup_tick. }
  intros u error. unfold getDataWithCache, bind at 1.
  destruct (returns_getCachedData k u) as (c & u1 & Hget). rewrite Hget.
  destruct (truthy c) eqn:Htr.
  - unfold bind at 1.
    destruct (returns_isCacheExpired k u1) as (b & u2 & ->).
    destruct b; simpl; discriminate.
  - assert (Hclock : clock u1 = clock u).
    { revert Hget. destruct (next_fault u) eqn:Hfu.
      - rewrite getCachedData_fault by done. by intros [= _ <-].
      - rewrite getCachedData_ok by done. by intros [= _ <-]. }
    unfold try_catch, bind at 1, await_call at 1. rewrite Hclock.
    destruct (p (clock u)) as [v'|error'].
    + unfold bind.
      destruct (setCachedData_frame k v' None (count_call u1)) as (w2 & -> & _).
      simpl. discriminate.
    + simpl. by intros [= ->].
Qed.

Lemma storage_faults_absorbed_witness :
  fst (getCachedData "admin" w_down) = Returned JNull
  /\ fst (isCacheExpired "admin" w_down) = Returned true
  /\ fst (getDataWithCache "admin" count6 w_down)
     = Returned {| data := dashboard 6; fromCache := false |}
  /\ fst (getDataWithCache "admin" count6 w_write_down)
     = Returned {| data := dashboard 6; fromCache := false |}.
Proof.
  destruct (storage_faults_absorbed "admin" (dashboard 6) None count6
              sample_storage None w_down eq_refl)
    as (Hget & Hexp & _ & Hflow & _).
  split; [exact Hget|]. split; [exact Hexp|].
  split; [apply Hflow; [right|]; reflexivity|].
  apply Hflow; [left|]; reflexivity.
Defined.

(** C2: on a key with no row, [getDataWithCache k p] awaits the producer once.
    If the producer resolves to [v], the call returns [v] with
    [fromCache = false] and, the upsert going through, the table gets the row
    of [k] holding [v] with the default duration. If the producer rejects,
    the call throws the same error and the table is as before, with no row
    for [k]. *)
Theorem getDataWithCache_cold (k : string) (p : Producer) (w : World) :
  db w !! k = None ->
  (forall v, p (clock w) = Returned v ->
     exists w',
       getDataWithCache k p w = (Returned {| data := v; fromCache := false |}, w')
       /\ calls w' = S (calls w) /\ detached w' = detached w
       /\ (next_fault (pop_fault w) = false ->
           db w'
           = <[k := {| cacheData := v; lastUpdated := clock w;
                       expiresAt := clock w + 15 * 60 * 1000 |}]> (db w)))
  /\ (forall error, p (clock w) = Thrown error ->
     exists w',
       getDataWithCache k p w = (Thrown error, w')
       /\ calls w' = S (calls w) /\ detached w' = detached w
       /\ db w' = db w /\ db w' !! k = None).
Proof.
  intros Hk.
  destruct (getCachedData_absent k w (or_introl Hk))
    as (w1 & Hget & Hdb & Hclock & Hcalls & Hdet & Hfaults).
  rewrite (getDataWithCache_miss k p w w1 Hget), Hclock. split.
  - intros v ->.
    destruct (setCachedData_frame k v None (count_call w1))
      as (w2 & Hset & Hc2 & Hd2 & _ & _ & Hdb2).
    rewrite Hset. eexists. split; [reflexivity|]. simpl.
    rewrite Hc2, Hd2. simpl. rewrite Hcalls, Hdet. repeat split.
    intros Hwrite. rewrite Hdb2.
    replace (next_fault (count_call w1)) with (next_fault (pop_fault w))
      by (unfold next_fault; simpl; by rewrite Hfaults).
    rewrite Hwrite. simpl. rewrite Hdb. unfold fresh_row. simpl.
    by rewrite Hclock.
  - intros error ->. eexists. split; [reflexivity|]. simpl.
    rewrite Hcalls, Hdet, Hdb. done.
Qed.

Lemma getDataWithCache_cold_witness :
  (exists w',
     getDataWithCache "admin" count6 w_empty
     = (Returned {| data := dashboard 6; fromCache := false |}, w')
     /\ calls w' = 1%nat
     /\ db w' !! "admin"
        = Some {| cacheData := dashboard 6; lastUpdated := 1000;
                  expiresAt := 901000 |})
  /\ (exists w',
     getDataWithCache "admin" failing w_empty = (Thrown (JsErr "boom"), w')
     /\ calls w' = 1%nat /\ db w' !! "admin" = None).
Proof.
  split.
  - destruct (getDataWithCache_cold "admin" count6 w_empty eq_refl) as [Hok _].
    destruct (Hok _ eq_refl) as (w' & Hrun & Hcalls & _ & Hdb).
    exists w'. split; [exact Hrun|]. split; [exact Hcalls|].
    rewrite (Hdb eq_refl). reflexivity.
  - destruct (getDataWithCache_cold "admin" failing w_empty eq_refl) as [_ Hko].
    destruct (Hko _ eq_refl) as (w' & Hrun & Hcalls & _ & _ & Hk).
    exists w'. auto.
Defined.

(** What [refreshCacheInBackground] does when it is run from its call to its
    end in one world [u]. *)
Lemma refreshCacheInBackground_spec k p u :
  exists u',
    refreshCacheInBackground k p u = (Returned tt, u')
    /\ calls u' = S (calls u)
    /\ detached u' = detached u
    /\ (forall v, p (clock u) = Returned v ->
        db u' = (if next_fault u then db u
                 else <[k := {| cacheData := v; lastUpdated := clock u;
                                expiresAt := clock u + 15 * 60 * 1000 |}]> (db u)))
    /\ (forall error, p (clock u) = Thrown error ->
        db u' = db u
        /\ console u'
           = (console u
              ++ [(ERROR, "Background cache refresh failed for " +:+ k +:+ ":",
                   Some (ArgError error))])%list).
Proof.
  unfold refreshCacheInBackground, try_catch, bind at 1, await_call at 1.
  destruct (p (clock u)) as [v|error].
  - unfold bind at 1.
    destruct (setCachedData_frame k v None (count_call u))
      as (u2 & -> & Hc2 & Hd2 & _ & _ & Hdb2).
    eexists. split; [reflexivity|]. simpl. rewrite Hc2, Hd2.
    split; [reflexivity|]. split; [reflexivity|]. split.
    + intros v' [= <-]. rewrite Hdb2. reflexivity.
    + intros error' Heq. discriminate Heq.
  - eexists. split; [reflexivity|]. simpl.
    split; [reflexivity|]. split; [reflexivity|]. split.
    + intros v' Heq. discriminate Heq.
    + intros error' [= <-]. split; reflexivity.
Qed.

(** Called without [await] and taken up again with no time in between, the
    method does what it does in one go. *)
Lemma refreshCacheInBackground_in_two_steps k p w :
  refreshCacheInBackground k p w
  = refreshCacheInBackground_resumed k (p (clock w)) (count_call w).
Proof. reflexivity. Qed.

(** The first step: the producer is called, and the method waits. *)
Lemma refreshCacheInBackground_started_spec k p w :
  refreshCacheInBackground_started k p w
  = (Returned tt,
     set_detached (detached w ++ [(k, p (clock w))]) (count_call w)).
Proof. reflexivity. Qed.

(** The second step, in the world [u] the settled promise finds. *)
Lemma refreshCacheInBackground_resumed_spec k promise u :
  exists u',
    refreshCacheInBackground_resumed k promise u = (Returned tt, u')
    /\ calls u' = calls u
    /\ detached u' = detached u
    /\ (forall v, promise = Returned v -> next_fault u = false ->
        db u' = <[k := {| cacheData := v; lastUpdated := clock u;
                          expiresAt := clock u + 15 * 60 * 1000 |}]> (db u)
        /\ console u'
           = (console u
              ++ [(LOG, "Cache updated for key: " +:+ k, None);
                  (LOG, "Background cache refresh completed for: " +:+ k, None)])%list)
    /\ (forall error, promise = Thrown error ->
        db u' = db u
        /\ console u'
           = (console u
              ++ [(ERROR, "Background cache refresh failed for " +:+ k +:+ ":",
                   Some (ArgError error))])%list).
Proof.
  unfold refreshCacheInBackground_resumed, try_catch, bind at 1, attempt.
  destruct promise as [v|error].
  - unfold bind at 1.
    destruct (setCachedData_frame k v None u) as (u2 & Hset & Hc2 & Hd2 & _ & _ & _).
    rewrite Hset. eexists. split; [reflexivity|]. simpl. rewrite Hc2, Hd2.
    split; [reflexivity|]. split; [reflexivity|]. split.
    + intros v' [= <-] Hfu. rewrite setCachedData_ok in Hset by done.
      injection Hset as <-. simpl. split; [reflexivity|].
      by rewrite <- app_assoc.
    + intros error' Heq. discriminate Heq.
  - eexists. split; [reflexivity|]. simpl.
    split; [reflexivity|]. split; [reflexivity|]. split.
    + intros v' Heq. discriminate Heq.
    + intros error' [= <-]. split; reflexivity.
Qed.

(** C1 as worded fails on a stored payload that is falsy: with [0] stored
    under [admin], the producer is awaited and its result is what is served.
    It fails on a truthy payload that has expired: the payload is served from
    the cache, but the producer has been called by the time the call returns.
    And it fails when the lookup does: the row is there, the read of it is
    absorbed as [null], and the producer is awaited. *)
Lemma getDataWithCache_counterexample :
  ¬ serves_stored "admin" count6 w_zero
  /\ ¬ serves_stored "admin" count6 w_admin
  /\ ¬ serves_stored "admin" count6 w_down.
Proof.
  split; [|split]; intros Hserve.
  - destruct (Hserve _ eq_refl) as (w' & Hrun & _).
    vm_compute in Hrun. discriminate.
  - destruct (Hserve _ eq_refl) as (w' & Hrun & Hcalls).
    vm_compute in Hrun. injection Hrun as <-. vm_compute in Hcalls.
    discriminate.
  - destruct (Hserve _ eq_refl) as (w' & Hrun & _).
    vm_compute in Hrun. discriminate.
Qed.

(** C1, amended: for a key whose row is looked up with a truthy payload, the
    lookup going through, [getDataWithCache k p] returns that payload with
    [fromCache = true] and leaves the table alone. While the row is fresh the
    producer is not called. When the expiry check says expired (the row's
    [expiresAt] is before now, or the check itself fails) the producer is
    called once, inside [refreshCacheInBackground] and before the call
    returns, but its promise is not awaited: the refresh is left waiting for
    it, and what the call returns and leaves in the table and on the console
    is the same whatever the producer. When that refresh is taken up again,
    at whatever instant and in whatever world, it calls nothing, writes the
    producer's result under [k] with the default duration if the upsert goes
    through, and tells the outcome to the console only. *)
Theorem getDataWithCache_hit (k : string) (p : Producer) (row : CacheEntry)
    (w : World) :
  db w !! k = Some row ->
  truthy (cacheData (handed_back w row)) = true ->
  next_fault w = false ->
  exists w',
    getDataWithCache k p w
    = (Returned {| data := cacheData (handed_back w row); fromCache := true |}, w')
    /\ db w' = db w
    /\ (if next_fault (pop_fault w) || (expiresAt row <? clock w)
        then calls w' = S (calls w)
             /\ detached w' = (detached w ++ [(k, p (clock w))])%list
        else calls w' = calls w /\ detached w' = detached w)
    /\ (forall p', exists w'',
          getDataWithCache k p' w
          = (Returned {| data := cacheData (handed_back w row); fromCache := true |},
             w'')
          /\ db w'' = db w' /\ console w'' = console w'
          /\ clock w'' = clock w' /\ faults w'' = faults w')
    /\ (forall u rest,
          detached u = (k, p (clock w)) :: rest ->
          detached (settle_one u) = rest
          /\ calls (settle_one u) = calls u
          /\ (forall v, p (clock w) = Returned v -> next_fault u = false ->
              db (settle_one u)
              = <[k := {| cacheData := v; lastUpdated := clock u;
                          expiresAt := clock u + 15 * 60 * 1000 |}]> (db u)
              /\ console (settle_one u)
                 = (console u
                    ++ [(LOG, "Cache updated for key: " +:+ k, None);
                        (LOG, "Background cache refresh completed for: " +:+ k,
                         None)])%list)
          /\ (forall error, p (clock w) = Thrown error ->
              db (settle_one u) = db u
              /\ console (settle_one u)
                 = (console u
                    ++ [(ERROR, "Background cache refresh failed for " +:+ k +:+ ":",
                         Some (ArgError error))])%list)).
Proof.
  intros Hk Htruthy Hf.
  assert (Hrun : forall q,
    getDataWithCache k q w
    = (Returned {| data := cacheData (handed_back w row); fromCache := true |},
       let w2 := snd (isCacheExpired k (pop_fault w)) in
       if next_fault (pop_fault w) || (expiresAt row <? clock w)
       then set_detached (detached w2 ++ [(k, q (clock w))]) (count_call w2)
       else w2)).
  { intros q. unfold getDataWithCache, bind at 1.
    rewrite getCachedData_ok, Hk by done. simpl. simpl in Htruthy.
    rewrite Htruthy. unfold bind at 1.
    destruct (next_fault (pop_fault w)) eqn:Hf2.
    - rewrite isCacheExpired_fault by done. reflexivity.
    - rewrite isCacheExpired_ok by done. simpl. rewrite Hk. simpl.
      destruct (expiresAt row <? clock w); reflexivity. }
  eexists. split; [apply Hrun|]. cbv zeta.
  assert (Hw2 : let w2 := snd (isCacheExpired k (pop_fault w)) in
                db w2 = db w /\ calls w2 = calls w /\ detached w2 = detached w).
  { destruct (next_fault (pop_fault w)) eqn:Hf2.
    - rewrite isCacheExpired_fault by done. done.
    - rewrite isCacheExpired_ok by done. done. }
  cbv zeta in Hw2. destruct Hw2 as (Hdb2 & Hcalls2 & Hdet2).
  split.
  { destruct (next_fault (pop_fault w) || (expiresAt row <? clock w)); simpl; done. }
  split.
  { destruct (next_fault (pop_fault w) || (expiresAt row <? clock w)); simpl;
      by rewrite Hcalls2, Hdet2. }
  split.
  { intros p'. eexists. split; [apply Hrun|]. cbv zeta.
    destruct (next_fault (pop_fault w) || (expiresAt row <? clock w)); simpl; done. }
  intros u rest Hdet. unfold settle_one. rewrite Hdet.
  destruct (refreshCacheInBackground_resumed_spec k (p (clock w)) (set_detached rest u))
    as (u' & -> & Hc & Hd & Hv & He).
  simpl. split; [exact Hd|]. split; [exact Hc|]. split.
  - intros v Hp Hfu. apply (Hv v Hp Hfu).
  - intros error Hp. apply (He error Hp).
Qed.

Lemma getDataWithCache_hit_witness :
  exists w',
    getDataWithCache "admin" count6 w_admin
    = (Returned {| data := dashboard 5; fromCache := true |}, w')
    /\ calls w' = 1%nat
    /\ detached w' = [("admin", Returned (dashboard 6))]
    /\ db (settle_one (set_clock 2000 w')) !! "admin"
       = Some {| cacheData := dashboard 6; lastUpdated := 2000;
                 expiresAt := 902000 |}.
Proof.
  destruct (getDataWithCache_hit "admin" count6 _ w_admin eq_refl eq_refl eq_refl)
    as (w' & Hrun & Hdb & Hcall & _ & Hsettle).
  simpl in Hcall. destruct Hcall as [Hcalls Hdet].
  exists w'. split; [exact Hrun|]. split; [exact Hcalls|].
  split; [exact Hdet|].
  destruct (Hsettle (set_clock 2000 w') [] Hdet) as (_ & _ & Hv & _).
  destruct (Hv _ eq_refl) as [Hrow _].
  - injection Hrun as <-. reflexivity.
  - rewrite Hrow. apply lookup_insert_eq.
Defined.

(** ** Warm-up *)

Lemma show_Z_inj a b : show_Z a = show_Z b -> a = b.
Proof.
  unfold show_Z. intros Heq. apply DecimalZ.to_int_inj.
  assert (Hparse : forall n,
    NilZero.int_of_string (NilZero.string_of_int (Z.to_int n)) = Some (Z.to_int n)).
  { intros n. apply NilZero.isi; destruct n; simpl; try discriminate;
      intros [= Hnil]; by apply Unsigned.to_uint_nonnil in Hnil. }
  pose proof (Hparse a) as Ha. rewrite Heq, Hparse in Ha. congruence.
Qed.

Lemma student_key_inj a b : student_key a = student_key b -> a = b.
Proof. unfold student_key. simpl. intros [= Heq]. by apply show_Z_inj. Qed.

Lemma student_key_not_fixed id :
  student_key id <> "admin" /\ student_key id <> "university"
  /\ student_key id <> "batch_2027" /\ student_key id <> "batch_2028".
Proof. unfold student_key. simpl. repeat split; discriminate. Qed.

Lemma bind_returned {A B} (m : M A) (k : A -> M B) w a w1 :
  m w = (Returned a, w1) -> bind m k w = k a w1.
Proof. intros Hm. unfold bind. by rewrite Hm. Qed.

Lemma healthy_next_fault w : faults w = [] -> next_fault w = false.
Proof. unfold next_fault. by intros ->. Qed.

Lemma setCachedData_healthy k v w :
  faults w = [] ->
  exists w',
    setCachedData k v None w = (Returned tt, w')
    /\ faults w' = [] /\ clock w' = clock w
    /\ db w' = <[k := default_row v w]> (db w).
Proof.
  intros Hh. rewrite setCachedData_ok by by apply healthy_next_fault.
  eexists. split; [reflexivity|]. simpl. by rewrite Hh.
Qed.

(** What one round of the loop does to the table and to the console. *)
Lemma warm_student_healthy storage s w :
  faults w = [] ->
  exists w',
    warm_student storage s w = (Returned tt, w')
    /\ faults w' = [] /\ clock w' = clock w
    /\ db w'
       = match getStudentDashboard storage (student_id s) (clock w) with
         | Returned v =>
             if truthy v
             then <[student_key (student_id s) := default_row v w]> (db w)
             else db w
         | Thrown _ => db w
         end
    /\ (forall line, line ∈ console w -> line ∈ console w')
    /\ (forall error,
          getStudentDashboard storage (student_id s) (clock w) = Thrown error ->
          skipped_line s error ∈ console w').
Proof.
  intros Hh. unfold warm_student, try_catch, bind, await_call.
  destruct (getStudentDashboard storage (student_id s) (clock w)) as [v|error].
  - destruct (truthy v).
    + rewrite setCachedData_ok by by apply healthy_next_fault.
      eexists. split; [reflexivity|]. simpl. rewrite Hh.
      split; [done|]. split; [done|]. split; [done|]. split.
      * intros line Hline. apply elem_of_app. by left.
      * intros error [=].
    + eexists. split; [reflexivity|]. simpl.
      split; [done|]. split; [done|]. split; [done|]. split; [done|].
      intros error [=].
  - eexists. split; [reflexivity|]. simpl.
    split; [done|]. split; [done|]. split; [done|]. split.
    + intros line Hline. apply elem_of_app. by left.
    + intros error' [= <-]. apply elem_of_app. right.
      by apply list_elem_of_singleton.
Qed.

Lemma warm_students_healthy storage students :
  forall w,
    faults w = [] ->
    exists w',
      warm_students storage students w = (Returned tt, w')
      /\ faults w' = [] /\ clock w' = clock w
      /\ (forall s v,
            s ∈ students ->
            getStudentDashboard storage (student_id s) (clock w) = Returned v ->
            truthy v = true ->
            db w' !! student_key (student_id s) = Some (default_row v w))
      /\ (forall key,
            (forall s, s ∈ students -> student_key (student_id s) <> key) ->
            db w' !! key = db w !! key)
      /\ (forall line, line ∈ console w -> line ∈ console w')
      /\ (forall s error,
            s ∈ students ->
            getStudentDashboard storage (student_id s) (clock w) = Thrown error ->
            skipped_line s error ∈ console w').
Proof.
  induction students as [|s0 rest IH]; intros w Hh.
  - exists w. split; [reflexivity|]. split; [done|]. split; [done|].
    split; [intros s v Hin; by apply elem_of_nil in Hin|].
    split; [done|]. split; [done|].
    intros s error Hin. by apply elem_of_nil in Hin.
  - destruct (warm_student_healthy storage s0 w Hh)
      as (w1 & Hstep & Hh1 & Hc1 & Hdb1 & Hkept1 & Hskip1).
    destruct (IH w1 Hh1) as (w' & Hrest & Hh' & Hc' & Hwritten & Hframe & Hkept & Hskip).
    exists w'. simpl. rewrite (bind_returned _ _ _ _ _ Hstep).
    split; [exact Hrest|]. split; [exact Hh'|]. split; [congruence|].
    split.
    { intros s v Hin Hp Htr.
      destruct (decide (s ∈ rest)) as [Hrest_in|Hnot].
      - rewrite (Hwritten s v Hrest_in); [|by rewrite Hc1|done].
        unfold default_row. by rewrite Hc1.
      - apply elem_of_cons in Hin as [->|Hin]; [|done].
        rewrite Hframe.
        + rewrite Hdb1, Hp, Htr. apply lookup_insert_eq.
        + intros s' Hs' Hkey. apply student_key_inj in Hkey.
          destruct s' as [i'], s0 as [i0]. simpl in Hkey. subst i'. done. }
    split.
    { intros key Hkey. rewrite Hframe.
      - rewrite Hdb1.
        assert (Hne : student_key (student_id s0) <> key)
          by (apply Hkey; apply elem_of_cons; by left).
        destruct (getStudentDashboard storage (student_id s0) (clock w)) as [v|error];
          [destruct (truthy v)|]; try done.
        by apply lookup_insert_ne.
      - intros s Hs. apply Hkey. apply elem_of_cons. by right. }
    split; [by auto|].
    intros s error Hin Hp. apply elem_of_cons in Hin as [->|Hin].
    + apply Hkept. by apply Hskip1.
    + apply (Hskip s error Hin). by rewrite Hc1.
Qed.

Lemma await_call_returned {A} (producer : Z -> Outcome A) w a :
  producer (clock w) = Returned a ->
  await_call producer w = (Returned a, count_call w).
Proof. unfold await_call. by intros ->. Qed.

(** The four fixed keys, on a healthy database. *)
Lemma warm_fixed_key k (producer : Producer) v (rest : M unit) w :
  faults w = [] ->
  producer (clock w) = Returned v ->
  exists w1,
    bind (await_call producer) (fun data => bind (setCachedData k data None) (fun _ => rest)) w
    = rest w1
    /\ faults w1 = [] /\ clock w1 = clock w
    /\ (forall key, key <> k -> db w1 !! key = db w !! key).
Proof.
  intros Hh Hp.
  destruct (setCachedData_healthy k v (count_call w) Hh) as (w1 & Hset & Hh1 & Hc1 & Hdb1).
  exists w1. rewrite (bind_returned _ _ _ _ _ (await_call_returned _ _ _ Hp)).
  rewrite (bind_returned _ _ _ _ _ Hset).
  split; [reflexivity|]. split; [done|]. split; [done|].
  intros key Hne. rewrite Hdb1. by apply lookup_insert_ne.
Qed.

(** C4 as worded fails on a student whose producer resolves to nothing: 3 is
    selected and its producer does not fail, yet no row is written for it. *)
Lemma nothing_to_cache_counterexample :
  ¬ warms_every_nonfailing sample_storage None w_empty.
Proof.
  intros Hwarm.
  destruct (Hwarm _ _ _ _ _ {| student_id := 3 |} JUndefined
              eq_refl eq_refl eq_refl eq_refl eq_refl eq_refl) as [row Hrow].
  - vm_compute. set_solver.
  - reflexivity.
  - vm_compute in Hrow. discriminate.
Qed.

(** C4, amended: [warmUpCache] returns from every world. The students it warms
    are the first [studentLimit] of the list in its order, 20 in production
    and 50 otherwise. On a healthy database and with the fixed-key producers
    and the student list resolving, every selected student whose producer
    resolves to a truthy payload has its row afterwards, holding that payload
    with the default duration, whatever the other students' producers do; the
    keys of students outside the selection are left as they were; every
    selected student whose producer fails has its line on the console, with
    the message of the error; and the last line of the console says that the
    warm-up completed. *)
Theorem warmUpCache_spec (storage : Storage) (NODE_ENV : option string) (w : World) :
  returns (warmUpCache storage NODE_ENV)
  /\ studentLimit (Some "production") = 20%nat
  /\ (NODE_ENV <> Some "production" -> studentLimit NODE_ENV = 50%nat)
  /\ (forall admin university batch2027 batch2028 allStudents,
        faults w = [] ->
        getAdminDashboard storage (clock w) = Returned admin ->
        getUniversityDashboard storage (clock w) = Returned university ->
        getBatchDashboard storage "2027" (clock w) = Returned batch2027 ->
        getBatchDashboard storage "2028" (clock w) = Returned batch2028 ->
        getAllStudents storage (clock w) = Returned allStudents ->
        exists w',
          warmUpCache storage NODE_ENV w = (Returned tt, w')
          /\ (forall s v,
                s ∈ take (studentLimit NODE_ENV) allStudents ->
                getStudentDashboard storage (student_id s) (clock w) = Returned v ->
                truthy v = true ->
                db w' !! student_key (student_id s)
                = Some {| cacheData := v; lastUpdated := clock w;
                          expiresAt := clock w + 15 * 60 * 1000 |})
          /\ (forall id,
                (forall s, s ∈ take (studentLimit NODE_ENV) allStudents ->
                           student_id s <> id) ->
                db w' !! student_key id = db w !! student_key id)
          /\ (forall s error,
                s ∈ take (studentLimit NODE_ENV) allStudents ->
                getStudentDashboard storage (student_id s) (clock w) = Thrown error ->
                (LOG, "Skipping cache for student " +:+ show_Z (student_id s) +:+ ":",
                 Some (ArgText (error_message error))) ∈ console w')
          /\ last (console w')
             = Some (LOG, "Cache warm-up completed successfully", None)).
Proof.
  split; [apply returns_warmUpCache|]. split; [reflexivity|]. split.
  { intros Hne. unfold studentLimit. by rewrite bool_decide_eq_false_2. }
  intros admin university batch2027 batch2028 allStudents Hh Ha Hu H27 H28 Hall.
  unfold warmUpCache.
  rewrite (bind_returned _ _ w tt (add_line (LOG, "Starting cache warm-up...", None) w))
    by reflexivity.
  set (w0 := add_line (LOG, "Starting cache warm-up...", None) w).
  assert (Hh0 : faults w0 = []) by done.
  assert (Hc0 : clock w0 = clock w) by done.
  unfold try_catch.
  destruct (warm_fixed_key "admin" (getAdminDashboard storage) admin
              (universityData <- await_call (getUniversityDashboard storage) ;;
               setCachedData "university" universityData None ;;;
               batch2027Data <- await_call (getBatchDashboard storage "2027") ;;
               setCachedData "batch_2027" batch2027Data None ;;;
               batch2028Data <- await_call (getBatchDashboard storage "2028") ;;
               setCachedData "batch_2028" batch2028Data None ;;;
               allStudents <- await_call (getAllStudents storage) ;;
               warm_students storage (take (studentLimit NODE_ENV) allStudents) ;;;
               console_log "Cache warm-up completed successfully")
              w0 Hh0 ltac:(by rewrite Hc0))
    as (w1 & -> & Hh1 & Hc1 & Hk1).
  destruct (warm_fixed_key "university" (getUniversityDashboard storage) university
              (batch2027Data <- await_call (getBatchDashboard storage "2027") ;;
               setCachedData "batch_2027" batch2027Data None ;;;
               batch2028Data <- await_call (getBatchDashboard storage "2028") ;;
               setCachedData "batch_2028" batch2028Data None ;;;
               allStudents <- await_call (getAllStudents storage) ;;
               warm_students storage (take (studentLimit NODE_ENV) allStudents) ;;;
               console_log "Cache warm-up completed successfully")
              w1 Hh1 ltac:(by rewrite Hc1, Hc0))
    as (w2 & -> & Hh2 & Hc2 & Hk2).
  destruct (warm_fixed_key "batch_2027" (getBatchDashboard storage "2027") batch2027
              (batch2028Data <- await_call (getBatchDashboard storage "2028") ;;
               setCachedData "batch_2028" batch2028Data None ;;;
               allStudents <- await_call (getAllStudents storage) ;;
               warm_students storage (take (studentLimit NODE_ENV) allStudents) ;;;
               console_log "Cache warm-up completed successfully")
              w2 Hh2 ltac:(by rewrite Hc2, Hc1, Hc0))
    as (w3 & -> & Hh3 & Hc3 & Hk3).
  destruct (warm_fixed_key "batch_2028" (getBatchDashboard storage "2028") batch2028
              (allStudents <- await_call (getAllStudents storage) ;;
               warm_students storage (take (studentLimit NODE_ENV) allStudents) ;;;
               console_log "Cache warm-up completed successfully")
              w3 Hh3 ltac:(by rewrite Hc3, Hc2, Hc1, Hc0))
    as (w4 & -> & Hh4 & Hc4 & Hk4).
  assert (Hclock : clock w4 = clock w) by congruence.
  rewrite (bind_returned _ _ w4 allStudents (count_call w4))
    by (apply await_call_returned; by rewrite Hclock).
  destruct (warm_students_healthy storage (take (studentLimit NODE_ENV) allStudents)
              (count_call w4) Hh4)
    as (w5 & Hloop & _ & _ & Hwritten & Hframe & _ & Hskip).
  rewrite (bind_returned _ _ _ _ _ Hloop).
  eexists. split; [reflexivity|]. simpl. split.
  { intros s v Hin Hp Htr.
    rewrite (Hwritten s v Hin); [|simpl; by rewrite Hclock|done].
    unfold default_row. simpl. by rewrite Hclock. }
  split.
  { intros id Hout. rewrite Hframe.
    - destruct (student_key_not_fixed id) as (Hn1 & Hn2 & Hn3 & Hn4).
      simpl. rewrite Hk4, Hk3, Hk2, Hk1 by done. reflexivity.
    - intros s Hs Hkey. apply student_key_inj in Hkey. by apply (Hout s). }
  split.
  { intros s error Hin Hp. apply elem_of_app. left.
    apply (Hskip s error Hin). simpl. by rewrite Hclock. }
  apply last_snoc.
Qed.

Lemma warmUpCache_spec_witness :
  exists w',
    warmUpCache sample_storage None w_empty = (Returned tt, w')
    /\ db w' !! "student_1"
       = Some {| cacheData := dashboard 10; lastUpdated := 1000;
                 expiresAt := 901000 |}
    /\ (LOG, "Skipping cache for student 2:", Some (ArgText "no progress rows"))
       ∈ console w'.
Proof.
  destruct (warmUpCache_spec sample_storage None w_empty) as (_ & _ & _ & Hwarm).
  destruct (Hwarm _ _ _ _ _ eq_refl eq_refl eq_refl eq_refl eq_refl eq_refl)
    as (w' & Hrun & Hwritten & _ & Hskipped & _).
  exists w'. split; [exact Hrun|]. split.
  - apply (Hwritten {| student_id := 1 |} (dashboard 10)).
    + vm_compute. set_solver.
    + reflexivity.
    + reflexivity.
  - apply (Hskipped {| student_id := 2 |} (JsErr "no progress rows")).
    + vm_compute. set_solver.
    + reflexivity.
Defined.

(** Warm-up of a class of 25 in production: the four fixed keys and 19 of the
    first 20 students are cached, student 7 is skipped and logged, student 20
    is the last one warmed. *)
Example warmUpCache_production_class :
  let w' := snd (warmUpCache (class_storage 25) (Some "production") w_empty) in
  size (db w') = 23%nat
  /\ db w' !! "student_7" = None
  /\ is_Some (db w' !! "student_20")
  /\ db w' !! "student_21" = None
  /\ (LOG, "Skipping cache for student 7:", Some (ArgText "no progress rows"))
     ∈ console w'.
Proof.
  vm_compute. split; [reflexivity|]. split; [reflexivity|].
  split; [by eexists|]. split; [reflexivity|]. set_solver.
Qed.

End CacheServiceFacts.
(** * Properties of the client mirror *)

Module CachedQueryFacts.
Import CachedQuery.
Local Open Scope js_scope.

Lemma string_length_append (s1 s2 : string) :
  String.length (s1 +:+ s2) = (String.length s1 + String.length s2)%nat.
Proof. induction s1 as [|c s1 IH]; simpl; [reflexivity | by rewrite IH]. Qed.

Lemma cacheTimestampKey_of_ne (cacheKey : string) :
  cacheTimestampKey_of cacheKey <> cacheKey.
Proof.
  unfold cacheTimestampKey_of. intros Heq.
  apply (f_equal String.length) in Heq.
  rewrite string_length_append in Heq. simpl in Heq. lia.
Qed.

Lemma string_eqb_nonempty (s : string) : s <> "" -> String.eqb s "" = false.
Proof. intros Hne. by apply String.eqb_neq. Qed.

Section Mount.

Variable JSON_parse : string -> Outcome JsValue.
Variable parseInt : string -> JsNumber.

(** The mount effect up to the point where the payload has been parsed. *)
Lemma loadCachedOnMount_entry cacheKey gcTime store t payload timestamp :
  has_entry store cacheKey payload timestamp ->
  after_mount JSON_parse parseInt cacheKey gcTime (mounted store t)
  = match JSON_parse payload with
    | Returned v =>
        let age := num_sub (Finite t) (parseInt timestamp) in
        if num_gt age (Finite gcTime)
        then {| localStorage := without_entry store cacheKey; now := t;
                cachedData := JNull; cacheAge := Some age; isFromCache := false;
                warnings := [] |}
        else {| localStorage := store; now := t; cachedData := v;
                cacheAge := Some age; isFromCache := true; warnings := [] |}
    | Thrown error =>
        {| localStorage := without_entry store cacheKey; now := t;
           cachedData := JNull; cacheAge := None; isFromCache := false;
           warnings := [("Failed to load cached data:", error)] |}
    end.
Proof.
  intros (Hp & Ht & Hpne & Htne).
  unfold after_mount, loadCachedOnMount, try_catch, bind, getItem, attempt. simpl.
  rewrite Hp, Ht, (string_eqb_nonempty _ Hpne), (string_eqb_nonempty _ Htne).
  simpl. destruct (JSON_parse payload) as [v|error]; [|reflexivity].
  simpl. destruct (num_gt _ _); reflexivity.
Qed.

(** A stored text that is empty counts as no entry: nothing is read, shown or
    removed. *)
Lemma loadCachedOnMount_empty_text cacheKey gcTime store t :
  store !! cacheKey = Some "" \/ store !! cacheTimestampKey_of cacheKey = Some "" ->
  after_mount JSON_parse parseInt cacheKey gcTime (mounted store t) = mounted store t.
Proof.
  unfold after_mount, loadCachedOnMount, try_catch, bind, getItem, attempt. simpl.
  intros [-> | ->].
  - destruct (store !! cacheTimestampKey_of cacheKey); reflexivity.
  - destruct (store !! cacheKey) as [cached|]; [|reflexivity].
    simpl. by rewrite andb_false_r.
Qed.

(** C9, amended: on mount over a store holding an entry for the key (both
    items stored and non-empty), if the payload parses and the age is at most
    the horizon, the store is kept, the parsed payload, its age and
    [isFromCache = true] are in the hook's state, and the hook shows the
    payload as [data] when it is truthy; if the age is above the horizon, both
    items are removed and what is shown is the live query's data with
    [isFromCache = false]; if the payload does not parse, both items are
    removed, the state is as if nothing had been stored, and the error goes
    to the console only: [isError] and [error] are the live query's. *)
Theorem mount_spec (cacheKey : string) (gcTime : Z) (store : gmap string string)
    (t : Z) (payload timestamp : string) :
  has_entry store cacheKey payload timestamp ->
  let b' := after_mount JSON_parse parseInt cacheKey gcTime (mounted store t) in
  (forall v ts,
     JSON_parse payload = Returned v -> parseInt timestamp = Finite ts ->
     t - ts <= gcTime ->
     localStorage b' = store
     /\ cachedData b' = v /\ isFromCache b' = true
     /\ cacheAge b' = Some (Finite (t - ts))
     /\ (truthy v = true ->
         forall query,
           r_data (useCachedQuery_result b' query) = v
           /\ r_isFromCache (useCachedQuery_result b' query) = true
           /\ r_cacheAge (useCachedQuery_result b' query) = Some (Finite (t - ts))))
  /\ (forall v ts,
     JSON_parse payload = Returned v -> parseInt timestamp = Finite ts ->
     gcTime < t - ts ->
     localStorage b' = without_entry store cacheKey
     /\ localStorage b' !! cacheKey = None
     /\ forall query,
          r_data (useCachedQuery_result b' query) = q_data query
          /\ r_isFromCache (useCachedQuery_result b' query) = false)
  /\ (forall error,
     JSON_parse payload = Thrown error ->
     localStorage b' = without_entry store cacheKey
     /\ localStorage b' !! cacheKey = None
     /\ cachedData b' = JNull /\ isFromCache b' = false /\ cacheAge b' = None
     /\ forall query,
          r_data (useCachedQuery_result b' query) = q_data query
          /\ r_isFromCache (useCachedQuery_result b' query) = false
          /\ r_isError (useCachedQuery_result b' query) = q_isError query
          /\ r_error (useCachedQuery_result b' query) = q_error query).
Proof.
  intros Hentry b'. subst b'.
  rewrite (loadCachedOnMount_entry _ _ _ _ _ _ Hentry).
  assert (Hgone : without_entry store cacheKey !! cacheKey = None).
  { unfold without_entry.
    rewrite lookup_delete_ne by apply cacheTimestampKey_of_ne.
    apply lookup_delete_eq. }
  split; [|split].
  - intros v ts -> -> Hage. simpl.
    destruct (Z.ltb_spec gcTime (t - ts)); [lia|]. simpl.
    split; [done|]. split; [done|]. split; [done|]. split; [done|].
    intros Htruthy query. unfold useCachedQuery_result. simpl.
    by rewrite Htruthy.
  - intros v ts -> -> Hage. simpl.
    destruct (Z.ltb_spec gcTime (t - ts)); [|lia]. simpl.
    split; [done|]. split; [exact Hgone|]. done.
  - intros error ->. simpl.
    split; [done|]. split; [exact Hgone|]. done.
Qed.

End Mount.

(** C9 as worded fails on a payload that parses to a falsy value: with
    [false] stored 1000 ms ago and a horizon of 10 minutes, the hook sets
    [isFromCache] and shows the live query's [undefined], not the entry. *)
Lemma falsy_mirror_counterexample :
  ¬ exposes_entry JSON_parse_scalar parseInt_decimal
      "dashboard_admin" 600000 store_false 2000.
Proof.
  intros Hexp.
  destruct (Hexp "false" "1000" (JBool false) 1000 idle_query) as [Hdata _].
  - repeat split; discriminate.
  - reflexivity.
  - reflexivity.
  - lia.
  - vm_compute in Hdata. discriminate.
Qed.

Lemma mount_spec_witness :
  let b' := after_mount JSON_parse_scalar parseInt_decimal
              "dashboard_admin" 600000 (mounted store_number 2000) in
  r_data (useCachedQuery_result b' idle_query) = JNum 42
  /\ r_isFromCache (useCachedQuery_result b' idle_query) = true
  /\ r_cacheAge (useCachedQuery_result b' idle_query) = Some (Finite 1000).
Proof.
  assert (Hentry : has_entry store_number "dashboard_admin" "42" "1000")
    by (repeat split; discriminate).
  destruct (mount_spec JSON_parse_scalar parseInt_decimal
              "dashboard_admin" 600000 store_number 2000 "42" "1000" Hentry)
    as (Hfresh & _ & _).
  destruct (Hfresh (JNum 42) 1000 eq_refl eq_refl ltac:(lia))
    as (_ & _ & _ & _ & Hshown).
  exact (Hshown eq_refl idle_query).
Defined.

End CachedQueryFacts.
(** * More on the cache service: how its operations compose *)

Module CacheServiceMore.
Import CacheService CacheServiceFacts.
Local Open Scope js_scope.

(** ** Run equations on a healthy database *)

Lemma getCachedData_healthy k w :
  faults w = [] ->
  exists w1,
    getCachedData k w
    = (Returned (from_option (fun row => cacheData (handed_back w row)) JNull
                   (db w !! k)), w1)
    /\ db w1 = db w /\ clock w1 = clock w /\ faults w1 = []
    /\ console w1 = console w /\ calls w1 = calls w /\ detached w1 = detached w
    /\ cacheData_column w1 = cacheData_column w.
Proof.
  intros Hh. rewrite getCachedData_ok by by apply healthy_next_fault.
  eexists. split; [reflexivity|]. simpl. by rewrite Hh.
Qed.

Lemma isCacheExpired_healthy k w :
  faults w = [] ->
  exists w1,
    isCacheExpired k w
    = (Returned (from_option (fun row => expiresAt row <? clock w) true (db w !! k)), w1)
    /\ db w1 = db w /\ clock w1 = clock w /\ faults w1 = []
    /\ console w1 = console w /\ calls w1 = calls w /\ detached w1 = detached w
    /\ cacheData_column w1 = cacheData_column w.
Proof.
  intros Hh. rewrite isCacheExpired_ok by by apply healthy_next_fault.
  eexists. split; [reflexivity|]. simpl. by rewrite Hh.
Qed.

(** The cache-first path, the two reads going through. *)
Lemma getDataWithCache_hit_healthy k p row w :
  db w !! k = Some row ->
  truthy (cacheData (handed_back w row)) = true ->
  faults w = [] ->
  exists w',
    getDataWithCache k p w
    = (Returned {| data := cacheData (handed_back w row); fromCache := true |}, w')
    /\ db w' = db w /\ clock w' = clock w /\ faults w' = []
    /\ cacheData_column w' = cacheData_column w
    /\ calls w' = (if expiresAt row <? clock w then S (calls w) else calls w)
    /\ detached w'
       = (if expiresAt row <? clock w
          then (detached w ++ [(k, p (clock w))])%list else detached w).
Proof.
  intros Hk Htruthy Hh.
  destruct (getCachedData_healthy k w Hh)
    as (w1 & Hget & Hdb1 & Hc1 & Hh1 & _ & Hcalls1 & Hdet1 & Hcol1).
  destruct (isCacheExpired_healthy k w1 Hh1)
    as (w2 & Hexp & Hdb2 & Hc2 & Hh2 & _ & Hcalls2 & Hdet2 & Hcol2).
  unfold getDataWithCache.
  rewrite (bind_returned _ _ _ _ _ Hget), Hk.
  cbn [from_option]. rewrite Htruthy.
  rewrite (bind_returned _ _ _ _ _ Hexp), Hdb1, Hk, Hc1. cbn [from_option].
  destruct (expiresAt row <? clock w).
  - rewrite (bind_returned _ _ _ _ _ (refreshCacheInBackground_started_spec k p w2)).
    eexists. split; [reflexivity|]. simpl.
    rewrite Hdb2, Hdb1, Hc2, Hc1, Hcalls2, Hcalls1, Hdet2, Hdet1, Hcol2, Hcol1.
    auto 10.
  - unfold bind, ret. eexists. split; [reflexivity|].
    rewrite Hdb2, Hdb1, Hc2, Hc1, Hcalls2, Hcalls1, Hdet2, Hdet1, Hcol2, Hcol1.
    auto 10.
Qed.

(** The fetch path, taken whenever the lookup comes back falsy. *)
Lemma getDataWithCache_falsy k p c w w1 :
  getCachedData k w = (Returned c, w1) ->
  truthy c = false ->
  getDataWithCache k p w
  = match p (clock w1) with
    | Returned v =>
        (Returned {| data := v; fromCache := false |},
         snd (setCachedData k v None (count_call w1)))
    | Thrown error =>
        (Thrown error,
         add_line (ERROR, "Error fetching fresh data:", Some (ArgError error))
           (count_call w1))
    end.
Proof.
  intros Hget Hfalsy. unfold getDataWithCache, bind at 1. rewrite Hget, Hfalsy.
  unfold try_catch, bind at 1. unfold await_call at 1.
  destruct (p (clock w1)) as [v|error]; [|reflexivity].
  unfold bind.
  destruct (setCachedData_frame k v None (count_call w1)) as (w2 & -> & _).
  reflexivity.
Qed.

Lemma getDataWithCache_fetch_healthy k p v w :
  truthy (from_option (fun row => cacheData (handed_back w row)) JNull (db w !! k))
  = false ->
  p (clock w) = Returned v ->
  faults w = [] ->
  exists w',
    getDataWithCache k p w = (Returned {| data := v; fromCache := false |}, w')
    /\ db w' = <[k := default_row v w]> (db w)
    /\ clock w' = clock w /\ faults w' = []
    /\ calls w' = S (calls w) /\ detached w' = detached w.
Proof.
  intros Hfalsy Hp Hh.
  destruct (getCachedData_healthy k w Hh)
    as (w1 & Hget & Hdb1 & Hc1 & Hh1 & _ & Hcalls1 & Hdet1 & _).
  rewrite (getDataWithCache_falsy k p _ w w1 Hget Hfalsy), Hc1, Hp.
  destruct (setCachedData_healthy k v (count_call w1) Hh1) as (w2 & Hset & Hh2 & Hc2 & Hdb2).
  destruct (setCachedData_frame k v None (count_call w1))
    as (w2' & Hset' & Hcalls2 & Hdet2 & _).
  rewrite Hset in Hset'. injection Hset' as <-.
  rewrite Hset. eexists. split; [reflexivity|]. simpl.
  rewrite Hdb2, Hc2, Hcalls2, Hdet2. simpl.
  rewrite Hdb1, Hcalls1, Hdet1. unfold default_row. simpl. rewrite Hc1. auto.
Qed.

Lemma refreshCacheInBackground_resumed_healthy k v u :
  faults u = [] ->
  exists u',
    refreshCacheInBackground_resumed k (Returned v) u = (Returned tt, u')
    /\ db u' = <[k := default_row v u]> (db u)
    /\ clock u' = clock u /\ faults u' = []
    /\ cacheData_column u' = cacheData_column u
    /\ calls u' = calls u /\ detached u' = detached u.
Proof.
  intros Hh.
  unfold refreshCacheInBackground_resumed, try_catch, bind at 1, attempt.
  unfold bind at 1.
  rewrite setCachedData_ok by by apply healthy_next_fault.
  eexists. split; [reflexivity|]. simpl. rewrite Hh. auto 10.
Qed.

(** What the two reads leave behind, whether or not their statement fails. *)
Lemma getCachedData_frame k w :
  exists c w1,
    getCachedData k w = (Returned c, w1)
    /\ db w1 = db w /\ clock w1 = clock w /\ calls w1 = calls w
    /\ detached w1 = detached w.
Proof.
  destruct (next_fault w) eqn:Hf.
  - rewrite getCachedData_fault by done. by eexists _, _.
  - rewrite getCachedData_ok by done. by eexists _, _.
Qed.

Lemma isCacheExpired_frame k w :
  exists b w1,
    isCacheExpired k w = (Returned b, w1)
    /\ db w1 = db w /\ clock w1 = clock w /\ calls w1 = calls w
    /\ detached w1 = detached w.
Proof.
  destruct (next_fault w) eqn:Hf.
  - rewrite isCacheExpired_fault by done. by eexists _, _.
  - rewrite isCacheExpired_ok by done. by eexists _, _.
Qed.

(** ** Clearing everything *)

(** X1: [clearAllCache] always returns normally. When its delete goes through
    the table is empty, so that every key then reads as [null] and as
    expired; when it fails the table is left as it was. *)
Theorem clearAllCache_empties (w : World) :
  exists w',
    clearAllCache w = (Returned tt, w')
    /\ (next_fault w = false ->
        db w' = ∅
        /\ forall k u, db u = db w' -> next_fault u = false ->
             fst (getCachedData k u) = Returned JNull
             /\ fst (isCacheExpired k u) = Returned true)
    /\ (next_fault w = true -> db w' = db w).
Proof.
  unfold clearAllCache, try_catch, bind, db_delete_all, statement.
  destruct (next_fault w) eqn:Hf; simpl.
  - eexists. split; [reflexivity|]. split; [discriminate|]. done.
  - eexists. split; [reflexivity|]. split; [|discriminate].
    intros _. split; [reflexivity|]. simpl. intros k u Hu Hfu.
    rewrite getCachedData_ok, isCacheExpired_ok by done.
    rewrite Hu, lookup_empty. done.
Qed.

Lemma clearAllCache_empties_witness :
  exists w',
    clearAllCache w_admin = (Returned tt, w')
    /\ db w' = ∅
    /\ fst (getCachedData "admin" w') = Returned JNull
    /\ fst (isCacheExpired "admin" w') = Returned true.
Proof.
  destruct (clearAllCache_empties w_admin) as (w' & Hrun & Hok & _).
  destruct (Hok eq_refl) as (Hdb & Hreads).
  exists w'. split; [exact Hrun|]. split; [exact Hdb|].
  apply (Hreads "admin" w' eq_refl). injection Hrun as <-. reflexivity.
Defined.

(** ** Read-through *)

(** X2: a first [getDataWithCache] on a key with no row returns what the
    producer gave and stores it. A later call on that table, up to the expiry
    instant, looks the payload up as the column hands it back: if that is
    truthy it is served from the cache, no producer is called, no refresh is
    started and the table is left alone; if it is falsy the producer is
    called again and its new result is what is returned, with
    [fromCache = false]. *)
Theorem read_through_then_hit (k : string) (p : Producer) (v : JsValue) (w : World) :
  db w !! k = None ->
  p (clock w) = Returned v ->
  faults w = [] ->
  exists w1,
    getDataWithCache k p w = (Returned {| data := v; fromCache := false |}, w1)
    /\ forall p2 w2,
         db w2 = db w1 -> faults w2 = [] ->
         clock w2 <= clock w + 15 * 60 * 1000 ->
         (truthy (cacheData_column w2 v) = true ->
          exists w3,
            getDataWithCache k p2 w2
            = (Returned {| data := cacheData_column w2 v; fromCache := true |}, w3)
            /\ calls w3 = calls w2 /\ detached w3 = detached w2 /\ db w3 = db w2)
         /\ (truthy (cacheData_column w2 v) = false ->
             forall v2, p2 (clock w2) = Returned v2 ->
             exists w3,
               getDataWithCache k p2 w2
               = (Returned {| data := v2; fromCache := false |}, w3)
               /\ calls w3 = S (calls w2)).
Proof.
  intros Hk Hp Hh.
  destruct (getDataWithCache_fetch_healthy k p v w) as (w1 & Hrun & Hdb1 & _); try done.
  { by rewrite Hk. }
  exists w1. split; [exact Hrun|]. intros p2 w2 Hw2 Hh2 Hclock.
  assert (Hrow : db w2 !! k = Some (default_row v w))
    by (rewrite Hw2, Hdb1; apply lookup_insert_eq).
  split.
  - intros Htruthy.
    destruct (getDataWithCache_hit_healthy k p2 _ w2 Hrow Htruthy Hh2)
      as (w3 & Hrun3 & Hdb3 & _ & _ & _ & Hcalls3 & Hdet3).
    exists w3. split; [exact Hrun3|].
    assert (Hfresh : (expiresAt (default_row v w) <? clock w2) = false).
    { apply Z.ltb_ge. unfold default_row, DEFAULT_CACHE_DURATION. simpl. lia. }
    rewrite Hfresh in Hcalls3, Hdet3. done.
  - intros Hfalsy v2 Hp2.
    destruct (getDataWithCache_fetch_healthy k p2 v2 w2)
      as (w3 & Hrun3 & _ & _ & _ & Hcalls3 & _); try done.
    { by rewrite Hrow. }
    exists w3. split; [exact Hrun3 | exact Hcalls3].
Qed.

Lemma read_through_then_hit_witness :
  exists w1 w3,
    getDataWithCache "admin" count6 w_empty
    = (Returned {| data := dashboard 6; fromCache := false |}, w1)
    /\ getDataWithCache "admin" failing (set_clock 901000 w1)
       = (Returned {| data := dashboard 6; fromCache := true |}, w3)
    /\ calls w3 = 1%nat /\ detached w3 = [].
Proof.
  destruct (read_through_then_hit "admin" count6 (dashboard 6) w_empty
              eq_refl eq_refl eq_refl) as (w1 & Hrun & Hlater).
  destruct (Hlater failing (set_clock 901000 w1)) as [Hhit _].
  - reflexivity.
  - injection Hrun as <-. reflexivity.
  - simpl. lia.
  - assert (Hcol : cacheData_column w1 = json_column)
      by (injection Hrun as <-; reflexivity).
    simpl in Hhit. rewrite Hcol in Hhit.
    destruct (Hhit eq_refl) as (w3 & Hrun3 & Hc & Hd & _).
    exists w1, w3. split; [exact Hrun|]. split; [exact Hrun3|].
    rewrite Hc, Hd. injection Hrun as <-. split; reflexivity.
Defined.

(** X3: on a key whose row is looked up with a truthy payload and has
    expired, [getDataWithCache] answers with the old payload and leaves the
    old row in place; the producer has been called by then, once, and the
    refresh waits for its promise. Whenever that refresh is taken up again,
    the row gets the producer's result, written at that instant with the
    default duration, no further producer is called, and [getCachedData]
    reads the new payload as the column hands it back. *)
Theorem stale_then_refreshed (k : string) (p : Producer) (row : CacheEntry)
    (v : JsValue) (w : World) :
  db w !! k = Some row ->
  truthy (cacheData (handed_back w row)) = true ->
  expiresAt row < clock w ->
  faults w = [] ->
  detached w = [] ->
  p (clock w) = Returned v ->
  exists w1,
    getDataWithCache k p w
    = (Returned {| data := cacheData (handed_back w row); fromCache := true |}, w1)
    /\ calls w1 = S (calls w)
    /\ detached w1 = [(k, Returned v)]
    /\ db w1 !! k = Some row
    /\ forall t,
         let w2 := settle_one (set_clock t w1) in
         db w2
         = <[k := {| cacheData := v; lastUpdated := t;
                     expiresAt := t + 15 * 60 * 1000 |}]> (db w)
         /\ calls w2 = S (calls w)
         /\ detached w2 = []
         /\ fst (getCachedData k w2) = Returned (cacheData_column w v).
Proof.
  intros Hk Htruthy Hexp Hh Hdet Hp.
  destruct (getDataWithCache_hit_healthy k p row w Hk Htruthy Hh)
    as (w1 & Hrun & Hdb1 & Hc1 & Hh1 & Hcol1 & Hcalls1 & Hdet1).
  assert (Hstale : (expiresAt row <? clock w) = true) by by apply Z.ltb_lt.
  rewrite Hstale, Hp in *. rewrite Hdet in Hdet1. simpl in Hdet1.
  exists w1. split; [exact Hrun|]. split; [exact Hcalls1|].
  split; [exact Hdet1|]. split; [by rewrite Hdb1|].
  intros t. cbv zeta. unfold settle_one.
  change (detached (set_clock t w1)) with (detached w1). rewrite Hdet1.
  destruct (refreshCacheInBackground_resumed_healthy k v
              (set_detached [] (set_clock t w1)))
    as (u' & Hrefresh & Hdbu & Hcu & Hhu & Hcolu & Hcallsu & Hdetu).
  { exact Hh1. }
  rewrite Hrefresh. simpl. rewrite Hdbu, Hcallsu, Hdetu. simpl.
  rewrite Hdb1, Hcalls1. unfold default_row. simpl.
  split; [reflexivity|]. split; [reflexivity|]. split; [reflexivity|].
  rewrite getCachedData_ok by by apply healthy_next_fault.
  rewrite Hdbu, lookup_insert_eq. simpl. by rewrite Hcolu, <- Hcol1.
Qed.

Lemma stale_then_refreshed_witness :
  exists w1,
    getDataWithCache "admin" count6 w_admin
    = (Returned {| data := dashboard 5; fromCache := true |}, w1)
    /\ calls w1 = 1%nat
    /\ db (settle_one (set_clock 5000 w1)) !! "admin"
       = Some {| cacheData := dashboard 6; lastUpdated := 5000;
                 expiresAt := 905000 |}
    /\ fst (getCachedData "admin" (settle_one (set_clock 5000 w1)))
       = Returned (dashboard 6).
Proof.
  destruct (stale_then_refreshed "admin" count6 _ (dashboard 6) w_admin
              eq_refl eq_refl eq_refl eq_refl eq_refl eq_refl)
    as (w1 & Hrun & Hcalls & _ & _ & Hlater).
  destruct (Hlater 5000) as (Hdb & _ & _ & Hread).
  exists w1. split; [exact Hrun|]. split; [exact Hcalls|].
  split; [|exact Hread]. rewrite Hdb. apply lookup_insert_eq.
Defined.

(** X4: a row whose payload is looked up falsy never serves a read:
    [getDataWithCache] awaits the producer as on a cold key, returns its
    result with [fromCache = false] and overwrites the row; if the producer
    rejects, the call throws and the row stays. *)
Theorem falsy_payload_refetched (k : string) (p : Producer) (row : CacheEntry)
    (w : World) :
  db w !! k = Some row ->
  truthy (cacheData (handed_back w row)) = false ->
  faults w = [] ->
  (forall v, p (clock w) = Returned v ->
     exists w',
       getDataWithCache k p w = (Returned {| data := v; fromCache := false |}, w')
       /\ calls w' = S (calls w)
       /\ db w'
          = <[k := {| cacheData := v; lastUpdated := clock w;
                      expiresAt := clock w + 15 * 60 * 1000 |}]> (db w))
  /\ (forall error, p (clock w) = Thrown error ->
     exists w',
       getDataWithCache k p w = (Thrown error, w')
       /\ calls w' = S (calls w) /\ db w' = db w).
Proof.
  intros Hk Hfalsy Hh. split.
  - intros v Hp.
    destruct (getDataWithCache_fetch_healthy k p v w) as (w' & Hrun & Hdb & _ & _ & Hc & _);
      try done.
    { by rewrite Hk. }
    exists w'. split; [exact Hrun|]. split; [exact Hc|]. exact Hdb.
  - intros error Hp.
    destruct (getCachedData_healthy k w Hh) as (w1 & Hget & Hdb1 & Hc1 & _ & _ & Hcalls1 & _).
    rewrite Hk in Hget. cbn [from_option] in Hget.
    rewrite (getDataWithCache_falsy k p _ w w1 Hget Hfalsy), Hc1, Hp.
    eexists. split; [reflexivity|]. simpl. by rewrite Hcalls1, Hdb1.
Qed.

Lemma falsy_payload_refetched_witness :
  exists w',
    getDataWithCache "admin" count6 w_zero
    = (Returned {| data := dashboard 6; fromCache := false |}, w')
    /\ calls w' = 1%nat.
Proof.
  destruct (falsy_payload_refetched "admin" count6 _ w_zero eq_refl eq_refl eq_refl)
    as [Hok _].
  destruct (Hok _ eq_refl) as (w' & Hrun & Hc & _).
  exists w'. split; [exact Hrun | exact Hc].
Defined.

(** X5: [getDataWithCache k] never changes the row of another key, whatever
    the producer returns and whatever the database does. *)
Theorem getDataWithCache_other_keys (k k' : string) (p : Producer) (w : World) :
  k' <> k ->
  db (snd (getDataWithCache k p w)) !! k' = db w !! k'.
Proof.
  intros Hne. unfold getDataWithCache.
  destruct (getCachedData_frame k w) as (c & w1 & Hget & Hdb1 & _).
  rewrite (bind_returned _ _ _ _ _ Hget).
  destruct (truthy c).
  - destruct (isCacheExpired_frame k w1) as (b & w2 & Hexp & Hdb2 & _).
    rewrite (bind_returned _ _ _ _ _ Hexp).
    destruct b; unfold refreshCacheInBackground_started, bind, call, suspend, ret;
      simpl; by rewrite Hdb2, Hdb1.
  - unfold try_catch, bind at 1, await_call at 1.
    destruct (p (clock w1)) as [v|error].
    + unfold bind.
      destruct (setCachedData_frame k v None (count_call w1))
        as (w2 & -> & _ & _ & _ & _ & Hdb2).
      simpl. rewrite Hdb2. simpl.
      destruct (next_fault (count_call w1)); rewrite ?lookup_insert_ne by done;
        by rewrite Hdb1.
    + simpl. by rewrite Hdb1.
Qed.

Lemma getDataWithCache_other_keys_witness :
  db (snd (getDataWithCache "university" count6 w_admin)) !! "admin"
  = db w_admin !! "admin".
Proof.
  apply (getDataWithCache_other_keys "university" "admin" count6 w_admin).
  discriminate.
Defined.

(** ** Writes, deletions and the sweep *)

(** X6: of two [setCachedData] on one key, both upserts going through, the
    second wins: the table is as if only the second had been written, with
    its payload and its own expiry, and the second write adds no row. *)
Theorem last_write_wins (k : string) (v1 v2 : JsValue) (ttl1 ttl2 : option Duration)
    (w : World) :
  next_fault w = false ->
  exists w1,
    setCachedData k v1 ttl1 w = (Returned tt, w1)
    /\ forall u, db u = db w1 -> next_fault u = false ->
         exists u',
           setCachedData k v2 ttl2 u = (Returned tt, u')
           /\ db u' = <[k := fresh_row v2 ttl2 u]> (db w)
           /\ db u' !! k = Some (fresh_row v2 ttl2 u)
           /\ size (db u') = size (db u).
Proof.
  intros Hf. rewrite setCachedData_ok by done. eexists. split; [reflexivity|].
  simpl. intros u Hu Hfu. rewrite setCachedData_ok by done.
  eexists. split; [reflexivity|]. simpl. rewrite Hu.
  split; [apply insert_insert_eq|]. split; [apply lookup_insert_eq|].
  rewrite map_size_insert, lookup_insert_eq. reflexivity.
Qed.

Lemma last_write_wins_witness :
  exists w1 w2,
    setCachedData "admin" (dashboard 5) (Some (Millis 100)) w_empty = (Returned tt, w1)
    /\ setCachedData "admin" (dashboard 6) None (set_clock 2000 w1) = (Returned tt, w2)
    /\ db w2 !! "admin"
       = Some {| cacheData := dashboard 6; lastUpdated := 2000; expiresAt := 902000 |}
    /\ size (db w2) = 1%nat.
Proof.
  destruct (last_write_wins "admin" (dashboard 5) (dashboard 6) (Some (Millis 100)) None
              w_empty eq_refl) as (w1 & Hrun1 & Hsecond).
  destruct (Hsecond (set_clock 2000 w1) eq_refl) as (w2 & Hrun2 & _ & Hrow & Hsize).
  - injection Hrun1 as <-. reflexivity.
  - exists w1, w2. split; [exact Hrun1|]. split; [exact Hrun2|].
    split; [rewrite Hrow; reflexivity|].
    rewrite Hsize. injection Hrun1 as <-. reflexivity.
Defined.

(** X7: [clearCache k] after [setCachedData k], both statements going through,
    leaves the table without a row for [k] and with every other row as before
    the write; if [k] had no row before, the table is back to what it was. *)
Theorem set_then_clear (k : string) (v : JsValue) (ttl : option Duration) (w : World) :
  next_fault w = false ->
  exists w1,
    setCachedData k v ttl w = (Returned tt, w1)
    /\ forall u, db u = db w1 -> next_fault u = false ->
         exists u',
           clearCache k u = (Returned tt, u')
           /\ db u' = delete k (db w)
           /\ (db w !! k = None -> db u' = db w).
Proof.
  intros Hf. rewrite setCachedData_ok by done. eexists. split; [reflexivity|].
  simpl. intros u Hu Hfu. rewrite clearCache_ok by done.
  eexists. split; [reflexivity|]. simpl. rewrite Hu, delete_insert_eq.
  split; [reflexivity|]. intros Hk. by apply delete_id.
Qed.

Lemma set_then_clear_witness :
  exists w1 w2,
    setCachedData "admin" (dashboard 5) None w_empty = (Returned tt, w1)
    /\ clearCache "admin" w1 = (Returned tt, w2)
    /\ db w2 = ∅.
Proof.
  destruct (set_then_clear "admin" (dashboard 5) None w_empty eq_refl)
    as (w1 & Hrun1 & Hclear).
  destruct (Hclear w1 eq_refl) as (w2 & Hrun2 & _ & Hback).
  - injection Hrun1 as <-. reflexivity.
  - exists w1, w2. split; [exact Hrun1|]. split; [exact Hrun2|].
    exact (Hback eq_refl).
Defined.

Lemma swept_nothing_expired w k row :
  swept w !! k = Some row -> clock w <= expiresAt row.
Proof.
  unfold swept. intros Hrow. apply map_lookup_filter_Some in Hrow as [_ Hkeep].
  unfold expired_before in Hkeep. simpl in Hkeep. lia.
Qed.

(** X8: once [clearExpiredCache] has gone through, no row that is left has
    its [expiresAt] before that instant, and a second sweep at the same
    instant removes nothing and returns 0. *)
Theorem sweep_leaves_nothing_to_sweep (w : World) :
  next_fault w = false ->
  exists n w1,
    clearExpiredCache w = (Returned n, w1)
    /\ (forall k row, db w1 !! k = Some row -> clock w <= expiresAt row)
    /\ forall u, db u = db w1 -> clock u = clock w ->
         exists u', clearExpiredCache u = (Returned 0, u') /\ db u' = db u.
Proof.
  intros Hf. destruct (clearExpiredCache_ok w Hf) as (w1 & Hrun & Hdb & _).
  exists (sweep_count w), w1. split; [exact Hrun|]. rewrite Hdb.
  split; [apply swept_nothing_expired|].
  intros u Hu Hclock. destruct (next_fault u) eqn:Hfu.
  - rewrite clearExpiredCache_fault by done. by eexists.
  - destruct (clearExpiredCache_ok u Hfu) as (u' & Hrun' & Hdb' & _).
    assert (Hnone : filter (expired_before (clock u)) (db u) = ∅).
    { apply map_empty_filter_2. intros key row Hrow Hexp.
      rewrite Hu, Hclock in *. apply swept_nothing_expired in Hrow.
      unfold expired_before in Hexp. simpl in Hexp. lia. }
    assert (Hcount : sweep_count u = 0).
    { unfold sweep_count. by rewrite Hnone, map_size_empty. }
    exists u'. rewrite <- Hcount. split; [exact Hrun'|]. rewrite Hdb'.
    unfold swept. apply map_filter_id. intros key row Hrow Hexp.
    rewrite Hu, Hclock in *. apply swept_nothing_expired in Hrow.
    unfold expired_before in Hexp. simpl in Hexp. lia.
Qed.

Lemma sweep_leaves_nothing_to_sweep_witness :
  exists n w1 w2,
    clearExpiredCache w_admin = (Returned n, w1)
    /\ clearExpiredCache w1 = (Returned 0, w2)
    /\ db w2 = db w1.
Proof.
  destruct (sweep_leaves_nothing_to_sweep w_admin eq_refl)
    as (n & w1 & Hrun & _ & Hagain).
  destruct (Hagain w1 eq_refl) as (w2 & Hrun2 & Hdb2).
  - vm_compute in Hrun. injection Hrun as _ <-. reflexivity.
  - exists n, w1, w2. auto.
Defined.

(** ** Warm-up: what a failing producer stops, and what the warm-up costs *)

(** X9: when the admin dashboard producer rejects, [warmUpCache] returns
    normally having written nothing and called no other producer: the table
    is unchanged, one producer call was made, and the console got the start
    line and the error. *)
Theorem warmUp_admin_failure (storage : Storage) (NODE_ENV : option string)
    (error : JsError) (w : World) :
  getAdminDashboard storage (clock w) = Thrown error ->
  exists w',
    warmUpCache storage NODE_ENV w = (Returned tt, w')
    /\ db w' = db w
    /\ calls w' = S (calls w)
    /\ console w'
       = (console w
          ++ [(LOG, "Starting cache warm-up...", None);
              (ERROR, "Error during cache warm-up:", Some (ArgError error))])%list.
Proof.
  intros Hadmin.
  unfold warmUpCache, bind at 1, console_log at 1, emit at 1.
  unfold try_catch, bind at 1, await_call at 1. simpl. rewrite Hadmin.
  eexists. split; [reflexivity|]. simpl.
  split; [reflexivity|]. split; [reflexivity|].
  by rewrite <- app_assoc.
Qed.

Lemma warmUp_admin_failure_witness :
  exists w',
    warmUpCache
      {| getAdminDashboard := failing;
         getUniversityDashboard := getUniversityDashboard sample_storage;
         getBatchDashboard := getBatchDashboard sample_storage;
         getAllStudents := getAllStudents sample_storage;
         getStudentDashboard := getStudentDashboard sample_storage |}
      None w_empty
    = (Returned tt, w')
    /\ db w' = ∅ /\ calls w' = 1%nat.
Proof.
  destruct (warmUp_admin_failure
              {| getAdminDashboard := failing;
                 getUniversityDashboard := getUniversityDashboard sample_storage;
                 getBatchDashboard := getBatchDashboard sample_storage;
                 getAllStudents := getAllStudents sample_storage;
                 getStudentDashboard := getStudentDashboard sample_storage |}
              None (JsErr "boom") w_empty eq_refl)
    as (w' & Hrun & Hdb & Hcalls & _).
  exists w'. split; [exact Hrun|]. split; [exact Hdb | exact Hcalls].
Defined.

(** A fixed key warmed, whatever the database does. *)
Lemma warm_fixed_key_any k (producer : Producer) v (rest : M unit) w :
  producer (clock w) = Returned v ->
  exists w1,
    bind (await_call producer) (fun data => bind (setCachedData k data None) (fun _ => rest)) w
    = rest w1
    /\ clock w1 = clock w /\ calls w1 = S (calls w).
Proof.
  intros Hp.
  destruct (setCachedData_frame k v None (count_call w))
    as (w1 & Hset & Hcalls & _ & Hclock & _).
  exists w1. rewrite (bind_returned _ _ _ _ _ (await_call_returned _ _ _ Hp)).
  rewrite (bind_returned _ _ _ _ _ Hset). by split.
Qed.

Lemma warm_student_any storage s w :
  exists w',
    warm_student storage s w = (Returned tt, w')
    /\ clock w' = clock w /\ calls w' = S (calls w).
Proof.
  unfold warm_student, try_catch, bind, await_call.
  destruct (getStudentDashboard storage (student_id s) (clock w)) as [v|error].
  - destruct (truthy v).
    + destruct (setCachedData_frame (student_key (student_id s)) v None (count_call w))
        as (w' & -> & Hcalls & _ & Hclock & _).
      exists w'. by split.
    + by eexists.
  - by eexists.
Qed.

Lemma warm_students_any storage students :
  forall w,
    exists w',
      warm_students storage students w = (Returned tt, w')
      /\ clock w' = clock w
      /\ calls w' = (calls w + length students)%nat.
Proof.
  induction students as [|s rest IH]; intros w.
  - exists w. simpl. split; [reflexivity|]. split; [reflexivity|]. lia.
  - destruct (warm_student_any storage s w) as (w1 & Hstep & Hc1 & Hcalls1).
    destruct (IH w1) as (w' & Hrest & Hc' & Hcalls').
    exists w'. simpl. rewrite (bind_returned _ _ _ _ _ Hstep).
    split; [exact Hrest|]. split; [congruence|]. rewrite Hcalls', Hcalls1. lia.
Qed.

(** X10: with the four fixed-key producers and the student list resolving,
    [warmUpCache] makes exactly five producer calls plus one per selected
    student, at most [studentLimit] of them, whether the students' producers
    or the database fail or not. *)
Theorem warmUp_call_count (storage : Storage) (NODE_ENV : option string)
    (admin university batch2027 batch2028 : JsValue) (allStudents : list Student)
    (w : World) :
  getAdminDashboard storage (clock w) = Returned admin ->
  getUniversityDashboard storage (clock w) = Returned university ->
  getBatchDashboard storage "2027" (clock w) = Returned batch2027 ->
  getBatchDashboard storage "2028" (clock w) = Returned batch2028 ->
  getAllStudents storage (clock w) = Returned allStudents ->
  exists w',
    warmUpCache storage NODE_ENV w = (Returned tt, w')
    /\ calls w'
       = (calls w + 5 + Nat.min (studentLimit NODE_ENV) (length allStudents))%nat
    /\ (calls w' <= calls w + 5 + studentLimit NODE_ENV)%nat.
Proof.
  intros Ha Hu H27 H28 Hall.
  unfold warmUpCache.
  rewrite (bind_returned _ _ w tt (add_line (LOG, "Starting cache warm-up...", None) w))
    by reflexivity.
  set (w0 := add_line (LOG, "Starting cache warm-up...", None) w).
  assert (Hc0 : clock w0 = clock w) by done.
  assert (Hcalls0 : calls w0 = calls w) by done.
  unfold try_catch.
  destruct (warm_fixed_key_any "admin" (getAdminDashboard storage) admin
              (universityData <- await_call (getUniversityDashboard storage) ;;
               setCachedData "university" universityData None ;;;
               batch2027Data <- await_call (getBatchDashboard storage "2027") ;;
               setCachedData "batch_2027" batch2027Data None ;;;
               batch2028Data <- await_call (getBatchDashboard storage "2028") ;;
               setCachedData "batch_2028" batch2028Data None ;;;
               allStudents <- await_call (getAllStudents storage) ;;
               warm_students storage (take (studentLimit NODE_ENV) allStudents) ;;;
               console_log "Cache warm-up completed successfully")
              w0 ltac:(by rewrite Hc0))
    as (w1 & -> & Hc1 & Hcalls1).
  destruct (warm_fixed_key_any "university" (getUniversityDashboard storage) university
              (batch2027Data <- await_call (getBatchDashboard storage "2027") ;;
               setCachedData "batch_2027" batch2027Data None ;;;
               batch2028Data <- await_call (getBatchDashboard storage "2028") ;;
               setCachedData "batch_2028" batch2028Data None ;;;
               allStudents <- await_call (getAllStudents storage) ;;
               warm_students storage (take (studentLimit NODE_ENV) allStudents) ;;;
               console_log "Cache warm-up completed successfully")
              w1 ltac:(by rewrite Hc1, Hc0))
    as (w2 & -> & Hc2 & Hcalls2).
  destruct (warm_fixed_key_any "batch_2027" (getBatchDashboard storage "2027") batch2027
              (batch2028Data <- await_call (getBatchDashboard storage "2028") ;;
               setCachedData "batch_2028" batch2028Data None ;;;
               allStudents <- await_call (getAllStudents storage) ;;
               warm_students storage (take (studentLimit NODE_ENV) allStudents) ;;;
               console_log "Cache warm-up completed successfully")
              w2 ltac:(by rewrite Hc2, Hc1, Hc0))
    as (w3 & -> & Hc3 & Hcalls3).
  destruct (warm_fixed_key_any "batch_2028" (getBatchDashboard storage "2028") batch2028
              (allStudents <- await_call (getAllStudents storage) ;;
               warm_students storage (take (studentLimit NODE_ENV) allStudents) ;;;
               console_log "Cache warm-up completed successfully")
              w3 ltac:(by rewrite Hc3, Hc2, Hc1, Hc0))
    as (w4 & -> & Hc4 & Hcalls4).
  assert (Hclock : clock w4 = clock w) by congruence.
  rewrite (bind_returned _ _ w4 allStudents (count_call w4))
    by (apply await_call_returned; by rewrite Hclock).
  destruct (warm_students_any storage (take (studentLimit NODE_ENV) allStudents)
              (count_call w4))
    as (w5 & Hloop & _ & Hcalls5).
  rewrite (bind_returned _ _ _ _ _ Hloop).
  eexists. split; [reflexivity|]. simpl.
  rewrite Hcalls5, length_take. simpl.
  rewrite Hcalls4, Hcalls3, Hcalls2, Hcalls1, Hcalls0. lia.
Qed.

Lemma warmUp_call_count_witness :
  exists w',
    warmUpCache (class_storage 25) (Some "production") w_empty = (Returned tt, w')
    /\ calls w' = 25%nat.
Proof.
  destruct (warmUp_call_count (class_storage 25) (Some "production")
              _ _ _ _ _ w_empty eq_refl eq_refl eq_refl eq_refl eq_refl)
    as (w' & Hrun & Hcalls & _).
  exists w'. split; [exact Hrun|]. rewrite Hcalls. reflexivity.
Defined.

(** A fixed key warmed on a healthy database: the row it gets. *)
Lemma warm_fixed_key_row k (producer : Producer) v (rest : M unit) w :
  faults w = [] ->
  producer (clock w) = Returned v ->
  exists w1,
    bind (await_call producer) (fun data => bind (setCachedData k data None) (fun _ => rest)) w
    = rest w1
    /\ faults w1 = [] /\ clock w1 = clock w /\ calls w1 = S (calls w)
    /\ db w1 = <[k := default_row v w]> (db w).
Proof.
  intros Hh Hp.
  destruct (setCachedData_healthy k v (count_call w) Hh) as (w1 & Hset & Hh1 & Hc1 & Hdb1).
  destruct (setCachedData_frame k v None (count_call w)) as (w1' & Hset' & Hcalls & _).
  rewrite Hset in Hset'. injection Hset' as <-.
  exists w1. rewrite (bind_returned _ _ _ _ _ (await_call_returned _ _ _ Hp)).
  rewrite (bind_returned _ _ _ _ _ Hset). auto.
Qed.

(** X11: when the student list cannot be obtained, [warmUpCache] still returns
    normally; on a healthy database the four fixed keys have been written
    with the default duration, no student producer has been called and no
    student key has changed. *)
Theorem warmUp_student_list_failure (storage : Storage) (NODE_ENV : option string)
    (admin university batch2027 batch2028 : JsValue) (error : JsError) (w : World) :
  faults w = [] ->
  getAdminDashboard storage (clock w) = Returned admin ->
  getUniversityDashboard storage (clock w) = Returned university ->
  getBatchDashboard storage "2027" (clock w) = Returned batch2027 ->
  getBatchDashboard storage "2028" (clock w) = Returned batch2028 ->
  getAllStudents storage (clock w) = Thrown error ->
  exists w',
    warmUpCache storage NODE_ENV w = (Returned tt, w')
    /\ db w'
       = <["batch_2028" := default_row batch2028 w]>
           (<["batch_2027" := default_row batch2027 w]>
              (<["university" := default_row university w]>
                 (<["admin" := default_row admin w]> (db w))))
    /\ calls w' = (calls w + 5)%nat
    /\ forall id, db w' !! student_key id = db w !! student_key id.
Proof.
  intros Hh Ha Hu H27 H28 Hall.
  unfold warmUpCache.
  rewrite (bind_returned _ _ w tt (add_line (LOG, "Starting cache warm-up...", None) w))
    by reflexivity.
  set (w0 := add_line (LOG, "Starting cache warm-up...", None) w).
  assert (Hh0 : faults w0 = []) by done.
  assert (Hc0 : clock w0 = clock w) by done.
  unfold try_catch.
  destruct (warm_fixed_key_row "admin" (getAdminDashboard storage) admin
              (universityData <- await_call (getUniversityDashboard storage) ;;
               setCachedData "university" universityData None ;;;
               batch2027Data <- await_call (getBatchDashboard storage "2027") ;;
               setCachedData "batch_2027" batch2027Data None ;;;
               batch2028Data <- await_call (getBatchDashboard storage "2028") ;;
               setCachedData "batch_2028" batch2028Data None ;;;
               allStudents <- await_call (getAllStudents storage) ;;
               warm_students storage (take (studentLimit NODE_ENV) allStudents) ;;;
               console_log "Cache warm-up completed successfully")
              w0 Hh0 ltac:(by rewrite Hc0))
    as (w1 & -> & Hh1 & Hc1 & Hcalls1 & Hdb1).
  destruct (warm_fixed_key_row "university" (getUniversityDashboard storage) university
              (batch2027Data <- await_call (getBatchDashboard storage "2027") ;;
               setCachedData "batch_2027" batch2027Data None ;;;
               batch2028Data <- await_call (getBatchDashboard storage "2028") ;;
               setCachedData "batch_2028" batch2028Data None ;;;
               allStudents <- await_call (getAllStudents storage) ;;
               warm_students storage (take (studentLimit NODE_ENV) allStudents) ;;;
               console_log "Cache warm-up completed successfully")
              w1 Hh1 ltac:(by rewrite Hc1, Hc0))
    as (w2 & -> & Hh2 & Hc2 & Hcalls2 & Hdb2).
  destruct (warm_fixed_key_row "batch_2027" (getBatchDashboard storage "2027") batch2027
              (batch2028Data <- await_call (getBatchDashboard storage "2028") ;;
               setCachedData "batch_2028" batch2028Data None ;;;
               allStudents <- await_call (getAllStudents storage) ;;
               warm_students storage (take (studentLimit NODE_ENV) allStudents) ;;;
               console_log "Cache warm-up completed successfully")
              w2 Hh2 ltac:(by rewrite Hc2, Hc1, Hc0))
    as (w3 & -> & Hh3 & Hc3 & Hcalls3 & Hdb3).
  destruct (warm_fixed_key_row "batch_2028" (getBatchDashboard storage "2028") batch2028
              (allStudents <- await_call (getAllStudents storage) ;;
               warm_students storage (take (studentLimit NODE_ENV) allStudents) ;;;
               console_log "Cache warm-up completed successfully")
              w3 Hh3 ltac:(by rewrite Hc3, Hc2, Hc1, Hc0))
    as (w4 & -> & Hh4 & Hc4 & Hcalls4 & Hdb4).
  assert (Hclock : clock w4 = clock w) by congruence.
  unfold bind at 1, await_call at 1. rewrite Hclock, Hall.
  eexists. split; [reflexivity|]. simpl.
  assert (Hrows : db w4
    = <["batch_2028" := default_row batch2028 w]>
        (<["batch_2027" := default_row batch2027 w]>
           (<["university" := default_row university w]>
              (<["admin" := default_row admin w]> (db w))))).
  { rewrite Hdb4, Hdb3, Hdb2, Hdb1. unfold default_row.
    by rewrite Hc3, Hc2, Hc1, Hc0. }
  split; [exact Hrows|]. split.
  - rewrite Hcalls4, Hcalls3, Hcalls2, Hcalls1. simpl. lia.
  - intros id. rewrite Hrows.
    destruct (student_key_not_fixed id) as (Hn1 & Hn2 & Hn3 & Hn4).
    by rewrite !lookup_insert_ne.
Qed.

Lemma warmUp_student_list_failure_witness :
  exists w',
    warmUpCache
      {| getAdminDashboard := getAdminDashboard sample_storage;
         getUniversityDashboard := getUniversityDashboard sample_storage;
         getBatchDashboard := getBatchDashboard sample_storage;
         getAllStudents := fun _ => Thrown (JsErr "boom");
         getStudentDashboard := getStudentDashboard sample_storage |}
      None w_empty
    = (Returned tt, w')
    /\ size (db w') = 4%nat /\ calls w' = 5%nat.
Proof.
  destruct (warmUp_student_list_failure
              {| getAdminDashboard := getAdminDashboard sample_storage;
                 getUniversityDashboard := getUniversityDashboard sample_storage;
                 getBatchDashboard := getBatchDashboard sample_storage;
                 getAllStudents := fun _ => Thrown (JsErr "boom");
                 getStudentDashboard := getStudentDashboard sample_storage |}
              None _ _ _ _ (JsErr "boom") w_empty
              eq_refl eq_refl eq_refl eq_refl eq_refl eq_refl)
    as (w' & Hrun & Hdb & Hcalls & _).
  exists w'. split; [exact Hrun|]. split; [|exact Hcalls].
  rewrite Hdb. reflexivity.
Defined.

End CacheServiceMore.
(** * More on the client mirror *)

Module CachedQueryMoreFacts.
Import CachedQuery CachedQueryFacts CachedQueryMore.
Local Open Scope js_scope.

Lemma show_Z_nonempty (n : Z) : show_Z n <> "".
Proof.
  unfold show_Z. destruct n as [|p|p]; simpl; try discriminate.
  unfold NilZero.string_of_uint. destruct (Pos.to_uint p); discriminate.
Qed.

Section Mount.

Variable JSON_parse : string -> Outcome JsValue.
Variable parseInt : string -> JsNumber.

(** Whether the store holds an entry for a key can be told. *)
Lemma has_entry_dec store cacheKey :
  (exists payload timestamp, has_entry store cacheKey payload timestamp)
  \/ (forall payload timestamp, ¬ has_entry store cacheKey payload timestamp).
Proof.
  unfold has_entry.
  destruct (store !! cacheKey) as [payload|] eqn:Hp;
    [|right; intros ? ? (? & _); discriminate].
  destruct (store !! cacheTimestampKey_of cacheKey) as [timestamp|] eqn:Ht;
    [|right; intros ? ? (_ & ? & _); discriminate].
  destruct (decide (payload = "")) as [->|Hpne];
    [right; intros ? ? ([= <-] & _ & ? & _); done|].
  destruct (decide (timestamp = "")) as [->|Htne];
    [right; intros ? ? (_ & [= <-] & _ & ?); done|].
  left. by exists payload, timestamp.
Qed.

Lemma loadCachedOnMount_no_entry cacheKey gcTime store t :
  (forall payload timestamp, ¬ has_entry store cacheKey payload timestamp) ->
  after_mount JSON_parse parseInt cacheKey gcTime (mounted store t) = mounted store t.
Proof.
  intros Hnone.
  unfold after_mount, loadCachedOnMount, try_catch, bind, getItem. simpl.
  destruct (store !! cacheKey) as [payload|] eqn:Hp; [|reflexivity].
  destruct (store !! cacheTimestampKey_of cacheKey) as [timestamp|] eqn:Ht;
    [|reflexivity].
  destruct (String.eqb_spec payload "") as [->|Hpne]; [reflexivity|].
  destruct (String.eqb_spec timestamp "") as [->|Htne]; [reflexivity|].
  exfalso. apply (Hnone payload timestamp). by repeat split.
Qed.

(** X12: mounted over a store that holds no entry for the key (an item is
    missing or is the empty text), the hook reads nothing, changes nothing
    and shows the live query as it is, its loading state included. *)
Theorem mount_without_entry (cacheKey : string) (gcTime : Z)
    (store : gmap string string) (t : Z) :
  (forall payload timestamp, ¬ has_entry store cacheKey payload timestamp) ->
  let b' := after_mount JSON_parse parseInt cacheKey gcTime (mounted store t) in
  localStorage b' = store
  /\ warnings b' = []
  /\ forall query,
       useCachedQuery_result b' query
       = {| r_data := q_data query; r_isLoading := q_isLoading query;
            r_isError := q_isError query; r_error := q_error query;
            r_isSuccess := q_isSuccess query;
            r_isFromCache := false; r_cacheAge := None |}.
Proof.
  intros Hnone b'. subst b'. rewrite (loadCachedOnMount_no_entry _ _ _ _ Hnone).
  done.
Qed.

(** X13: an entry whose timestamp [parseInt] cannot read is never collected
    on mount: whatever the horizon, both items stay in the store and the
    parsed payload is put in the state with [isFromCache = true] and the age
    [NaN]. *)
Theorem mount_unreadable_timestamp (cacheKey : string) (gcTime : Z)
    (store : gmap string string) (t : Z) (payload timestamp : string)
    (v : JsValue) :
  has_entry store cacheKey payload timestamp ->
  JSON_parse payload = Returned v ->
  parseInt timestamp = NaN ->
  let b' := after_mount JSON_parse parseInt cacheKey gcTime (mounted store t) in
  localStorage b' = store
  /\ cachedData b' = v
  /\ isFromCache b' = true
  /\ cacheAge b' = Some NaN.
Proof.
  intros Hentry Hparse Hts b'. subst b'.
  rewrite (loadCachedOnMount_entry _ _ _ _ _ _ _ _ Hentry), Hparse, Hts.
  done.
Qed.

(** What the mount effect leaves in the state: if it sets [isFromCache], the
    age it reports is [NaN] or at most the horizon. *)
Lemma mount_age_within_horizon cacheKey gcTime store t :
  let b' := after_mount JSON_parse parseInt cacheKey gcTime (mounted store t) in
  isFromCache b' = false
  \/ (isFromCache b' = true
      /\ (cacheAge b' = Some NaN
          \/ exists age, cacheAge b' = Some (Finite age) /\ age <= gcTime)).
Proof.
  intros b'. subst b'.
  destruct (has_entry_dec store cacheKey) as [(payload & timestamp & Hentry)|Hnone].
  - rewrite (loadCachedOnMount_entry _ _ _ _ _ _ _ _ Hentry).
    destruct (JSON_parse payload) as [v|error]; [|by left].
    destruct (parseInt timestamp) as [|ts]; simpl.
    + right. split; [done|]. by left.
    + destruct (Z.ltb_spec gcTime (t - ts)); simpl; [by left|].
      right. split; [done|]. right. by exists (t - ts).
  - rewrite (loadCachedOnMount_no_entry _ _ _ _ Hnone). by left.
Qed.

End Mount.

Lemma mount_without_entry_witness :
  useCachedQuery_result
    (after_mount JSON_parse_scalar parseInt_decimal "dashboard_admin" 600000
       (mounted ∅ 2000)) idle_query
  = {| r_data := q_data idle_query; r_isLoading := q_isLoading idle_query;
       r_isError := q_isError idle_query; r_error := q_error idle_query;
       r_isSuccess := q_isSuccess idle_query;
       r_isFromCache := false; r_cacheAge := None |}.
Proof.
  assert (Hnone : forall payload timestamp,
            ¬ has_entry ∅ "dashboard_admin" payload timestamp).
  { intros payload timestamp (Hp & _). by rewrite lookup_empty in Hp. }
  exact (proj2 (proj2 (mount_without_entry JSON_parse_scalar parseInt_decimal
                         "dashboard_admin" 600000 ∅ 2000 Hnone)) idle_query).
Defined.

Lemma mount_unreadable_timestamp_witness :
  let b' := after_mount JSON_parse_scalar parseInt_decimal "k" 0
              (mounted {[ "k" := "42"; "k_timestamp" := "yesterday" ]} 2000) in
  localStorage b' = {[ "k" := "42"; "k_timestamp" := "yesterday" ]}
  /\ cachedData b' = JNum 42
  /\ isFromCache b' = true
  /\ cacheAge b' = Some NaN.
Proof.
  apply (mount_unreadable_timestamp JSON_parse_scalar parseInt_decimal "k" 0
           {[ "k" := "42"; "k_timestamp" := "yesterday" ]} 2000
           "42" "yesterday" (JNum 42)).
  - repeat split; discriminate.
  - reflexivity.
  - reflexivity.
Defined.

(** ** Saving the mirror *)

Section Save.

Variable JSON_parse : string -> Outcome JsValue.
Variable parseInt : string -> JsNumber.
Variable JSON_stringify : JsValue -> Outcome string.
Variable setItem_rejects : gmap string string -> string -> string -> option JsError.

(** The save effect when both writes are taken. *)
Lemma saveOnSuccess_stored cacheKey query flag b text :
  truthy (q_data query) = true ->
  q_isSuccess query = true ->
  JSON_stringify (q_data query) = Returned text ->
  setItem_rejects (localStorage b) cacheKey text = None ->
  setItem_rejects (<[cacheKey := text]> (localStorage b))
    (cacheTimestampKey_of cacheKey) (show_Z (now b)) = None ->
  saveOnSuccess JSON_stringify setItem_rejects cacheKey query flag b
  = (Returned tt,
     {| localStorage :=
          <[cacheTimestampKey_of cacheKey := show_Z (now b)]>
            (<[cacheKey := text]> (localStorage b));
        now := now b;
        cachedData := cachedData b;
        cacheAge := if flag then None else cacheAge b;
        isFromCache := if flag then false else isFromCache b;
        warnings := warnings b |}).
Proof.
  intros Hdata Hsuccess Htext Hfirst Hsecond.
  unfold saveOnSuccess. rewrite Hdata, Hsuccess. simpl.
  unfold try_catch, bind, attempt, setItem, Date_now. rewrite Htext, Hfirst.
  simpl. rewrite Hsecond. destruct flag; reflexivity.
Qed.

(** X14: what the save effect wrote is what the next mount shows: after a
    successful fetch whose payload and time the store took, a mount within
    the horizon shows that payload with [isFromCache = true] and the time
    elapsed since the save as its age, provided [JSON.parse] reads back what
    [JSON.stringify] wrote and [parseInt] reads back the decimal timestamp. *)
Theorem saved_then_mounted (cacheKey : string) (gcTime : Z) (query : QueryResult)
    (flag : bool) (b : Browser) (text : string) (t' : Z) :
  truthy (q_data query) = true ->
  q_isSuccess query = true ->
  JSON_stringify (q_data query) = Returned text ->
  text <> "" ->
  setItem_rejects (localStorage b) cacheKey text = None ->
  setItem_rejects (<[cacheKey := text]> (localStorage b))
    (cacheTimestampKey_of cacheKey) (show_Z (now b)) = None ->
  JSON_parse text = Returned (q_data query) ->
  parseInt (show_Z (now b)) = Finite (now b) ->
  t' - now b <= gcTime ->
  let saved :=
    localStorage
      (snd (saveOnSuccess JSON_stringify setItem_rejects cacheKey query flag b)) in
  let b' := after_mount JSON_parse parseInt cacheKey gcTime (mounted saved t') in
  localStorage b' = saved
  /\ forall live,
       r_data (useCachedQuery_result b' live) = q_data query
       /\ r_isFromCache (useCachedQuery_result b' live) = true
       /\ r_cacheAge (useCachedQuery_result b' live) = Some (Finite (t' - now b)).
Proof.
  intros Hdata Hsuccess Htext Hne Hfirst Hsecond Hparse Hts Hage saved b'.
  subst b' saved.
  rewrite (saveOnSuccess_stored _ _ _ _ _ Hdata Hsuccess Htext Hfirst Hsecond).
  simpl.
  assert (Hentry : has_entry
            (<[cacheTimestampKey_of cacheKey := show_Z (now b)]>
               (<[cacheKey := text]> (localStorage b)))
            cacheKey text (show_Z (now b))).
  { split; [|split; [|split]].
    - rewrite lookup_insert_ne by apply cacheTimestampKey_of_ne.
      apply lookup_insert_eq.
    - apply lookup_insert_eq.
    - exact Hne.
    - apply show_Z_nonempty. }
  rewrite (loadCachedOnMount_entry _ _ _ _ _ _ _ _ Hentry), Hparse, Hts.
  simpl. destruct (Z.ltb_spec gcTime (t' - now b)); [lia|]. simpl.
  split; [reflexivity|]. intros live. unfold useCachedQuery_result. simpl.
  by rewrite Hdata.
Qed.

(** X15: once a successful fetch has been saved, the hook rendered from the
    cache stops showing the snapshot: the store holds the new payload and
    the save time, [isFromCache] is [false], the age is cleared, and the
    hook's data is the live query's. *)
Theorem fresh_data_replaces_snapshot (cacheKey : string) (query : QueryResult)
    (b : Browser) (text : string) :
  truthy (q_data query) = true ->
  q_isSuccess query = true ->
  JSON_stringify (q_data query) = Returned text ->
  setItem_rejects (localStorage b) cacheKey text = None ->
  setItem_rejects (<[cacheKey := text]> (localStorage b))
    (cacheTimestampKey_of cacheKey) (show_Z (now b)) = None ->
  isFromCache b = true ->
  let b' :=
    snd (saveOnSuccess JSON_stringify setItem_rejects cacheKey query
           (isFromCache b) b) in
  localStorage b' !! cacheKey = Some text
  /\ localStorage b' !! cacheTimestampKey_of cacheKey = Some (show_Z (now b))
  /\ isFromCache b' = false
  /\ cacheAge b' = None
  /\ r_data (useCachedQuery_result b' query) = q_data query
  /\ r_isFromCache (useCachedQuery_result b' query) = false
  /\ r_isLoading (useCachedQuery_result b' query) = q_isLoading query.
Proof.
  intros Hdata Hsuccess Htext Hfirst Hsecond Hshown b'. subst b'.
  rewrite (saveOnSuccess_stored _ _ _ _ _ Hdata Hsuccess Htext Hfirst Hsecond).
  rewrite Hshown. simpl.
  split.
  { rewrite lookup_insert_ne by apply cacheTimestampKey_of_ne.
    apply lookup_insert_eq. }
  split; [apply lookup_insert_eq|]. done.
Qed.

(** X16: the save effect never throws, whatever [JSON.stringify] and the
    store do. When the payload cannot be serialised or the store refuses the
    first write, it changes neither the store nor the state: the hook goes on
    showing what it showed, cached snapshot included. When the store takes
    the payload and refuses the timestamp, the payload stays written and the
    state is unchanged. In each of these cases the error goes to the console
    as one warning, and nowhere else; and when there is no fresh data to
    save, nothing changes at all. *)
Theorem failed_save_keeps_display (cacheKey : string) (query : QueryResult)
    (flag : bool) (b : Browser) :
  (exists b',
     saveOnSuccess JSON_stringify setItem_rejects cacheKey query flag b
     = (Returned tt, b'))
  /\ (truthy (q_data query) && q_isSuccess query = true ->
      forall error,
        JSON_stringify (q_data query) = Thrown error
        \/ (exists text,
              JSON_stringify (q_data query) = Returned text
              /\ setItem_rejects (localStorage b) cacheKey text = Some error) ->
        exists b',
          saveOnSuccess JSON_stringify setItem_rejects cacheKey query flag b
          = (Returned tt, b')
          /\ localStorage b' = localStorage b
          /\ cachedData b' = cachedData b
          /\ cacheAge b' = cacheAge b
          /\ isFromCache b' = isFromCache b
          /\ warnings b' = (warnings b ++ [("Failed to cache data:", error)])%list
          /\ forall live, useCachedQuery_result b' live = useCachedQuery_result b live)
  /\ (truthy (q_data query) && q_isSuccess query = true ->
      forall text error,
        JSON_stringify (q_data query) = Returned text ->
        setItem_rejects (localStorage b) cacheKey text = None ->
        setItem_rejects (<[cacheKey := text]> (localStorage b))
          (cacheTimestampKey_of cacheKey) (number_toString (Finite (now b)))
        = Some error ->
        exists b',
          saveOnSuccess JSON_stringify setItem_rejects cacheKey query flag b
          = (Returned tt, b')
          /\ localStorage b' = <[cacheKey := text]> (localStorage b)
          /\ cachedData b' = cachedData b
          /\ cacheAge b' = cacheAge b
          /\ isFromCache b' = isFromCache b
          /\ warnings b' = (warnings b ++ [("Failed to cache data:", error)])%list)
  /\ (truthy (q_data query) && q_isSuccess query = false ->
      saveOnSuccess JSON_stringify setItem_rejects cacheKey query flag b
      = (Returned tt, b)).
Proof.
  unfold saveOnSuccess.
  destruct (truthy (q_data query) && q_isSuccess query).
  - split.
    { unfold try_catch, bind, attempt, setItem, Date_now.
      destruct (JSON_stringify (q_data query)) as [text|error]; [|by eexists].
      destruct (setItem_rejects (localStorage b) cacheKey text); [by eexists|].
      cbn [localStorage now].
      destruct (setItem_rejects _ _ _); [by eexists|].
      destruct flag; by eexists. }
    split.
    { intros _ error Hfail. unfold try_catch, bind, attempt, setItem.
      destruct Hfail as [-> | (text & -> & ->)];
        eexists; (split; [reflexivity|]); done. }
    split; [|discriminate].
    intros _ text error Htext Hfirst Hsecond.
    unfold try_catch, bind, attempt, setItem, Date_now.
    rewrite Htext, Hfirst. cbn [localStorage now]. rewrite Hsecond.
    eexists. split; [reflexivity|]. done.
  - split; [by exists b|]. split; [discriminate|]. split; [discriminate|]. done.
Qed.

End Save.

Lemma saved_then_mounted_witness :
  let saved :=
    localStorage
      (snd (saveOnSuccess JSON_stringify_scalar roomy "k" (fetched 7) false
              (mounted ∅ 1000))) in
  let b' := after_mount JSON_parse_scalar parseInt_decimal "k" 600000
              (mounted saved 4000) in
  localStorage b' = saved
  /\ forall live,
       r_data (useCachedQuery_result b' live) = JNum 7
       /\ r_isFromCache (useCachedQuery_result b' live) = true
       /\ r_cacheAge (useCachedQuery_result b' live) = Some (Finite 3000).
Proof.
  apply (saved_then_mounted JSON_parse_scalar parseInt_decimal
           JSON_stringify_scalar roomy "k" 600000 (fetched 7) false
           (mounted ∅ 1000) "7" 4000); try reflexivity.
  - discriminate.
  - simpl. lia.
Defined.

Lemma fresh_data_replaces_snapshot_witness :
  let b := after_mount JSON_parse_scalar parseInt_decimal "dashboard_admin" 600000
             (mounted store_number 2000) in
  let b' := snd (saveOnSuccess JSON_stringify_scalar roomy "dashboard_admin"
                   (fetched 7) (isFromCache b) b) in
  localStorage b' !! "dashboard_admin" = Some "7"
  /\ isFromCache b' = false
  /\ r_data (useCachedQuery_result b' (fetched 7)) = JNum 7.
Proof.
  destruct (fresh_data_replaces_snapshot JSON_stringify_scalar roomy
              "dashboard_admin" (fetched 7)
              (after_mount JSON_parse_scalar parseInt_decimal "dashboard_admin"
                 600000 (mounted store_number 2000))
              "7" eq_refl eq_refl eq_refl eq_refl eq_refl eq_refl)
    as (Hstored & _ & Hflag & _ & Hdata & _).
  split; [exact Hstored|]. split; [exact Hflag | exact Hdata].
Defined.

Lemma failed_save_keeps_display_witness :
  let b := after_mount JSON_parse_scalar parseInt_decimal "dashboard_admin" 600000
             (mounted store_number 2000) in
  exists b',
    saveOnSuccess JSON_stringify_scalar full "dashboard_admin" (fetched 7) true b
    = (Returned tt, b')
    /\ r_data (useCachedQuery_result b' (fetched 7)) = JNum 42
    /\ r_isFromCache (useCachedQuery_result b' (fetched 7)) = true
    /\ warnings b' = [("Failed to cache data:", JsErr "QuotaExceededError")].
Proof.
  intros b.
  destruct (failed_save_keeps_display JSON_stringify_scalar full
              "dashboard_admin" (fetched 7) true b)
    as (_ & Hkept & _).
  destruct (Hkept eq_refl (JsErr "QuotaExceededError"))
    as (b' & Hrun & _ & _ & _ & _ & Hwarn & Hsame).
  - right. exists "7". split; reflexivity.
  - exists b'. split; [exact Hrun|]. rewrite Hsame, Hwarn.
    split; [reflexivity|]. split; reflexivity.
Defined.

(** ** Dashboard keys *)

Lemma is_alnum_or_underscore_replaced c :
  (let c' := if is_alnum c then c else "_"%char in
   is_alnum c' || Ascii.eqb c' "_") = true.
Proof. simpl. destruct (is_alnum c) eqn:Hc; [by rewrite Hc | reflexivity]. Qed.

Lemma replace_non_alnum_chars s :
  all_chars (fun c => is_alnum c || Ascii.eqb c "_") (replace_non_alnum s) = true.
Proof.
  induction s as [|c s IH]; [reflexivity|]. simpl. rewrite IH, andb_true_r.
  apply is_alnum_or_underscore_replaced.
Qed.

Lemma replace_non_alnum_length s :
  String.length (replace_non_alnum s) = String.length s.
Proof. induction s as [|c s IH]; simpl; congruence. Qed.

Lemma replace_non_alnum_idempotent s :
  replace_non_alnum (replace_non_alnum s) = replace_non_alnum s.
Proof.
  induction s as [|c s IH]; [reflexivity|]. simpl. rewrite IH. f_equal.
  destruct (is_alnum c) eqn:Hc; [by rewrite Hc | reflexivity].
Qed.

Lemma replace_non_alnum_app s1 s2 :
  replace_non_alnum (s1 +:+ s2) = replace_non_alnum s1 +:+ replace_non_alnum s2.
Proof. induction s1 as [|c s1 IH]; simpl; [reflexivity | by rewrite IH]. Qed.

(** X17: under [useCachedDashboard] the mirror key is always
    [dashboard_] followed by the endpoint with every character outside
    [[a-zA-Z0-9]] turned into an underscore, never the query key: it is as
    long as the endpoint plus ten, holds only letters, digits and
    underscores, and sanitising it again changes nothing. *)
Theorem dashboard_cacheKey_spec (endpoint : string) :
  dashboard_cacheKey endpoint = "dashboard_" +:+ replace_non_alnum endpoint
  /\ String.length (dashboard_cacheKey endpoint) = (10 + String.length endpoint)%nat
  /\ all_chars (fun c => is_alnum c || Ascii.eqb c "_") (dashboard_cacheKey endpoint)
     = true
  /\ replace_non_alnum (dashboard_cacheKey endpoint) = dashboard_cacheKey endpoint.
Proof.
  assert (Hkey : dashboard_cacheKey endpoint
                 = "dashboard_" +:+ replace_non_alnum endpoint) by reflexivity.
  rewrite Hkey. split; [reflexivity|]. split.
  { by rewrite string_length_append, replace_non_alnum_length. }
  split.
  { simpl. apply replace_non_alnum_chars. }
  rewrite replace_non_alnum_app, replace_non_alnum_idempotent. reflexivity.
Qed.

End CachedQueryMoreFacts.
(** * The cache indicator and the status panel *)

Module CacheIndicatorFacts.
Import CachedQuery CachedQueryFacts CachedQueryMore CachedQueryMoreFacts CacheIndicator.

Lemma minutes_lt (age m : Z) :
  Qlt_bool (inject_Z age / inject_Z (1000 * 60)) (inject_Z m)
  = (age <? m * 60000).
Proof.
  change (1000 * 60) with 60000.
  unfold Qlt_bool, Qle_bool, Qdiv, Qmult, Qinv, inject_Z. cbn [Qnum Qden].
  change (Z.pos (1 * 60000)) with 60000.
  destruct (Z.leb_spec (m * 60000) (age * 1 * 1)), (Z.ltb_spec age (m * 60000));
    simpl; lia.
Qed.

Lemma floor_minutes (age : Z) :
  Qfloor (inject_Z age / inject_Z (1000 * 60)) = age / 60000.
Proof.
  change (1000 * 60) with 60000.
  unfold Qfloor, Qdiv, Qmult, Qinv, inject_Z. cbn [Qnum Qden].
  change (Z.pos (1 * 60000)) with 60000. by rewrite Z.mul_1_r.
Qed.

Lemma floor_seconds (ms : Z) :
  Qfloor (inject_Z ms / inject_Z 1000) = ms / 1000.
Proof.
  unfold Qfloor, Qdiv, Qmult, Qinv, inject_Z. cbn [Qnum Qden].
  change (Z.pos (1 * 1000)) with 1000. by rewrite Z.mul_1_r.
Qed.

(** X18: the badge of the indicator is decided by the age alone: nothing is
    rendered when the data is not from the cache; with no usable age
    ([undefined], [NaN] or 0) it is the plain [Cached] badge; otherwise it is
    [Fast] below 5 minutes, [Cached] from 5 to below 15 minutes and [Stale]
    from 15 minutes on. *)
Theorem indicator_thresholds (cacheAge : option JsNumber) :
  CacheIndicator false cacheAge = None
  /\ CacheIndicator true cacheAge = Some (getIndicatorProps cacheAge)
  /\ (no_age cacheAge = true ->
      text (getIndicatorProps cacheAge) = "Cached"
      /\ icon (getIndicatorProps cacheAge) = Database
      /\ tooltip (getIndicatorProps cacheAge)
         = "Showing cached data for instant loading")
  /\ (forall age,
        cacheAge = Some (Finite age) -> age <> 0 ->
        let props := getIndicatorProps cacheAge in
        (age < 5 * 60000 -> text props = "Fast" /\ icon props = Zap)
        /\ (5 * 60000 <= age < 15 * 60000 ->
            text props = "Cached" /\ icon props = Clock)
        /\ (15 * 60000 <= age -> text props = "Stale" /\ icon props = Clock)).
Proof.
  split; [reflexivity|]. split; [reflexivity|]. split.
  - destruct cacheAge as [[|age]|]; simpl; try done.
    intros ->. done.
  - intros age -> Hne props. subst props. unfold getIndicatorProps.
    destruct (Z.eqb_spec age 0) as [|_]; [done|].
    rewrite !minutes_lt.
    destruct (Z.ltb_spec age (5 * 60000)), (Z.ltb_spec age (15 * 60000));
      simpl; repeat split; intros; try lia; reflexivity.
Qed.

Lemma indicator_thresholds_witness :
  text (getIndicatorProps (Some (Finite 299999))) = "Fast"
  /\ text (getIndicatorProps (Some (Finite 300000))) = "Cached"
  /\ text (getIndicatorProps (Some (Finite 900000))) = "Stale"
  /\ text (getIndicatorProps (Some NaN)) = "Cached".
Proof.
  destruct (indicator_thresholds (Some (Finite 299999))) as (_ & _ & _ & H1).
  destruct (indicator_thresholds (Some (Finite 300000))) as (_ & _ & _ & H2).
  destruct (indicator_thresholds (Some (Finite 900000))) as (_ & _ & _ & H3).
  destruct (indicator_thresholds (Some NaN)) as (_ & _ & H4 & _).
  destruct (H1 _ eq_refl ltac:(discriminate)) as (Hfast & _).
  destruct (H2 _ eq_refl ltac:(discriminate)) as (_ & Hcached & _).
  destruct (H3 _ eq_refl ltac:(discriminate)) as (_ & _ & Hstale).
  split; [apply Hfast; lia|]. split; [apply Hcached; lia|].
  split; [apply Hstale; lia|]. apply H4. reflexivity.
Defined.

(** X19: for an age that is not negative, [formatCacheAge] prints the age in
    whole seconds, split into minutes and a number of seconds from 0 to 59,
    and leaves the minutes out when there are none. *)
Theorem formatCacheAge_spec (age : Z) :
  0 <= age ->
  exists minutes seconds,
    minutes = age / 60000
    /\ 0 <= seconds < 60
    /\ 60 * minutes + seconds = age / 1000
    /\ formatCacheAge age
       = (if 0 <? minutes
          then show_Z minutes +:+ "m " +:+ show_Z seconds +:+ "s ago"
          else show_Z seconds +:+ "s ago").
Proof.
  intros Hage. exists (age / 60000), (Z.rem age 60000 / 1000).
  unfold formatCacheAge. rewrite floor_minutes, floor_seconds.
  change (1000 * 60) with 60000.
  split; [reflexivity|].
  rewrite Z.rem_mod_nonneg by lia.
  pose proof (Z.mod_pos_bound age 60000 ltac:(lia)) as Hr.
  pose proof (Z.div_mod age 60000 ltac:(lia)) as Hsplit.
  split.
  { split; [apply Z.div_pos; lia|]. apply Z.div_lt_upper_bound; lia. }
  split; [|reflexivity].
  pose proof (Z.div_mod (age mod 60000) 1000 ltac:(lia)) as Hsec.
  pose proof (Z.mod_pos_bound (age mod 60000) 1000 ltac:(lia)) as Hms.
  apply (Z.div_unique age 1000 _ ((age mod 60000) mod 1000)); lia.
Qed.

Lemma formatCacheAge_spec_witness :
  formatCacheAge 125500 = "2m 5s ago" /\ formatCacheAge 59999 = "59s ago".
Proof.
  destruct (formatCacheAge_spec 125500 ltac:(lia)) as (m1 & s1 & -> & _ & _ & H1).
  destruct (formatCacheAge_spec 59999 ltac:(lia)) as (m2 & s2 & -> & _ & _ & H2).
  split; reflexivity.
Defined.

Section AfterMount.

Variable JSON_parse : string -> Outcome JsValue.
Variable parseInt : string -> JsNumber.

(** X20: after a mount, the indicator fed with the hook's [isFromCache] and
    [cacheAge] shows [Stale] only for an age from 15 minutes up to the
    horizon of the hook: never under the default horizon of 10 minutes, and
    under the 15 minutes of [useCachedDashboard] only at exactly 15
    minutes. *)
Theorem stale_badge_needs_long_horizon (cacheKey : string) (gcTime : Z)
    (store : gmap string string) (t : Z) (query : QueryResult)
    (props : IndicatorProps) :
  let shown :=
    useCachedQuery_result
      (after_mount JSON_parse parseInt cacheKey gcTime (mounted store t)) query in
  CacheIndicator (r_isFromCache shown) (r_cacheAge shown) = Some props ->
  text props = "Stale" ->
  (exists age,
     r_cacheAge shown = Some (Finite age) /\ 15 * 60000 <= age <= gcTime)
  /\ gcTime <> DEFAULT_gcTime
  /\ (gcTime = DASHBOARD_gcTime -> r_cacheAge shown = Some (Finite (15 * 60000))).
Proof.
  intros shown. subst shown. unfold useCachedQuery_result. simpl.
  intros Hshown Hstale.
  assert (Hage : exists age,
            cacheAge (after_mount JSON_parse parseInt cacheKey gcTime (mounted store t))
            = Some (Finite age) /\ 15 * 60000 <= age <= gcTime).
  { destruct (mount_age_within_horizon JSON_parse parseInt cacheKey gcTime store t)
      as [Hoff | (Hon & [Hnan | (age & Hfin & Hle)])].
    - rewrite Hoff in Hshown. discriminate.
    - rewrite Hon, Hnan in Hshown. injection Hshown as <-. discriminate.
    - rewrite Hon, Hfin in Hshown. injection Hshown as <-.
      exists age. split; [exact Hfin|]. split; [|exact Hle].
      revert Hstale. unfold getIndicatorProps.
      destruct (Z.eqb_spec age 0); [discriminate|].
      rewrite !minutes_lt.
      destruct (Z.ltb_spec age (5 * 60000)); [discriminate|].
      destruct (Z.ltb_spec age (15 * 60000)); [discriminate|]. lia. }
  destruct Hage as (age & Hfin & Hlo & Hhi).
  split; [by exists age|]. split.
  - unfold DEFAULT_gcTime. lia.
  - unfold DASHBOARD_gcTime. intros ->. rewrite Hfin. do 2 f_equal. lia.
Qed.

End AfterMount.

Lemma stale_badge_needs_long_horizon_witness :
  exists age,
    r_cacheAge
      (useCachedQuery_result
         (after_mount JSON_parse_scalar parseInt_decimal "dashboard_admin"
            DASHBOARD_gcTime (mounted store_number 901000)) idle_query)
    = Some (Finite age)
    /\ 15 * 60000 <= age <= DASHBOARD_gcTime.
Proof.
  destruct (stale_badge_needs_long_horizon JSON_parse_scalar parseInt_decimal
              "dashboard_admin" DASHBOARD_gcTime store_number 901000 idle_query
              (getIndicatorProps (Some (Finite 900000))) eq_refl eq_refl)
    as (Hage & _).
  exact Hage.
Defined.

End CacheIndicatorFacts.
Module CacheStatusPanelFacts.
Import CachedQueryMore CacheStatusPanel.

(** ** Characters *)

Ltac by_cases_on c :=
  destruct c as [[] [] [] [] [] [] [] []]; try reflexivity; try discriminate.

Lemma is_word_upper c : is_word (upper c) = is_word c.
Proof. by_cases_on c. Qed.

Lemma upper_upper c : upper (upper c) = upper c.
Proof. by_cases_on c. Qed.

Lemma upper_underscore c : Ascii.eqb (upper c) "_" = Ascii.eqb c "_".
Proof. by_cases_on c. Qed.

Lemma word_start_not_lower c :
  is_lower (if is_word c then upper c else c) = false.
Proof. by_cases_on c. Qed.

Lemma digit_or_minus_kept c :
  digit_or_minus c = true ->
  Ascii.eqb c "_" = false /\ upper c = c.
Proof. by_cases_on c; intros _; split; reflexivity. Qed.

(** ** Labels *)

Lemma underscores_to_spaces_clean s :
  all_chars no_underscore (underscores_to_spaces s) = true.
Proof.
  induction s as [|c s IH]; [reflexivity|]. simpl. rewrite IH, andb_true_r.
  unfold no_underscore. destruct (Ascii.eqb c "_") eqn:Hc; [reflexivity|].
  by rewrite Hc.
Qed.

Lemma underscores_to_spaces_id s :
  all_chars no_underscore s = true -> underscores_to_spaces s = s.
Proof.
  induction s as [|c s IH]; [reflexivity|]. simpl.
  intros [Hc Hs]%andb_true_iff. rewrite (IH Hs).
  unfold no_underscore in Hc. apply negb_true_iff in Hc. by rewrite Hc.
Qed.

Lemma underscores_to_spaces_length s :
  String.length (underscores_to_spaces s) = String.length s.
Proof. induction s as [|c s IH]; simpl; congruence. Qed.

Lemma capitalize_from_clean after_word s :
  all_chars no_underscore s = true ->
  all_chars no_underscore (capitalize_from after_word s) = true.
Proof.
  revert after_word. induction s as [|c s IH]; intros after_word; [reflexivity|].
  simpl. intros [Hc Hs]%andb_true_iff. rewrite (IH _ Hs), andb_true_r.
  destruct (is_word c && negb after_word); [|exact Hc].
  unfold no_underscore in *. by rewrite upper_underscore.
Qed.

Lemma capitalize_from_length after_word s :
  String.length (capitalize_from after_word s) = String.length s.
Proof.
  revert after_word. induction s as [|c s IH]; intros after_word; simpl;
    [reflexivity | by rewrite IH].
Qed.

Lemma capitalize_from_idempotent after_word s :
  capitalize_from after_word (capitalize_from after_word s)
  = capitalize_from after_word s.
Proof.
  revert after_word. induction s as [|c s IH]; intros after_word; [reflexivity|].
  simpl. destruct (is_word c && negb after_word) eqn:Hstart.
  - rewrite is_word_upper, Hstart, upper_upper, IH. reflexivity.
  - rewrite Hstart, IH. reflexivity.
Qed.

(** A capitalised text is none of the four keys the panel names itself: those
    start with a lower-case letter. *)
Lemma capitalize_words_not_fixed s :
  let r := capitalize_words s in
  String.eqb r "admin" = false /\ String.eqb r "university" = false
  /\ String.eqb r "batch_2027" = false /\ String.eqb r "batch_2028" = false.
Proof.
  destruct s as [|c s]; [by repeat split|].
  unfold capitalize_words. cbn [capitalize_from negb]. rewrite andb_true_r.
  pose proof (word_start_not_lower c) as Hhead.
  set (h := if is_word c then upper c else c) in *.
  repeat split; apply String.eqb_neq; intros [= Hc _]; rewrite Hc in Hhead;
    discriminate.
Qed.

(** X21: a label made by [formatCacheKey] is stable: formatting it again gives
    the same label. For a key other than the four the panel names itself, the
    label is as long as the key and holds no underscore. *)
Theorem formatCacheKey_stable (key : string) :
  formatCacheKey (formatCacheKey key) = formatCacheKey key
  /\ (key <> "admin" -> key <> "university" ->
      key <> "batch_2027" -> key <> "batch_2028" ->
      String.length (formatCacheKey key) = String.length key
      /\ all_chars no_underscore (formatCacheKey key) = true).
Proof.
  assert (Hdefault :
    let r := capitalize_words (underscores_to_spaces key) in
    formatCacheKey r = r
    /\ String.length r = String.length key
    /\ all_chars no_underscore r = true).
  { intros r. subst r.
    assert (Hclean : all_chars no_underscore
                       (capitalize_words (underscores_to_spaces key)) = true)
      by apply capitalize_from_clean, underscores_to_spaces_clean.
    split; [|split; [|exact Hclean]].
    - unfold formatCacheKey.
      destruct (capitalize_words_not_fixed (underscores_to_spaces key))
        as (-> & -> & -> & ->).
      rewrite (underscores_to_spaces_id _ Hclean).
      apply capitalize_from_idempotent.
    - unfold capitalize_words.
      by rewrite capitalize_from_length, underscores_to_spaces_length. }
  destruct Hdefault as (Hstable & Hlen & Hclean).
  destruct (decide (key = "admin")) as [->|H1]; [split; [reflexivity|done]|].
  destruct (decide (key = "university")) as [->|H2]; [split; [reflexivity|done]|].
  destruct (decide (key = "batch_2027")) as [->|H3]; [split; [reflexivity|done]|].
  destruct (decide (key = "batch_2028")) as [->|H4]; [split; [reflexivity|done]|].
  assert (Hfmt : formatCacheKey key = capitalize_words (underscores_to_spaces key)).
  { apply String.eqb_neq in H1, H2, H3, H4. unfold formatCacheKey.
    by rewrite H1, H2, H3, H4. }
  rewrite Hfmt.
  split; [exact Hstable|]. intros _ _ _ _. split; [exact Hlen | exact Hclean].
Qed.

Lemma formatCacheKey_stable_witness :
  String.length (formatCacheKey "weekly_progress-2027")
  = String.length "weekly_progress-2027"
  /\ all_chars no_underscore (formatCacheKey "weekly_progress-2027") = true.
Proof.
  destruct (formatCacheKey_stable "weekly_progress-2027") as [_ Hother].
  apply Hother; discriminate.
Defined.

Lemma string_of_uint_digits d :
  all_chars digit_or_minus (NilEmpty.string_of_uint d) = true.
Proof. induction d; simpl; try done. Qed.

Lemma show_Z_digits n : all_chars digit_or_minus (show_Z n) = true.
Proof.
  unfold show_Z. destruct n as [|p|p]; simpl; [reflexivity| |].
  - unfold NilZero.string_of_uint.
    destruct (Pos.to_uint p) eqn:Hd; try (rewrite <- Hd; apply string_of_uint_digits).
    reflexivity.
  - unfold NilZero.string_of_uint.
    destruct (Pos.to_uint p) eqn:Hd; try (rewrite <- Hd; apply string_of_uint_digits).
    reflexivity.
Qed.

Lemma numeral_kept after_word s :
  all_chars digit_or_minus s = true ->
  underscores_to_spaces s = s /\ capitalize_from after_word s = s.
Proof.
  revert after_word. induction s as [|c s IH]; intros after_word; [done|].
  simpl. intros [Hc Hs]%andb_true_iff.
  destruct (digit_or_minus_kept c Hc) as [Hu Hup].
  destruct (IH (is_word c) Hs) as [IH1 IH2].
  rewrite Hu, IH1, IH2, Hup. split; [reflexivity|].
  by destruct (is_word c && negb after_word).
Qed.

(** X22: the key [warmUpCache] writes for a student is labelled
    [Student] followed by the student's id. *)
Theorem formatCacheKey_student (id : Z) :
  formatCacheKey (CacheService.student_key id) = "Student " +:+ show_Z id.
Proof.
  destruct (numeral_kept false (show_Z id) (show_Z_digits id)) as [Hu Hc].
  unfold CacheService.student_key. revert Hu Hc.
  generalize (show_Z id). intros numeral Hu Hc.
  unfold formatCacheKey, capitalize_words. simpl.
  change ("" +:+ numeral) with numeral.
  change (is_word " ") with false. change (upper "s") with "S"%char.
  by rewrite Hu, Hc.
Qed.

End CacheStatusPanelFacts.
(** ** Numbers: the doubles among the rationals *)

Module NumberFacts.
Import CsvImport.

Local Open Scope Q_scope.

Lemma pow2_neg k : (k < 0)%Z -> pow2 k == / inject_Z (2 ^ (- k)).
Proof.
  intros Hk. unfold pow2. destruct (Z.leb_spec 0 k) as [|_]; [lia|].
  assert (Hpos : (0 < 2 ^ (- k))%Z) by (apply Z.pow_pos_nonneg; lia).
  destruct (2 ^ (- k))%Z as [|p|p] eqn:Hp; try lia.
  reflexivity.
Qed.

Lemma pow2_nonneg k : (0 <= k)%Z -> pow2 k = inject_Z (2 ^ k).
Proof. intros Hk. unfold pow2. destruct (Z.leb_spec 0 k); [reflexivity|lia]. Qed.

Lemma pow2_pos k : 0 < pow2 k.
Proof.
  unfold pow2. destruct (Z.leb_spec 0 k).
  - change 0 with (inject_Z 0). rewrite <- Zlt_Qlt. apply Z.pow_pos_nonneg; lia.
  - reflexivity.
Qed.

Lemma inject_Z_pow2_nonzero k : (0 <= k)%Z -> ~ inject_Z (2 ^ k) == 0.
Proof.
  intros Hk. change 0 with (inject_Z 0). rewrite inject_Z_injective.
  apply Z.pow_nonzero; lia.
Qed.

Lemma pow2_succ k : pow2 (k + 1) == 2 * pow2 k.
Proof.
  destruct (Z.leb_spec 0 k) as [Hk|Hk].
  - rewrite !pow2_nonneg by lia. rewrite Z.pow_add_r by lia.
    rewrite inject_Z_mult. change (inject_Z (2 ^ 1)) with 2. ring.
  - destruct (Z.eq_dec k (-1)%Z) as [->|Hne]; [reflexivity|].
    rewrite !pow2_neg by lia.
    replace (- k)%Z with (- (k + 1) + 1)%Z by lia.
    rewrite Z.pow_add_r by lia. rewrite inject_Z_mult.
    change (inject_Z (2 ^ 1)) with 2.
    field. apply inject_Z_pow2_nonzero. lia.
Qed.

Lemma pow2_add_nat k (n : nat) : pow2 (k + Z.of_nat n) == inject_Z (2 ^ Z.of_nat n) * pow2 k.
Proof.
  induction n as [|n IH].
  - replace (k + Z.of_nat 0)%Z with k by lia.
    change (inject_Z (2 ^ Z.of_nat 0)) with 1. ring.
  - replace (k + Z.of_nat (S n))%Z with ((k + Z.of_nat n) + 1)%Z by lia.
    rewrite pow2_succ, IH.
    replace (Z.of_nat (S n)) with (Z.of_nat n + 1)%Z by lia.
    rewrite Z.pow_add_r by lia. rewrite inject_Z_mult.
    change (inject_Z (2 ^ 1)) with 2. ring.
Qed.

Lemma pow2_add_nonneg k j : (0 <= j)%Z -> pow2 (k + j) == inject_Z (2 ^ j) * pow2 k.
Proof.
  intros Hj. rewrite <- (Z2Nat.id j Hj) at 1 2. apply pow2_add_nat.
Qed.

Lemma pow2_le k j : (k <= j)%Z -> pow2 k <= pow2 j.
Proof.
  intros Hkj. replace j with (k + (j - k))%Z by lia.
  rewrite pow2_add_nonneg by lia.
  assert (H1 : 1 <= inject_Z (2 ^ (j - k))).
  { change 1 with (inject_Z 1). rewrite <- Zle_Qle.
    assert (0 < 2 ^ (j - k))%Z by (apply Z.pow_pos_nonneg; lia). lia. }
  pose proof (pow2_pos k). nra.
Qed.

Lemma pow2_lt k j : (k < j)%Z -> pow2 k < pow2 j.
Proof.
  intros Hkj. apply Qlt_le_trans with (pow2 (k + 1)); [|apply pow2_le; lia].
  rewrite pow2_succ. pose proof (pow2_pos k). lra.
Qed.
Lemma binade_bounds a : 0 < a -> pow2 (binade a) <= a < pow2 (binade a + 1).
Proof.
  destruct a as [N D]. intros Ha.
  assert (HN : (0 < N)%Z) by (unfold Qlt in Ha; simpl in Ha; lia).
  unfold binade. cbn [Qnum Qden].
  set (p := Z.log2 N). set (r := Z.log2 (Z.pos D)). set (e0 := (p - r)%Z).
  destruct (Z.log2_spec N HN) as [HN1 HN2]. fold p in HN1, HN2.
  destruct (Z.log2_spec (Z.pos D) eq_refl) as [HD1 HD2]. fold r in HD1, HD2.
  assert (Hp : (0 <= p)%Z) by apply Z.log2_nonneg.
  assert (Hr : (0 <= r)%Z) by apply Z.log2_nonneg.
  assert (Hdiv : N # D == inject_Z N / inject_Z (Z.pos D))
    by apply Qmake_Qdiv.
  assert (HDpos : 0 < inject_Z (Z.pos D)) by reflexivity.
  rewrite Zle_Qle in HN1, HD1. rewrite Zlt_Qlt in HN2, HD2.
  assert (Hupper : N # D < pow2 (e0 + 1)).
  { rewrite Hdiv. apply Qlt_shift_div_r; [exact HDpos|].
    pose proof (pow2_add_nonneg (e0 + 1) r Hr) as Heq.
    replace (e0 + 1 + r)%Z with (Z.succ p) in Heq by (unfold e0; lia).
    rewrite pow2_nonneg in Heq by lia.
    pose proof (pow2_pos (e0 + 1)). nra. }
  assert (Hlower : pow2 (e0 - 1) <= N # D).
  { rewrite Hdiv. apply Qle_shift_div_l; [exact HDpos|].
    pose proof (pow2_add_nonneg (e0 - 1) (Z.succ r) ltac:(lia)) as Heq.
    replace (e0 - 1 + Z.succ r)%Z with p in Heq by (unfold e0; lia).
    rewrite pow2_nonneg in Heq by lia.
    pose proof (pow2_pos (e0 - 1)). nra. }
  destruct (Qle_bool (pow2 e0) (N # D)) eqn:Hle.
  - apply Qle_bool_iff in Hle. split; assumption.
  - split; [exact Hlower|].
    replace (e0 - 1 + 1)%Z with e0 by lia.
    apply Qnot_le_lt. intros Hge. apply Qle_bool_iff in Hge. congruence.
Qed.

Lemma binade_unique a e : pow2 e <= a < pow2 (e + 1) -> binade a = e.
Proof.
  intros [Hlo Hhi].
  assert (Ha : 0 < a) by (pose proof (pow2_pos e); lra).
  destruct (binade_bounds a Ha) as [Hlo' Hhi'].
  destruct (Z.lt_trichotomy (binade a) e) as [Hlt | [Heq | Hgt]]; [|exact Heq|].
  - pose proof (pow2_le (binade a + 1) e ltac:(lia)). lra.
  - pose proof (pow2_le (e + 1) (binade a) ltac:(lia)). lra.
Qed.

Lemma round_half_even_int q m : q == inject_Z m -> round_half_even q = m.
Proof.
  intros Hq. unfold round_half_even.
  assert (Hfloor : Qfloor q = m) by (rewrite Hq; apply Qfloor_Z).
  rewrite Hfloor.
  assert (Hlt : (q - inject_Z m) * 2 < 1) by (rewrite Hq; lra).
  destruct (Qcompare ((q - inject_Z m) * 2) 1) eqn:Hc; [|reflexivity|].
  - apply Qeq_alt in Hc. lra.
  - apply Qgt_alt in Hc. lra.
Qed.

Lemma Qred_inject_Z n : Qred (inject_Z n) = inject_Z n.
Proof.
  unfold Qred, inject_Z.
  pose proof (Z.ggcd_correct_divisors n 1) as Hdiv.
  pose proof (Z.ggcd_gcd n 1) as Hgcd.
  destruct (Z.ggcd n 1) as [g [a b]]. simpl in Hgcd.
  rewrite Z.gcd_1_r in Hgcd. subst g. destruct Hdiv as [Ha Hb].
  replace a with n by lia. replace b with 1%Z by lia. reflexivity.
Qed.

(** A rational with a significand of 53 bits and an exponent in range is a
    double. *)
Lemma to_double_exact (q : Q) (m e : Z) :
  (2 ^ 52 <= Z.abs m < 2 ^ 53)%Z ->
  (-1074 <= e <= 971)%Z ->
  q == inject_Z m * pow2 e ->
  to_double q = Num (Qred q).
Proof.
  intros Hm He Hq.
  pose proof (pow2_pos e) as Hpe.
  assert (Habs : Qabs q == inject_Z (Z.abs m) * pow2 e).
  { rewrite Hq, Qabs_Qmult. rewrite (Qabs_pos (pow2 e)) by lra.
    unfold Qabs at 1. simpl. reflexivity. }
  assert (Hmpos : 0 < inject_Z (Z.abs m))
    by (change 0 with (inject_Z 0); rewrite <- Zlt_Qlt; lia).
  assert (Hm1 : inject_Z (2 ^ 52) <= inject_Z (Z.abs m)) by (rewrite <- Zle_Qle; lia).
  assert (Hm2 : inject_Z (Z.abs m) < inject_Z (2 ^ 53)) by (rewrite <- Zlt_Qlt; lia).
  assert (Hbin : binade (Qabs q) = (e + 52)%Z).
  { apply binade_unique. rewrite Habs.
    rewrite (pow2_add_nonneg e 52) by lia.
    replace (e + 52 + 1)%Z with (e + 53)%Z by lia.
    rewrite (pow2_add_nonneg e 53) by lia. split; nra. }
  unfold to_double. rewrite Hbin.
  replace (Z.max (e + 52) (-1022)) with (e + 52)%Z by lia.
  replace (e + 52 - 52)%Z with e by lia.
  assert (Hround : round_half_even (Qabs q / pow2 e) = Z.abs m).
  { apply round_half_even_int. rewrite Habs. field. lra. }
  rewrite Hround.
  assert (Hsmall : Qle_bool (pow2 1024) (inject_Z (Z.abs m) * pow2 e) = false).
  { destruct (Qle_bool _ _) eqn:Hle; [|reflexivity].
    apply Qle_bool_iff in Hle.
    pose proof (pow2_le e 971 ltac:(lia)) as Hle2.
    pose proof (pow2_add_nonneg 971 53 ltac:(lia)) as Hsplit.
    change (971 + 53)%Z with 1024%Z in Hsplit.
    pose proof (pow2_pos 971) as Hp971.
    assert (Hm0 : 0 <= inject_Z (Z.abs m))
      by (change 0 with (inject_Z 0); rewrite <- Zle_Qle; lia).
    assert (H1 : inject_Z (Z.abs m) * pow2 e <= inject_Z (Z.abs m) * pow2 971)
      by nra.
    assert (H2 : inject_Z (Z.abs m) * pow2 971 < inject_Z (2 ^ 53) * pow2 971)
      by nra.
    lra. }
  rewrite Hsmall.
  destruct (q ?= 0) eqn:Hsign.
  - apply Qeq_alt in Hsign. exfalso.
    assert (0 < Qabs q) by (rewrite Habs; nra).
    rewrite Hsign in H. vm_compute in H. discriminate.
  - apply Qlt_alt in Hsign. f_equal. apply Qred_complete.
    rewrite <- Habs. rewrite Qabs_neg by lra. ring.
  - apply Qgt_alt in Hsign. f_equal. apply Qred_complete.
    rewrite <- Habs. rewrite Qabs_pos by lra. reflexivity.
Qed.

Lemma to_double_zero q : q == 0 -> to_double q = Num (Qred q).
Proof.
  intros Hq. unfold to_double.
  assert (Hc : (q ?= 0) = Eq) by (by apply Qeq_alt).
  rewrite Hc. f_equal. symmetry. apply (Qred_complete q 0 Hq).
Qed.

(** The doubles among the dyadic rationals: a numerator of at most 53 bits
    over a power of two that keeps clear of the subnormal range. *)
Lemma to_double_dyadic (q : Q) (n j : Z) :
  (Z.abs n <= 2 ^ 53)%Z ->
  (0 <= j <= 1000)%Z ->
  q == inject_Z n / inject_Z (2 ^ j) ->
  to_double q = Num (Qred q).
Proof.
  intros Hn Hj Hq.
  assert (Hj0 : ~ inject_Z (2 ^ j) == 0) by (apply inject_Z_pow2_nonzero; lia).
  destruct (Z.eq_dec n 0%Z) as [->|Hn0].
  { apply to_double_zero. rewrite Hq. field. exact Hj0. }
  destruct (Z.eq_dec (Z.abs n) (2 ^ 53)%Z) as [Htop|Hbelow].
  - apply (to_double_exact q (n / 2)%Z (1 - j)%Z).
    + assert (Hhalf : (Z.abs (n / 2) = 2 ^ 52)%Z).
      { destruct (Z.abs_spec n) as [[_ Hpos]|[_ Hneg]].
        - rewrite Hpos in Htop. subst n. reflexivity.
        - assert (n = - 2 ^ 53)%Z as -> by lia. reflexivity. }
      rewrite Hhalf. lia.
    + lia.
    + rewrite Hq.
      assert (Hn2 : (n = 2 * (n / 2))%Z).
      { destruct (Z.abs_spec n) as [[_ Hpos]|[_ Hneg]].
        - rewrite Hpos in Htop. subst n. reflexivity.
        - assert (n = - 2 ^ 53)%Z as -> by lia. reflexivity. }
      rewrite Hn2 at 1. rewrite inject_Z_mult.
      pose proof (pow2_add_nonneg (1 - j)%Z j ltac:(lia)) as Hsplit.
      replace (1 - j + j)%Z with 1%Z in Hsplit by lia.
      change (pow2 1) with 2 in Hsplit.
      change (inject_Z 2) with 2.
      rewrite Hsplit. field. exact Hj0.
  - assert (Habs : (0 < Z.abs n < 2 ^ 53)%Z) by lia.
    set (L := Z.log2 (Z.abs n)).
    destruct (Z.log2_spec (Z.abs n) ltac:(lia)) as [HL1 HL2]. fold L in HL1, HL2.
    assert (HL0 : (0 <= L)%Z) by apply Z.log2_nonneg.
    assert (HL : (L <= 52)%Z).
    { destruct (Z.le_gt_cases L 52%Z) as [|Hgt]; [assumption|].
      assert (2 ^ 53 <= 2 ^ L)%Z by (apply Z.pow_le_mono_r; lia). lia. }
    apply (to_double_exact q (n * 2 ^ (52 - L))%Z (L - 52 - j)%Z).
    + rewrite Z.abs_mul. rewrite (Z.abs_eq (2 ^ (52 - L))%Z) by (apply Z.pow_nonneg; lia).
      replace (2 ^ 52)%Z with (2 ^ L * 2 ^ (52 - L))%Z
        by (rewrite <- Z.pow_add_r by lia; f_equal; lia).
      replace (2 ^ 53)%Z with (2 ^ Z.succ L * 2 ^ (52 - L))%Z
        by (rewrite <- Z.pow_add_r by lia; f_equal; lia).
      assert (0 < 2 ^ (52 - L))%Z by (apply Z.pow_pos_nonneg; lia). nia.
    + lia.
    + rewrite Hq, inject_Z_mult.
      pose proof (pow2_add_nonneg (L - 52 - j)%Z (52 - L + j)%Z ltac:(lia)) as Hsplit.
      replace (L - 52 - j + (52 - L + j))%Z with 0%Z in Hsplit by lia.
      change (pow2 0) with 1 in Hsplit.
      rewrite Z.pow_add_r, inject_Z_mult in Hsplit by lia.
      assert (H52 : ~ inject_Z (2 ^ (52 - L)) == 0)
        by (apply inject_Z_pow2_nonzero; lia).
      pose proof (pow2_pos (L - 52 - j)%Z) as Hpe.
      assert (Hpow : pow2 (L - 52 - j)
                     == / (inject_Z (2 ^ (52 - L)) * inject_Z (2 ^ j))).
      { apply (Qmult_inj_l _ _ (inject_Z (2 ^ (52 - L)) * inject_Z (2 ^ j))).
        - intros Hzero. rewrite Hzero in Hsplit. lra.
        - rewrite <- Hsplit. field. split; assumption. }
      rewrite Hpow. field. split; assumption.
Qed.

Lemma to_double_int (q : Q) (n : Z) :
  (Z.abs n <= 2 ^ 53)%Z -> q == inject_Z n -> to_double q = Num (inject_Z n).
Proof.
  intros Hn Hq. rewrite (to_double_dyadic q n 0%Z Hn ltac:(lia)).
  - rewrite (Qred_complete q (inject_Z n) Hq). by rewrite Qred_inject_Z.
  - rewrite Hq. change (inject_Z (2 ^ 0)) with 1. field.
Qed.

Lemma num_add_int (a b : Z) :
  (Z.abs (a + b) <= 2 ^ 53)%Z -> num_add (int a) (int b) = int (a + b).
Proof.
  intros Hab. unfold int, num_add. apply to_double_int; [exact Hab|].
  by rewrite inject_Z_plus.
Qed.

Lemma num_sub_int (a b : Z) :
  (Z.abs (a - b) <= 2 ^ 53)%Z -> num_sub (int a) (int b) = int (a - b).
Proof.
  intros Hab. unfold int, num_sub, num_add, num_neg.
  apply to_double_int; [exact Hab|].
  unfold Z.sub. by rewrite inject_Z_plus, inject_Z_opp.
Qed.

(** [Math.round(s / 4)] for an integer [s] of at most 53 bits. *)
Lemma Math_round_quarters (s : Z) :
  (Z.abs s <= 2 ^ 53)%Z ->
  Math_round (num_div_count (int s) 4) = int ((s + 2) / 4).
Proof.
  intros Hs. unfold int, num_div_count.
  rewrite (to_double_dyadic _ s 2%Z Hs ltac:(lia)) by reflexivity.
  unfold Math_round. f_equal. f_equal.
  rewrite (Qfloor_comp _ (inject_Z s / inject_Z 4 + (1 # 2)))
    by (by rewrite Qred_correct).
  unfold Qfloor, Qdiv, Qinv, Qmult, Qplus, inject_Z.
  cbn [Qnum Qden Pos.mul Z.mul Z.of_nat Pos.of_succ_nat Pos.succ].
  change (Z.pos (1 * 4 * 2)) with (2 * 4)%Z.
  change (Z.pos (1 * 4)) with 4%Z.
  replace (s * 1 * 2 + 1 * 4)%Z with (2 * (s + 2))%Z by lia.
  apply Z.div_mul_cancel_l; lia.
Qed.

End NumberFacts.

(** * The weekly progress import: CSV lines and scores *)

Module CsvImportFacts.
Import CachedQueryMore CsvImport.

(** ** Trimming *)

Lemma trimStart_head s :
  trimStart s = "" \/ exists c rest, trimStart s = String c rest /\ is_space c = false.
Proof.
  induction s as [|c s IH]; [by left|]. simpl.
  destruct (is_space c) eqn:Hc; [exact IH|]. right. by exists c, s.
Qed.

Lemma trimStart_fixed c rest :
  is_space c = false -> trimStart (String c rest) = String c rest.
Proof. intros Hc. simpl. by rewrite Hc. Qed.

Lemma trimEnd_head c rest :
  is_space c = false -> exists kept, trimEnd (String c rest) = String c kept.
Proof.
  intros Hc. simpl. destruct (trimEnd rest); rewrite ?Hc; eauto.
Qed.

Lemma trimEnd_cons c rest :
  trimEnd (String c rest)
  = match trimEnd rest with
    | EmptyString => if is_space c then EmptyString else String c EmptyString
    | kept => String c kept
    end.
Proof. reflexivity. Qed.

Lemma trimEnd_idempotent s : trimEnd (trimEnd s) = trimEnd s.
Proof.
  induction s as [|c s IH]; [reflexivity|].
  rewrite (trimEnd_cons c s).
  destruct (trimEnd s) as [|k kept] eqn:Hs.
  - destruct (is_space c) eqn:Hc; [reflexivity|]. simpl. by rewrite Hc.
  - by rewrite (trimEnd_cons c (String k kept)), IH.
Qed.

Lemma trim_idempotent s : trim (trim s) = trim s.
Proof.
  unfold trim. destruct (trimStart_head s) as [-> | (c & rest & -> & Hc)];
    [reflexivity|].
  destruct (trimEnd_head c rest Hc) as (kept & Hkept). rewrite Hkept.
  rewrite (trimStart_fixed c kept Hc), <- Hkept. apply trimEnd_idempotent.
Qed.

Lemma all_chars_trimStart test s :
  all_chars test s = true -> all_chars test (trimStart s) = true.
Proof.
  induction s as [|c s IH]; [done|]. simpl. intros [Hc Hs]%andb_true_iff.
  destruct (is_space c); [by apply IH|]. simpl. by rewrite Hc, Hs.
Qed.

Lemma all_chars_trimEnd test s :
  all_chars test s = true -> all_chars test (trimEnd s) = true.
Proof.
  induction s as [|c s IH]; [done|]. simpl. intros [Hc Hs]%andb_true_iff.
  specialize (IH Hs). destruct (trimEnd s).
  - destruct (is_space c); [done|]. simpl. by rewrite Hc.
  - simpl in *. by rewrite Hc, IH.
Qed.

Lemma all_chars_trim test s :
  all_chars test s = true -> all_chars test (trim s) = true.
Proof. intros Hs. by apply all_chars_trimEnd, all_chars_trimStart. Qed.

Lemma all_chars_app test s1 s2 :
  all_chars test (s1 +:+ s2) = all_chars test s1 && all_chars test s2.
Proof.
  induction s1 as [|c s1 IH]; [reflexivity|]. simpl. by rewrite IH, andb_assoc.
Qed.

Lemma append_nil_r s : s +:+ "" = s.
Proof.
  induction s as [|c s IH]; [reflexivity|]. exact (f_equal (String c) IH).
Qed.

Lemma append_assoc s1 s2 s3 : (s1 +:+ s2) +:+ s3 = s1 +:+ (s2 +:+ s3).
Proof.
  induction s1 as [|c s1 IH]; [reflexivity|]. exact (f_equal (String c) IH).
Qed.

(** ** The loop of [parseCSVLine] *)

Lemma csv_loop_app s1 s2 st :
  csv_loop (s1 +:+ s2) st = csv_loop s2 (csv_loop s1 st).
Proof. revert st. induction s1 as [|c s1 IH]; intros st; simpl; [reflexivity | apply IH]. Qed.

Lemma csv_step_clean st char :
  Forall clean_field (result st) ->
  all_chars (none_of ["034"%char]) (current st) = true ->
  Forall clean_field (result (csv_step st char))
  /\ all_chars (none_of ["034"%char]) (current (csv_step st char)) = true.
Proof.
  intros Hres Hcur. unfold csv_step.
  destruct (Ascii.eqb char "034") eqn:Hquote; [done|].
  destruct (Ascii.eqb char "," && negb (inQuotes st)); simpl.
  - split; [|reflexivity]. apply Forall_app. split; [exact Hres|].
    apply Forall_singleton. split; [by apply all_chars_trim | apply trim_idempotent].
  - split; [exact Hres|]. rewrite all_chars_app, Hcur. simpl.
    by rewrite Hquote.
Qed.

Lemma csv_loop_clean line st :
  Forall clean_field (result st) ->
  all_chars (none_of ["034"%char]) (current st) = true ->
  Forall clean_field (result (csv_loop line st))
  /\ all_chars (none_of ["034"%char]) (current (csv_loop line st)) = true.
Proof.
  revert st. induction line as [|char line IH]; intros st Hres Hcur; [done|].
  simpl. destruct (csv_step_clean st char Hres Hcur) as [Hres' Hcur'].
  by apply IH.
Qed.

(** X23: [parseCSVLine] always gives at least one field, and every field it
    gives is trimmed and holds no double quote: quotes only switch the
    quoted mode, doubled ones included, and never reach a field. *)
Theorem parseCSVLine_fields_clean (line : string) :
  parseCSVLine line <> []
  /\ Forall clean_field (parseCSVLine line).
Proof.
  unfold parseCSVLine. split.
  - intros Hnil. by apply app_eq_nil in Hnil as [_ Hlast].
  - destruct (csv_loop_clean line {| result := []; current := ""; inQuotes := false |})
      as [Hres Hcur]; [constructor | reflexivity |].
    apply Forall_app. split; [exact Hres|]. apply Forall_singleton.
    split; [by apply all_chars_trim | apply trim_idempotent].
Qed.

(** Characters that are neither a comma nor a quote are added to the current
    field, in either mode. *)
Lemma csv_loop_plain s st :
  all_chars (none_of [","%char; "034"%char]) s = true ->
  csv_loop s st
  = {| result := result st; current := current st +:+ s; inQuotes := inQuotes st |}.
Proof.
  revert st. induction s as [|c s IH]; intros st.
  - intros _. simpl. rewrite append_nil_r. by destruct st.
  - simpl. intros [Hc Hs]%andb_true_iff. rewrite (IH _ Hs).
    apply andb_true_iff in Hc as [Hcomma Hrest].
    apply andb_true_iff in Hrest as [Hquote _].
    apply negb_true_iff in Hcomma, Hquote.
    unfold csv_step. rewrite Hquote, Hcomma. simpl.
    by rewrite append_assoc.
Qed.

Lemma csv_loop_comma rest st :
  inQuotes st = false ->
  csv_loop (String "," rest) st
  = csv_loop rest
      {| result := result st ++ [trim (current st)]; current := "";
         inQuotes := false |}.
Proof.
  intros Hq. cbn [csv_loop]. f_equal. unfold csv_step.
  change (Ascii.eqb "," "034") with false. change (Ascii.eqb "," ",") with true.
  rewrite Hq. reflexivity.
Qed.

Lemma csv_loop_fields fields :
  forall field before,
    Forall (fun f => all_chars (none_of [","%char; "034"%char]) f = true
                     /\ trim f = f) (field :: fields) ->
    let st := csv_loop (join_commas (field :: fields))
                {| result := before; current := ""; inQuotes := false |} in
    (result st ++ [trim (current st)])%list = (before ++ field :: fields)%list.
Proof.
  induction fields as [|next fields IH]; intros field before Hall st; subst st.
  - apply Forall_singleton in Hall as [Hplain Htrim].
    change (join_commas [field]) with field.
    rewrite (csv_loop_plain _ _ Hplain). cbn [result current].
    change ("" +:+ field) with field. by rewrite Htrim.
  - apply Forall_cons in Hall as [[Hplain Htrim] Hrest].
    change (join_commas (field :: next :: fields))
      with (field +:+ String "," (join_commas (next :: fields))).
    rewrite csv_loop_app, (csv_loop_plain _ _ Hplain).
    rewrite csv_loop_comma by reflexivity. cbn [result current].
    change ("" +:+ field) with field. rewrite Htrim.
    rewrite (IH next (before ++ [field])%list Hrest).
    by rewrite <- app_assoc.
Qed.

(** X24: [parseCSVLine] reads back what a join with commas wrote: for one or
    more fields that are trimmed and hold neither a comma nor a double
    quote, the line made by joining them parses to those very fields. *)
Theorem parseCSVLine_join (field : string) (fields : list string) :
  Forall (fun f => all_chars (none_of [","%char; "034"%char]) f = true
                   /\ trim f = f) (field :: fields) ->
  parseCSVLine (join_commas (field :: fields)) = field :: fields.
Proof.
  intros Hall. unfold parseCSVLine.
  exact (csv_loop_fields fields field [] Hall).
Qed.

Lemma parseCSVLine_join_witness :
  parseCSVLine "Ann Lee,annlee,https://leetcode.com/annlee,10,,30"
  = ["Ann Lee"; "annlee"; "https://leetcode.com/annlee"; "10"; ""; "30"].
Proof.
  apply (parseCSVLine_join "Ann Lee"
           ["annlee"; "https://leetcode.com/annlee"; "10"; ""; "30"]).
  repeat constructor.
Defined.

(** Inside quotes every character but a quote is added to the current
    field, commas included. *)
Lemma csv_loop_quoted s st :
  all_chars (none_of ["034"%char]) s = true ->
  inQuotes st = true ->
  csv_loop s st
  = {| result := result st; current := current st +:+ s; inQuotes := true |}.
Proof.
  revert st. induction s as [|c s IH]; intros st.
  - intros _ Hq. simpl. rewrite append_nil_r. destruct st. simpl in Hq. by subst.
  - simpl. intros [Hc Hs]%andb_true_iff Hq.
    apply andb_true_iff in Hc as [Hquote _]. apply negb_true_iff in Hquote.
    assert (Hstep : csv_step st c
              = {| result := result st; current := current st +:+ String c "";
                   inQuotes := true |}).
    { unfold csv_step. rewrite Hquote, Hq, andb_false_r. reflexivity. }
    rewrite Hstep, IH by done. cbn [result current]. by rewrite append_assoc.
Qed.

(** X25: double quotes protect commas: a text without quotes put between two
    double quotes is read as one field, the text trimmed, however many
    commas it holds. *)
Theorem parseCSVLine_quoted (s : string) :
  all_chars (none_of ["034"%char]) s = true ->
  parseCSVLine (String "034" (s +:+ String "034" "")) = [trim s].
Proof.
  intros Hs. unfold parseCSVLine. cbn [csv_loop].
  change (csv_step {| result := []; current := ""; inQuotes := false |} "034")
    with {| result := []; current := ""; inQuotes := true |}.
  rewrite csv_loop_app.
  rewrite (csv_loop_quoted s {| result := []; current := ""; inQuotes := true |}
             Hs eq_refl).
  reflexivity.
Qed.

Lemma parseCSVLine_quoted_witness :
  parseCSVLine (String "034" (" Lee, Ann " +:+ String "034" "")) = ["Lee, Ann"].
Proof. apply (parseCSVLine_quoted " Lee, Ann "). reflexivity. Defined.

Lemma csv_loop_count s st :
  all_chars (none_of ["034"%char]) s = true ->
  inQuotes st = false ->
  length (result (csv_loop s st)) = (length (result st) + count_char "," s)%nat.
Proof.
  revert st. induction s as [|c s IH]; intros st; [simpl; lia|].
  simpl. intros [Hc Hs]%andb_true_iff Hq.
  apply andb_true_iff in Hc as [Hquote _]. apply negb_true_iff in Hquote.
  unfold csv_step. rewrite Hquote, Hq, andb_true_r.
  destruct (Ascii.eqb c ",") eqn:Hcomma.
  - rewrite IH by done. simpl. rewrite length_app. simpl. lia.
  - rewrite IH by done. simpl. lia.
Qed.

(** X26: on a line without double quotes, [parseCSVLine] gives one field more
    than the line has commas. *)
Theorem parseCSVLine_field_count (line : string) :
  all_chars (none_of ["034"%char]) line = true ->
  length (parseCSVLine line) = S (count_char "," line).
Proof.
  intros Hline. unfold parseCSVLine. rewrite length_app.
  rewrite (csv_loop_count line
             {| result := []; current := ""; inQuotes := false |} Hline eq_refl).
  simpl. lia.
Qed.

Lemma parseCSVLine_field_count_witness :
  length (parseCSVLine "a,b,,d") = 4%nat.
Proof. apply (parseCSVLine_field_count "a,b,,d"). reflexivity. Defined.

(** ** Scores *)

Lemma read_digits_step c rest acc :
  is_digit c = true ->
  read_digits (String c rest) acc
  = read_digits rest (Some (10 * default 0 acc + digit_value c)).
Proof. intros Hc. simpl. by rewrite Hc. Qed.

Ltac eval_digit :=
  match goal with
  | |- context [digit_value ?c] =>
      let x := eval vm_compute in (digit_value c) in
      change (digit_value c) with x
  end.

Ltac read_digit IH :=
  rewrite read_digits_step by reflexivity;
  cbn [default from_option id]; eval_digit;
  match goal with
  | |- read_digits _ (Some ?v) = Some (Z.pos (Pos.of_uint_acc _ ?acc)) =>
      replace v with (Z.pos acc) by lia
  end;
  apply IH.

Lemma read_digits_acc d :
  forall acc,
    read_digits (NilEmpty.string_of_uint d) (Some (Z.pos acc))
    = Some (Z.pos (Pos.of_uint_acc d acc)).
Proof.
  induction d as [|d IH|d IH|d IH|d IH|d IH|d IH|d IH|d IH|d IH|d IH];
    intros acc; cbn [NilEmpty.string_of_uint Pos.of_uint_acc];
    [reflexivity | read_digit IH ..].
Qed.

Lemma read_digits_zero d :
  read_digits (NilEmpty.string_of_uint d) (Some 0)
  = Some (Z.of_N (Pos.of_uint d)).
Proof.
  induction d as [|d IH|d IH|d IH|d IH|d IH|d IH|d IH|d IH|d IH|d IH];
    cbn [NilEmpty.string_of_uint Pos.of_uint]; [reflexivity | ..];
    rewrite read_digits_step by reflexivity;
    [exact IH | apply (read_digits_acc d) ..].
Qed.

Lemma read_digits_uint d :
  d <> Decimal.Nil ->
  read_digits (NilEmpty.string_of_uint d) None = Some (Z.of_N (Pos.of_uint d)).
Proof.
  destruct d; [done | ..]; intros _;
    cbn [NilEmpty.string_of_uint Pos.of_uint];
    rewrite read_digits_step by reflexivity;
    [apply read_digits_zero | apply (read_digits_acc d) ..].
Qed.

Lemma numeral10_unsigned d :
  d <> Decimal.Nil ->
  numeral10 (NilEmpty.string_of_uint d) = Some (Z.of_N (Pos.of_uint d)).
Proof.
  intros Hd. pose proof (read_digits_uint d Hd) as Hread.
  destruct d; [done | ..]; unfold numeral10;
    cbn [NilEmpty.string_of_uint] in *;
    rewrite trimStart_fixed by reflexivity; by rewrite Hread.
Qed.

Lemma numeral10_show_Z n : numeral10 (show_Z n) = Some n.
Proof.
  unfold show_Z. destruct n as [|p|p]; [reflexivity | |].
  - cbn [Z.to_int NilZero.string_of_int].
    pose proof (Unsigned.to_uint_nonnil p) as Hd.
    pose proof (Unsigned.of_to p) as Hp.
    unfold NilZero.string_of_uint. destruct (Pos.to_uint p) eqn:Hu; [done | ..];
      rewrite <- Hu in *; rewrite numeral10_unsigned by done; by rewrite Hp.
  - cbn [Z.to_int NilZero.string_of_int].
    pose proof (Unsigned.to_uint_nonnil p) as Hd.
    pose proof (Unsigned.of_to p) as Hp.
    assert (Hread : read_digits (NilZero.string_of_uint (Pos.to_uint p)) None
                    = Some (Z.pos p)).
    { unfold NilZero.string_of_uint. destruct (Pos.to_uint p) eqn:Hu; [done | ..];
        rewrite <- Hu in *; rewrite read_digits_uint by done; by rewrite Hp. }
    unfold numeral10. rewrite trimStart_fixed by reflexivity.
    by rewrite Hread.
Qed.

Lemma all_chars_impl (test1 test2 : ascii -> bool) s :
  (forall c, test1 c = true -> test2 c = true) ->
  all_chars test1 s = true -> all_chars test2 s = true.
Proof.
  intros Himpl. induction s as [|c s IH]; [done|]. simpl.
  intros [Hc Hs]%andb_true_iff. by rewrite (Himpl c Hc), IH.
Qed.

Lemma digit_or_minus_solid c :
  CacheStatusPanel.digit_or_minus c = true -> negb (is_space c) = true.
Proof.
  destruct c as [[] [] [] [] [] [] [] []]; try reflexivity; discriminate.
Qed.

Lemma trimStart_solid_head c rest :
  is_space c = false -> trimStart (String c rest) = String c rest.
Proof. apply trimStart_fixed. Qed.

Lemma trimStart_solid s :
  all_chars (fun c => negb (is_space c)) s = true -> trimStart s = s.
Proof.
  destruct s as [|c s]; [done|]. simpl. intros [Hc _]%andb_true_iff.
  apply negb_true_iff in Hc. by rewrite Hc.
Qed.

Lemma trimEnd_solid s :
  all_chars (fun c => negb (is_space c)) s = true -> trimEnd s = s.
Proof.
  induction s as [|c s IH]; [done|]. rewrite trimEnd_cons. simpl.
  intros [Hc Hs]%andb_true_iff. apply negb_true_iff in Hc.
  rewrite (IH Hs), Hc. by destruct s.
Qed.

Lemma trimStart_blanks_app blanks s :
  all_chars is_space blanks = true -> trimStart (blanks +:+ s) = trimStart s.
Proof.
  induction blanks as [|c blanks IH]; [done|]. simpl.
  intros [Hc Hs]%andb_true_iff. rewrite Hc. by apply IH.
Qed.

Lemma trimEnd_blanks blanks :
  all_chars is_space blanks = true -> trimEnd blanks = "".
Proof.
  induction blanks as [|c blanks IH]; [done|]. rewrite trimEnd_cons. simpl.
  intros [Hc Hs]%andb_true_iff. by rewrite (IH Hs), Hc.
Qed.

Lemma trimEnd_app_blanks s blanks :
  all_chars is_space blanks = true -> trimEnd (s +:+ blanks) = trimEnd s.
Proof.
  intros Hb. induction s as [|c s IH]; [by apply trimEnd_blanks|].
  change (String c s +:+ blanks) with (String c (s +:+ blanks)).
  by rewrite !trimEnd_cons, IH.
Qed.

Lemma trimStart_blanks blanks :
  all_chars is_space blanks = true -> trimStart blanks = "".
Proof.
  induction blanks as [|c blanks IH]; [done|]. simpl.
  intros [Hc Hs]%andb_true_iff. rewrite Hc. by apply IH.
Qed.

Lemma trim_padded before s after :
  all_chars is_space before = true ->
  all_chars is_space after = true ->
  all_chars (fun c => negb (is_space c)) s = true ->
  trim (before +:+ s +:+ after) = s.
Proof.
  intros Hb Ha Hs. unfold trim. rewrite trimStart_blanks_app by done.
  destruct s as [|c s].
  - change ("" +:+ after) with after. by rewrite trimStart_blanks.
  - change (String c s +:+ after) with (String c (s +:+ after)).
    rewrite (trimStart_solid_head c (s +:+ after)).
    + change (String c (s +:+ after)) with (String c s +:+ after).
      rewrite trimEnd_app_blanks by done. by apply trimEnd_solid.
    + simpl in Hs. apply andb_true_iff in Hs as [Hc _].
      by apply negb_true_iff in Hc.
Qed.

Lemma to_double_not_NaN q : isNaN (to_double q) = false.
Proof.
  unfold to_double. destruct (Qcompare q 0); [reflexivity | |];
    by destruct (Qle_bool _ _).
Qed.

(** X27: [parseScore] reads a cell that holds a decimal numeral, negative ones
    included, as the double nearest to that number, whatever blanks surround
    it: as the number itself up to [2 ^ 53] either way. A cell that is empty
    or blank it reads as 0. *)
Theorem parseScore_numeral (n : Z) (before after : string) :
  all_chars is_space before = true ->
  all_chars is_space after = true ->
  parseScore (before +:+ show_Z n +:+ after) = to_double (inject_Z n)
  /\ (Z.abs n <= 2 ^ 53 -> parseScore (before +:+ show_Z n +:+ after) = int n)
  /\ parseScore (before +:+ after) = int 0.
Proof.
  intros Hb Ha.
  assert (Hsolid : all_chars (fun c => negb (is_space c)) (show_Z n) = true).
  { apply (all_chars_impl CacheStatusPanel.digit_or_minus);
      [apply digit_or_minus_solid | apply CacheStatusPanelFacts.show_Z_digits]. }
  pose proof (trim_padded before (show_Z n) after Hb Ha Hsolid) as Htrim.
  assert (Hblank : trim (before +:+ after) = "").
  { pose proof (trim_padded before "" after Hb Ha eq_refl) as H0. exact H0. }
  assert (Hread : parseScore (before +:+ show_Z n +:+ after)
                  = to_double (inject_Z n)).
  { unfold parseScore, parseInt10. rewrite Htrim, numeral10_show_Z.
    cbv zeta. rewrite to_double_not_NaN.
    destruct (String.eqb_spec (show_Z n) "") as [Hempty|_];
      [by apply CachedQueryMoreFacts.show_Z_nonempty in Hempty|].
    destruct (String.eqb_spec (before +:+ show_Z n +:+ after) "") as [Hempty|_];
      [|reflexivity].
    rewrite Hempty in Htrim. exfalso.
    by apply (CachedQueryMoreFacts.show_Z_nonempty n). }
  split; [exact Hread|]. split.
  - intros Hn. rewrite Hread. by apply NumberFacts.to_double_int.
  - unfold parseScore. rewrite Hblank.
    change (String.eqb "" "") with true. by rewrite orb_true_r.
Qed.

Lemma parseScore_numeral_witness :
  parseScore " 42 " = int 42 /\ parseScore "-7" = int (-7)
  /\ parseScore "  " = int 0
  /\ parseScore "9007199254740993" = int 9007199254740992.
Proof.
  destruct (parseScore_numeral 42 " " " " eq_refl eq_refl) as (_ & H42 & Hblank).
  destruct (parseScore_numeral (-7) "" "" eq_refl eq_refl) as (_ & H7 & _).
  destruct (parseScore_numeral 9007199254740993 "" "" eq_refl eq_refl)
    as (Hbig & _ & _).
  split; [apply H42; vm_compute; discriminate|].
  split; [apply H7; vm_compute; discriminate|].
  split; [exact Hblank|].
  etransitivity; [exact Hbig|]. vm_compute. reflexivity.
Defined.

End CsvImportFacts.
(** ** The weekly progress import: records, students and figures *)

Module WeeklyProgressImportFacts.
Import CsvImport WeeklyProgressImport.
Local Open Scope js_scope.

(** X29: the figures stored for a record whose five scores are integers of
    at most 50 bits either way, where the arithmetic of doubles is exact:
    each weekly increment is the difference of two scores, the total is the
    sum of the five, and the average weekly growth is a quarter of the last
    score minus the first, rounded to the nearest integer, halves going up,
    whatever the three scores in between. *)
Theorem weekly_figures (studentId : Z) (w1 w2 w3 w4 w5 : string)
    (n1 n2 n3 n4 n5 : Z) :
  parseScore w1 = int n1 -> parseScore w2 = int n2 -> parseScore w3 = int n3 ->
  parseScore w4 = int n4 -> parseScore w5 = int n5 ->
  Z.abs n1 <= 2 ^ 50 -> Z.abs n2 <= 2 ^ 50 -> Z.abs n3 <= 2 ^ 50 ->
  Z.abs n4 <= 2 ^ 50 -> Z.abs n5 <= 2 ^ 50 ->
  let d := weeklyProgressData_of studentId w1 w2 w3 w4 w5 in
  week2Progress d = int (n2 - n1)
  /\ week3Progress d = int (n3 - n2)
  /\ week4Progress d = int (n4 - n3)
  /\ week5Progress d = int (n5 - n4)
  /\ totalScore d = int (n1 + n2 + n3 + n4 + n5)
  /\ averageWeeklyGrowth d = int ((n5 - n1 + 2) / 4).
Proof.
  intros H1 H2 H3 H4 H5 B1 B2 B3 B4 B5. cbv zeta.
  unfold weeklyProgressData_of.
  cbn [week2Progress week3Progress week4Progress week5Progress
       averageWeeklyGrowth totalScore].
  rewrite H1, H2, H3, H4, H5.
  assert (Hbig : 2 ^ 53 = 8 * 2 ^ 50) by reflexivity.
  rewrite !NumberFacts.num_sub_int by lia.
  rewrite (NumberFacts.num_add_int n1 n2) by lia.
  rewrite (NumberFacts.num_add_int (n1 + n2) n3) by lia.
  rewrite (NumberFacts.num_add_int (n1 + n2 + n3) n4) by lia.
  rewrite (NumberFacts.num_add_int (n1 + n2 + n3 + n4) n5) by lia.
  split; [reflexivity|]. split; [reflexivity|]. split; [reflexivity|].
  split; [reflexivity|]. split; [reflexivity|].
  change (Num 0) with (int 0).
  change (List.filter (fun p => negb (isNaN p))
            [int (n2 - n1); int (n3 - n2); int (n4 - n3); int (n5 - n4)])
    with [int (n2 - n1); int (n3 - n2); int (n4 - n3); int (n5 - n4)].
  cbn [length Nat.ltb Nat.leb fold_left].
  rewrite (NumberFacts.num_add_int 0 (n2 - n1)) by lia.
  rewrite (NumberFacts.num_add_int (0 + (n2 - n1)) (n3 - n2)) by lia.
  rewrite (NumberFacts.num_add_int (0 + (n2 - n1) + (n3 - n2)) (n4 - n3)) by lia.
  rewrite (NumberFacts.num_add_int (0 + (n2 - n1) + (n3 - n2) + (n4 - n3)) (n5 - n4))
    by lia.
  rewrite NumberFacts.Math_round_quarters by lia.
  f_equal. f_equal. f_equal. lia.
Qed.

Lemma weekly_figures_witness :
  let d := weeklyProgressData_of 1 "10" "14" "20" "21" "31" in
  week2Progress d = int 4 /\ week3Progress d = int 6
  /\ week4Progress d = int 1 /\ week5Progress d = int 10
  /\ totalScore d = int 96
  /\ averageWeeklyGrowth d = int 5.
Proof.
  apply (weekly_figures 1 "10" "14" "20" "21" "31" 10 14 20 21 31);
    try reflexivity; vm_compute; discriminate.
Defined.

(** Beyond the doubles the figures are those of the doubles: two scores of 401
    digits are both [Infinity], their difference is [NaN] and is left out of
    the average, which is taken over the three weeks that remain. *)
Example weekly_figures_of_huge_scores :
  let huge := "1" +:+ String.concat "" (repeat "0000000000" 40) in
  let d := weeklyProgressData_of 1 huge huge "5" "6" "7" in
  week2Progress d = NaN /\ week3Progress d = Inf true
  /\ week4Progress d = int 1 /\ week5Progress d = int 1
  /\ averageWeeklyGrowth d = Inf true.
Proof. vm_compute. repeat split; reflexivity. Qed.

Section WithStorage.

Variable Store : Type.
Variable getStudentByUsername : string -> Eff Store (option StudentRow).
Variable getAllStudents : Eff Store (list StudentRow).
Variable createStudent : InsertStudent -> Eff Store StudentRow.
Variable getWeeklyProgressData : Z -> Eff Store (option InsertWeeklyProgressData).
Variable updateWeeklyProgressData : Z -> InsertWeeklyProgressData -> Eff Store unit.
Variable createWeeklyProgressData : InsertWeeklyProgressData -> Eff Store unit.
Variable toLowerCase : string -> string.
Variable error_text : JsError -> string.
Variable readFile : string -> Outcome string.

Local Notation process :=
  (processStudentWeeklyProgress Store getStudentByUsername getAllStudents
     createStudent getWeeklyProgressData updateWeeklyProgressData
     createWeeklyProgressData toLowerCase error_text).
Local Notation process_all :=
  (process_lines Store getStudentByUsername getAllStudents
     createStudent getWeeklyProgressData updateWeeklyProgressData
     createWeeklyProgressData toLowerCase error_text).
Local Notation import :=
  (importWeeklyProgressFromCSV Store getStudentByUsername getAllStudents
     createStudent getWeeklyProgressData updateWeeklyProgressData
     createWeeklyProgressData toLowerCase error_text readFile).

(** X28: a record with fewer than eight fields, or whose username field is
    blank, is only counted as skipped: the storage is not called, nothing is
    printed and no error is recorded. *)
Theorem unusable_record_skipped (record : list string) (w : ImportWorld Store) :
  (length record < 8)%nat \/ trim (nth 1 record "") = "" ->
  process record w
  = (Returned tt,
     {| storage := storage w;
        stats := {| imported := imported (stats w);
                    updated := updated (stats w);
                    skipped := skipped (stats w) + 1;
                    errors := errors (stats w) |};
        console := console w |}).
Proof.
  intros Hrecord. unfold processStudentWeeklyProgress.
  destruct (length record <? 8)%nat eqn:Hshort; [reflexivity|].
  destruct Hrecord as [Hlen | Hblank].
  - apply Nat.ltb_ge in Hshort. lia.
  - rewrite Hblank. reflexivity.
Qed.

(** Every storage call but [createStudent] returns. *)
Hypothesis getStudentByUsername_returns :
  forall username, always_returns (getStudentByUsername username).
Hypothesis getAllStudents_returns : always_returns getAllStudents.
Hypothesis getWeeklyProgressData_returns :
  forall studentId, always_returns (getWeeklyProgressData studentId).
Hypothesis updateWeeklyProgressData_returns :
  forall studentId data, always_returns (updateWeeklyProgressData studentId data).
Hypothesis createWeeklyProgressData_returns :
  forall data, always_returns (createWeeklyProgressData data).

Ltac tidy := cbv beta iota delta [storage stats console].

Ltac write_record :=
  match goal with
  | |- context [getWeeklyProgressData ?i ?s] =>
      let existing := fresh "existing" in
      let s' := fresh "s" in
      let E := fresh "E" in
      destruct (getWeeklyProgressData_returns i s) as (existing & s' & E);
      rewrite E; tidy;
      destruct existing
  end;
  match goal with
  | |- context [updateWeeklyProgressData ?i ?d ?s] =>
      let s' := fresh "s" in
      let E := fresh "E" in
      destruct (updateWeeklyProgressData_returns i d s) as ([] & s' & E);
      rewrite E; tidy
  | |- context [createWeeklyProgressData ?d ?s] =>
      let s' := fresh "s" in
      let E := fresh "E" in
      destruct (createWeeklyProgressData_returns d s) as ([] & s' & E);
      rewrite E; tidy
  end;
  (eexists; split; [reflexivity|]; unfold counted; cbn; split; lia).

Lemma process_counts (record : list string) (w : ImportWorld Store) :
  exists w',
    process record w = (Returned tt, w')
    /\ counted (stats w') = counted (stats w) + 1
    /\ Z.of_nat (length (errors (stats w'))) - skipped (stats w')
       <= Z.of_nat (length (errors (stats w))) - skipped (stats w).
Proof.
  unfold processStudentWeeklyProgress.
  destruct (length record <? 8)%nat;
    [eexists; split; [reflexivity|]; unfold counted; cbn; split; lia|].
  destruct (String.eqb (trim (nth 1 record "")) "");
    [eexists; split; [reflexivity|]; unfold counted; cbn; split; lia|].
  destruct (String.eqb (nth 1 record "") "");
    [eexists; split; [reflexivity|]; unfold counted; cbn; split; lia|].
  unfold bind, on_storage, ret, try_catch, console_print, push_error,
    bump_skipped, bump_updated, bump_imported, get_stats, set_stats.
  destruct (getStudentByUsername_returns (nth 1 record "") (storage w))
    as (byUsername & s1 & E1).
  rewrite E1. tidy. destruct byUsername as [student|]; [write_record|].
  destruct (getAllStudents_returns s1) as (allStudents & s2 & E2).
  rewrite E2. tidy.
  destruct (find _ allStudents) as [student|]; [write_record|].
  destruct (find _ allStudents) as [student|]; [write_record|].
  tidy.
  match goal with
  | |- context [createStudent ?i ?s] =>
      destruct (createStudent i s) as [[student|error] s3]
  end; tidy.
  - write_record.
  - eexists; split; [reflexivity|]. unfold counted. cbn.
    rewrite length_app. cbn. split; lia.
Qed.

Lemma process_lines_count (dataLines : list string) (w : ImportWorld Store) :
  exists w',
    process_all dataLines w = (Returned tt, w')
    /\ counted (stats w') = counted (stats w) + Z.of_nat (length dataLines)
    /\ Z.of_nat (length (errors (stats w'))) - skipped (stats w')
       <= Z.of_nat (length (errors (stats w))) - skipped (stats w).
Proof.
  revert w. induction dataLines as [|line rest IH]; intros w.
  - exists w. cbn. split; [reflexivity|]. split; lia.
  - destruct (process_counts (parseCSVLine line) w) as (w1 & E1 & Hcount1 & Herr1).
    destruct (IH w1) as (w2 & E2 & Hcount2 & Herr2).
    exists w2. split; [|split; [cbn [length]; lia|lia]].
    cbn [process_lines]. unfold bind at 1. unfold process_line, try_catch.
    rewrite E1. exact E2.
Qed.

(** X30: reading a file whose storage calls, [createStudent] apart, all
    return: with no non-blank line the import throws
    [Failed to import weekly progress CSV: ...] around [CSV file is empty];
    otherwise it returns its statistics, in which every non-blank line after
    the header is counted exactly once as imported, updated or skipped, and
    every recorded error belongs to a skipped record. *)
Theorem import_accounts_for_every_line
    (csvFilePath csvContent : string) (w : ImportWorld Store) :
  readFile csvFilePath = Returned csvContent ->
  let lines := List.filter nonblank (split_lines csvContent) in
  (lines = [] ->
   fst (import csvFilePath w)
   = Thrown (JsErr ("Failed to import weekly progress CSV: "
                    +:+ error_text (JsErr "CSV file is empty"))))
  /\ (lines <> [] ->
      exists s w',
        import csvFilePath w = (Returned s, w')
        /\ counted s = Z.of_nat (length (tl lines))
        /\ Z.of_nat (length (errors s)) <= skipped s).
Proof.
  intros Hread. cbv zeta.
  unfold importWeeklyProgressFromCSV, bind, set_stats, try_catch, attempt,
    console_print, get_stats, ret, throw.
  rewrite Hread.
  destruct (List.filter nonblank (split_lines csvContent))
    as [|header dataLines]; (split; intros Hlines; [|]); try done.
  cbv beta iota delta [length Nat.eqb tl storage stats console].
  match goal with
  | |- context [process_lines _ _ _ _ _ _ _ _ _ ?l ?w0] =>
      destruct (process_lines_count l w0) as (w1 & E & Hcount & Herr)
  end.
  rewrite E. eexists _, _. split; [reflexivity|].
  change (counted (stats w1) = Z.of_nat (length dataLines)
          /\ Z.of_nat (length (errors (stats w1))) <= skipped (stats w1)).
  unfold counted in *. cbn in Hcount, Herr. split; lia.
Qed.

End WithStorage.

Lemma unusable_record_skipped_witness :
  processStudentWeeklyProgress demo_store demo_getStudentByUsername
    demo_getAllStudents demo_createStudent demo_getWeeklyProgressData
    demo_updateWeeklyProgressData demo_createWeeklyProgressData
    (fun s => s) demo_error_text
    ["No Name"; "  "; ""; "1"; "2"; "3"; "4"; "5"] demo_world
  = (Returned tt,
     {| storage := [];
        stats := {| imported := 0; updated := 0; skipped := 1; errors := [] |};
        console := [] |}).
Proof.
  apply (unusable_record_skipped demo_store demo_getStudentByUsername
           demo_getAllStudents demo_createStudent demo_getWeeklyProgressData
           demo_updateWeeklyProgressData demo_createWeeklyProgressData
           (fun s => s) demo_error_text
           ["No Name"; "  "; ""; "1"; "2"; "3"; "4"; "5"] demo_world).
  right. reflexivity.
Defined.

Lemma import_accounts_for_every_line_witness :
  exists s w',
    importWeeklyProgressFromCSV demo_store demo_getStudentByUsername
      demo_getAllStudents demo_createStudent demo_getWeeklyProgressData
      demo_updateWeeklyProgressData demo_createWeeklyProgressData
      (fun s => s) demo_error_text (fun _ => Returned demo_file)
      "weekly.csv" demo_world
    = (Returned s, w')
    /\ counted s = 2
    /\ Z.of_nat (length (errors s)) <= skipped s.
Proof.
  refine (proj2 (import_accounts_for_every_line demo_store
           demo_getStudentByUsername demo_getAllStudents demo_createStudent
           demo_getWeeklyProgressData demo_updateWeeklyProgressData
           demo_createWeeklyProgressData (fun s => s) demo_error_text
           (fun _ => Returned demo_file)
           _ _ _ _ _ "weekly.csv" demo_file demo_world eq_refl) _).
  - intros username s. eexists _, _. reflexivity.
  - intros s. eexists _, _. reflexivity.
  - intros studentId s. eexists _, _. reflexivity.
  - intros studentId data s. eexists _, _. reflexivity.
  - intros data s. eexists _, _. reflexivity.
  - vm_compute. discriminate.
Defined.

End WeeklyProgressImportFacts.
